(** * SceneManager (CS-330 OpenGL scene): a shallow embedding and its properties

    The development follows [Source/SceneManager.cpp]:
    - [F32], [F64]: IEEE-754 binary32 / binary64 values, the [float] and
      [double] of the C++ source, built on the standard [SpecFloat]
      specification of floating-point arithmetic;
    - [glm]: the vector and matrix operations of the GLM library that
      [SetTransformations] calls;
    - the calls the scene manager makes to its collaborators (stb_image,
      OpenGL, [ShaderManager], [ShapeMeshes]) are recorded as a log of
      [Call]s, and the shader's uniforms are kept in a finite map;
    - the methods of [SceneManager] are written in a state monad with an
      outcome for undefined behaviour (null dereference, array access out of
      bounds). *)

From Stdlib Require Import ZArith QArith Floats.SpecFloat Lia Bool.
From stdpp Require Import base gmap list strings.

Open Scope Z_scope.

(* ===================================================================== *)
(** ** Floating-point numbers *)
(* ===================================================================== *)

(** C++ [float]: IEEE-754 binary32, 24 bits of precision, [emax = 128]. *)
Module F32.

Definition prec : Z := 24.
Definition emax : Z := 128.

Definition float : Type := spec_float.

Definition add : float -> float -> float := SFadd prec emax.
Definition sub : float -> float -> float := SFsub prec emax.
Definition mul : float -> float -> float := SFmul prec emax.
Definition div : float -> float -> float := SFdiv prec emax.
Definition sqrt : float -> float := SFsqrt prec emax.
Definition opp : float -> float := SFopp.

(** The value of a decimal literal with suffix [f] (and of an integer
    converted to [float]): the binary32 number nearest to the rational [q],
    obtained by one correctly rounded division of its numerator by its
    denominator. *)
Definition of_Q (q : Q) : float :=
  match Qnum q with
  | Z0 => S754_zero false
  | Zpos n => div (S754_finite false n 0) (S754_finite false (Qden q) 0)
  | Zneg n => div (S754_finite true n 0) (S754_finite false (Qden q) 0)
  end.

Definition zero : float := S754_zero false.
Definition one : float := S754_finite false 8388608 (-23).

(** A binary32 datum that denotes a real number: a zero or a finite value
    in canonical form (neither an infinity nor a NaN). *)
Definition is_finite (x : float) : bool :=
  match x with
  | S754_zero _ => true
  | S754_finite _ m e => bounded prec emax m e
  | S754_infinity _ | S754_nan => false
  end.

(** [-0.0] read as [+0.0]; every other value is left alone. *)
Definition abs_zero (x : float) : float :=
  match x with
  | S754_zero _ => S754_zero false
  | _ => x
  end.

End F32.

(** C++ [double]: IEEE-754 binary64.  Only literals without the [f] suffix
    have this type in the source; they are converted to [float] when they
    are stored or passed. *)
Module F64.

Definition prec : Z := 53.
Definition emax : Z := 1024.

Definition of_Q (q : Q) : spec_float :=
  match Qnum q with
  | Z0 => S754_zero false
  | Zpos n => SFdiv prec emax (S754_finite false n 0) (S754_finite false (Qden q) 0)
  | Zneg n => SFdiv prec emax (S754_finite true n 0) (S754_finite false (Qden q) 0)
  end.

(** Conversion [double -> float]: round to nearest binary32. *)
Definition to_float (x : spec_float) : F32.float :=
  match x with
  | S754_finite s m e => binary_round F32.prec F32.emax s m e
  | _ => x
  end.

End F64.

(** [flt q] is the C++ literal [q f]; [dbl q] is the literal [q] (a
    [double]) converted to [float]; [int_to_float n] an [int] literal
    converted to [float]. *)
Definition flt (q : Q) : F32.float := F32.of_Q q.
Definition dbl (q : Q) : F32.float := F64.to_float (F64.of_Q q).
Definition int_to_float (n : Z) : F32.float := F32.of_Q (inject_Z n).
Arguments flt q%_Q.
Arguments dbl q%_Q.

(** The C library's single-precision cosine and sine ([std::cos],
    [std::sin] on [float]).  Their results are not fixed bit for bit by any
    standard, so they are an interface that the model is parameterised by;
    what ISO C (Annex F) does fix is the value at zero: [cos(+0) = 1] and
    [sin(+0) = +0]. *)
Class Libm : Type := {
  cosf : F32.float -> F32.float;
  sinf : F32.float -> F32.float;
  cosf_zero : cosf (S754_zero false) = S754_finite false 8388608 (-23);
  sinf_zero : sinf (S754_zero false) = S754_zero false
}.

(* ===================================================================== *)
(** ** GLM: vectors, matrices and the transformations of
       [glm/gtx/transform.hpp] *)
(* ===================================================================== *)

Module glm.

Record vec2 : Type := Vec2 { v2_x : F32.float; v2_y : F32.float }.
Record vec3 : Type := Vec3 { v3_x : F32.float; v3_y : F32.float; v3_z : F32.float }.
Record vec4 : Type :=
  Vec4 { v4_x : F32.float; v4_y : F32.float; v4_z : F32.float; v4_w : F32.float }.

(** [mat4] is column major: [m[i]] is column [i]. *)
Record mat4 : Type := Mat4 { col0 : vec4; col1 : vec4; col2 : vec4; col3 : vec4 }.

(** [v * s], [s * v] and [a + b], component by component. *)
Definition vec4_scale (v : vec4) (s : F32.float) : vec4 :=
  Vec4 (F32.mul (v4_x v) s) (F32.mul (v4_y v) s) (F32.mul (v4_z v) s) (F32.mul (v4_w v) s).

Definition vec4_add (a b : vec4) : vec4 :=
  Vec4 (F32.add (v4_x a) (v4_x b)) (F32.add (v4_y a) (v4_y b))
       (F32.add (v4_z a) (v4_z b)) (F32.add (v4_w a) (v4_w b)).

Definition vec3_scale (v : vec3) (s : F32.float) : vec3 :=
  Vec3 (F32.mul (v3_x v) s) (F32.mul (v3_y v) s) (F32.mul (v3_z v) s).

Definition scalar_vec3 (s : F32.float) (v : vec3) : vec3 :=
  Vec3 (F32.mul s (v3_x v)) (F32.mul s (v3_y v)) (F32.mul s (v3_z v)).

(** [mat4(1.0f)]: the identity matrix. *)
Definition mat4_identity : mat4 :=
  Mat4 (Vec4 F32.one F32.zero F32.zero F32.zero)
       (Vec4 F32.zero F32.one F32.zero F32.zero)
       (Vec4 F32.zero F32.zero F32.one F32.zero)
       (Vec4 F32.zero F32.zero F32.zero F32.one).

(** [operator*(mat4, mat4)]:
    [Result[j] = A[0]*B[j][0] + A[1]*B[j][1] + A[2]*B[j][2] + A[3]*B[j][3]]. *)
Definition mat4_mul_col (a : mat4) (b : vec4) : vec4 :=
  vec4_add (vec4_add (vec4_add (vec4_scale (col0 a) (v4_x b))
                               (vec4_scale (col1 a) (v4_y b)))
                     (vec4_scale (col2 a) (v4_z b)))
           (vec4_scale (col3 a) (v4_w b)).

Definition mat4_mul (a b : mat4) : mat4 :=
  Mat4 (mat4_mul_col a (col0 b)) (mat4_mul_col a (col1 b))
       (mat4_mul_col a (col2 b)) (mat4_mul_col a (col3 b)).

(** [glm::radians]: [degrees * 0.01745329251994329576923690768489],
    the constant converted to [float]. *)
Definition radians (degrees : F32.float) : F32.float :=
  F32.mul degrees (dbl 0.01745329251994329576923690768489).

(** [glm::dot], [glm::inversesqrt] and [glm::normalize] on [vec3]. *)
Definition dot (a b : vec3) : F32.float :=
  F32.add (F32.add (F32.mul (v3_x a) (v3_x b)) (F32.mul (v3_y a) (v3_y b)))
          (F32.mul (v3_z a) (v3_z b)).

Definition inversesqrt (x : F32.float) : F32.float := F32.div F32.one (F32.sqrt x).

Definition normalize (v : vec3) : vec3 := vec3_scale v (inversesqrt (dot v v)).

(** [translate(m, v)]:
    [Result = m; Result[3] = m[0]*v[0] + m[1]*v[1] + m[2]*v[2] + m[3]]. *)
Definition translate_mat (m : mat4) (v : vec3) : mat4 :=
  Mat4 (col0 m) (col1 m) (col2 m)
       (vec4_add (vec4_add (vec4_add (vec4_scale (col0 m) (v3_x v))
                                     (vec4_scale (col1 m) (v3_y v)))
                           (vec4_scale (col2 m) (v3_z v)))
                 (col3 m)).

(** [scale(m, v)]: [Result[i] = m[i] * v[i]] for [i < 3], [Result[3] = m[3]]. *)
Definition scale_mat (m : mat4) (v : vec3) : mat4 :=
  Mat4 (vec4_scale (col0 m) (v3_x v)) (vec4_scale (col1 m) (v3_y v))
       (vec4_scale (col2 m) (v3_z v)) (col3 m).

Section Rotate.
Context {libm : Libm}.

(** [rotate(m, angle, v)], the axis-angle rotation applied to [m]. *)
Definition rotate_mat (m : mat4) (angle : F32.float) (v : vec3) : mat4 :=
  let a := angle in
  let c := cosf a in
  let s := sinf a in
  let axis := normalize v in
  let temp := scalar_vec3 (F32.sub F32.one c) axis in
  let r00 := F32.add c (F32.mul (v3_x temp) (v3_x axis)) in
  let r01 := F32.add (F32.mul (v3_x temp) (v3_y axis)) (F32.mul s (v3_z axis)) in
  let r02 := F32.sub (F32.mul (v3_x temp) (v3_z axis)) (F32.mul s (v3_y axis)) in
  let r10 := F32.sub (F32.mul (v3_y temp) (v3_x axis)) (F32.mul s (v3_z axis)) in
  let r11 := F32.add c (F32.mul (v3_y temp) (v3_y axis)) in
  let r12 := F32.add (F32.mul (v3_y temp) (v3_z axis)) (F32.mul s (v3_x axis)) in
  let r20 := F32.add (F32.mul (v3_z temp) (v3_x axis)) (F32.mul s (v3_y axis)) in
  let r21 := F32.sub (F32.mul (v3_z temp) (v3_y axis)) (F32.mul s (v3_x axis)) in
  let r22 := F32.add c (F32.mul (v3_z temp) (v3_z axis)) in
  let combine (x y z : F32.float) : vec4 :=
    vec4_add (vec4_add (vec4_scale (col0 m) x) (vec4_scale (col1 m) y))
             (vec4_scale (col2 m) z) in
  Mat4 (combine r00 r01 r02) (combine r10 r11 r12) (combine r20 r21 r22) (col3 m).

(** The one-argument forms of [glm/gtx/transform.hpp] start from the
    identity matrix. *)
Definition rotate (angle : F32.float) (v : vec3) : mat4 :=
  rotate_mat mat4_identity angle v.

End Rotate.

Definition translate (v : vec3) : mat4 := translate_mat mat4_identity v.
Definition scale (v : vec3) : mat4 := scale_mat mat4_identity v.

End glm.

(* ===================================================================== *)
(** ** The collaborators of the scene manager *)
(* ===================================================================== *)

(** Modelled from the spec: ShapeMeshes.h is not part of the sources at
    hand; the spec names the face subsets of a box
    "front/back/top/bottom/left/right".  This is [ShapeMeshes::BoxSide]. *)
Module BoxSide.
Inductive t : Type := front | back | top | bottom | left | right.
End BoxSide.

(** The value written by one of the [ShaderManager] setters; the
    constructor records which setter was called. *)
Inductive UniformValue : Type :=
| UInt (v : Z)                 (* setIntValue *)
| UBool (v : bool)             (* setBoolValue *)
| UFloat (v : F32.float)       (* setFloatValue *)
| UVec2 (v : glm.vec2)         (* setVec2Value *)
| UVec3 (v : glm.vec3)         (* setVec3Value *)
| UVec4 (v : glm.vec4)         (* setVec4Value *)
| UMat4 (v : glm.mat4)         (* setMat4Value *)
| USampler2D (slot : Z).       (* setSampler2DValue *)

(** OpenGL enumerants used by [CreateGLTexture]. *)
Inductive GLenum : Type :=
| GL_TEXTURE_2D | GL_TEXTURE_WRAP_S | GL_TEXTURE_WRAP_T | GL_REPEAT
| GL_TEXTURE_MIN_FILTER | GL_TEXTURE_MAG_FILTER | GL_LINEAR
| GL_RGB8 | GL_RGB | GL_RGBA8 | GL_RGBA | GL_UNSIGNED_BYTE.

(** What stb_image decodes from a file. *)
Record Image : Type := {
  img_width : Z;
  img_height : Z;
  img_channels : Z;
  img_data : list Z
}.

(** The lines written to [std::cout]. *)
Inductive Message : Type :=
| msg_loaded (filename : string) (width height channels : Z)
| msg_not_implemented (channels : Z)
| msg_could_not_load (filename : string).

(** One call from the scene manager to the outside, with its arguments.
    [glActiveTexture i] stands for [glActiveTexture(GL_TEXTURE0 + i)];
    [glGenTextures name] carries the name the driver returned;
    the two cylinder draws carry the arguments that the call site passes
    explicitly (none when it relies on the defaults of ShapeMeshes.h). *)
Inductive Call : Type :=
| stbi_set_flip_vertically_on_load (flag : bool)
| stbi_load (filename : string)
| stbi_image_free
| cout (m : Message)
| glGenTextures (name : Z)
| glBindTexture (target : GLenum) (texture : Z)
| glTexParameteri (target pname param : GLenum)
| glTexImage2D (target : GLenum) (level : Z) (internalformat : GLenum)
    (width height border : Z) (format type : GLenum)
| glGenerateMipmap (target : GLenum)
| glActiveTexture (unit : Z)
| SetUniform (name : string) (v : UniformValue)
| LoadPlaneMesh | LoadSphereMesh | LoadCylinderMesh | LoadTorusMesh
| LoadBoxMesh | LoadTaperedCylinderMesh
| DrawPlaneMesh | DrawBoxMesh | DrawBoxMeshSide (side : BoxSide.t)
| DrawSphereMesh | DrawHalfSphereMesh | DrawTorusMesh
| DrawCylinderMesh (args : list bool)
| DrawTaperedCylinderMesh (args : list bool).

(** Modelled from the spec: [ShaderManager] is not part of the sources at
    hand; the spec describes it as "named-uniform setters for scalar,
    boolean, 2/3/4-component vector, 4x4 matrix, and texture-sampler-slot
    values, addressed by string uniform name".  Its state is the value last
    written under each name. *)
Record ShaderManager : Type := { uniforms : gmap string UniformValue }.

(* ===================================================================== *)
(** ** The scene manager's data *)
(* ===================================================================== *)

(** [GLuint] and [int] are 32 bits wide. *)
Definition GLuint_modulus : Z := 2 ^ 32.
Definition to_GLuint (z : Z) : Z := z mod GLuint_modulus.

(** Conversion of a [GLuint] to [int]: values from [2^31] on wrap around
    to the negative numbers. *)
Definition GLuint_to_int (u : Z) : Z :=
  if u <? 2 ^ 31 then u else u - GLuint_modulus.

(** Modelled from the spec: SceneManager.h is not part of the sources at
    hand.  The spec gives a texture entry as "{tag: string, gpuHandle:
    opaque integer}" and a material entry as "{tag: string, diffuseColor:
    3-float tuple, specularColor: 3-float tuple, shininess: float}"; the
    field names are those SceneManager.cpp uses.  [ID] receives a [GLuint]
    and its address is passed to [glGenTextures]: it is an unsigned 32-bit
    name. *)
Module TEXTURE_INFO.
Record t : Type := mk { ID : Z; tag : string }.
End TEXTURE_INFO.

(** Modelled from the spec: the material entry of SceneManager.h (see
    above), with the four fields that SceneManager.cpp assigns and reads. *)
Module OBJECT_MATERIAL.
Record t : Type := mk {
  diffuseColor : glm.vec3;
  specularColor : glm.vec3;
  shininess : F32.float;
  tag : string
}.
End OBJECT_MATERIAL.

(** The members of [SceneManager] together with the part of the outside
    world that its methods read and change.
    - [m_pShaderManager] is [None] for a null pointer, otherwise the shader
      manager it points to;
    - [m_textureIDs] is the fixed-size array of the header; its length is
      the array's size;
    - [m_loadedTextures] is an [int]; the methods only ever use it as an
      index into that array and add one to it after a store that
      succeeded, so it is kept as an integer without wrap-around;
    - [m_basicMeshes] is allocated by the constructor and never null; the
      calls made through it appear in [calls];
    - [files] gives the images that [stbi_load] can decode, by path;
    - [gl_names] is the supply of texture names of the OpenGL driver, of
      which [gl_generated] have been handed out;
    - [calls] is the log of the calls made so far, oldest first. *)
Record State : Type := {
  m_pShaderManager : option ShaderManager;
  m_loadedTextures : Z;
  m_textureIDs : list TEXTURE_INFO.t;
  m_objectMaterials : list OBJECT_MATERIAL.t;
  files : gmap string Image;
  gl_names : nat -> Z;
  gl_generated : nat;
  calls : list Call
}.

Definition set_pShaderManager (v : option ShaderManager) (s : State) : State :=
  {| m_pShaderManager := v; m_loadedTextures := m_loadedTextures s;
     m_textureIDs := m_textureIDs s; m_objectMaterials := m_objectMaterials s;
     files := files s; gl_names := gl_names s; gl_generated := gl_generated s;
     calls := calls s |}.

Definition set_loadedTextures (v : Z) (s : State) : State :=
  {| m_pShaderManager := m_pShaderManager s; m_loadedTextures := v;
     m_textureIDs := m_textureIDs s; m_objectMaterials := m_objectMaterials s;
     files := files s; gl_names := gl_names s; gl_generated := gl_generated s;
     calls := calls s |}.

Definition set_textureIDs (v : list TEXTURE_INFO.t) (s : State) : State :=
  {| m_pShaderManager := m_pShaderManager s; m_loadedTextures := m_loadedTextures s;
     m_textureIDs := v; m_objectMaterials := m_objectMaterials s;
     files := files s; gl_names := gl_names s; gl_generated := gl_generated s;
     calls := calls s |}.

Definition set_objectMaterials (v : list OBJECT_MATERIAL.t) (s : State) : State :=
  {| m_pShaderManager := m_pShaderManager s; m_loadedTextures := m_loadedTextures s;
     m_textureIDs := m_textureIDs s; m_objectMaterials := v;
     files := files s; gl_names := gl_names s; gl_generated := gl_generated s;
     calls := calls s |}.

Definition set_gl_generated (v : nat) (s : State) : State :=
  {| m_pShaderManager := m_pShaderManager s; m_loadedTextures := m_loadedTextures s;
     m_textureIDs := m_textureIDs s; m_objectMaterials := m_objectMaterials s;
     files := files s; gl_names := gl_names s; gl_generated := v;
     calls := calls s |}.

Definition set_calls (v : list Call) (s : State) : State :=
  {| m_pShaderManager := m_pShaderManager s; m_loadedTextures := m_loadedTextures s;
     m_textureIDs := m_textureIDs s; m_objectMaterials := m_objectMaterials s;
     files := files s; gl_names := gl_names s; gl_generated := gl_generated s;
     calls := v |}.

(* ===================================================================== *)
(** ** The monad of the methods *)
(* ===================================================================== *)

(** The two ways a method can leave defined behaviour. *)
Inductive Fault : Type :=
| NullPointer      (* a call through a null [m_pShaderManager] *)
| OutOfBounds.     (* an access to [m_textureIDs] outside the array *)

Inductive Outcome (A : Type) : Type :=
| Done (a : A) (s : State)
| Undefined (f : Fault).
Arguments Done {A} a s.
Arguments Undefined {A} f.

Definition M (A : Type) : Type := State -> Outcome A.

#[global] Instance M_ret : MRet M := fun A a s => Done a s.
#[global] Instance M_bind : MBind M := fun A B f m s =>
  match m s with
  | Done a s' => f a s'
  | Undefined e => Undefined e
  end.

Definition get {A : Type} (proj : State -> A) : M A := fun s => Done (proj s) s.
Definition modify (f : State -> State) : M unit := fun s => Done tt (f s).
Definition undefined {A : Type} (e : Fault) : M A := fun _ => Undefined e.

(** Record one call in the log. *)
Definition emit (c : Call) : M unit := modify (fun s => set_calls (calls s ++ [c]) s).

(** A setter of the shader manager, called through [m_pShaderManager]. *)
Definition shader_set (name : string) (v : UniformValue) : M unit :=
  p ← get m_pShaderManager;
  match p with
  | None => undefined NullPointer
  | Some sm =>
      modify (set_pShaderManager (Some {| uniforms := <[name := v]> (uniforms sm) |})) ;;
      emit (SetUniform name v)
  end.

(** [m_textureIDs[index]], read and written; outside the array the
    behaviour is undefined. *)
Definition read_texture (index : Z) : M TEXTURE_INFO.t :=
  arr ← get m_textureIDs;
  if index <? 0 then undefined OutOfBounds
  else match arr !! Z.to_nat index with
       | Some e => mret e
       | None => undefined OutOfBounds
       end.

Definition write_texture (index : Z) (f : TEXTURE_INFO.t -> TEXTURE_INFO.t) : M unit :=
  e ← read_texture index;
  modify (fun s => set_textureIDs (<[Z.to_nat index := f e]> (m_textureIDs s)) s).

Definition set_ID (v : Z) (e : TEXTURE_INFO.t) : TEXTURE_INFO.t :=
  TEXTURE_INFO.mk v (TEXTURE_INFO.tag e).
Definition set_tag (v : string) (e : TEXTURE_INFO.t) : TEXTURE_INFO.t :=
  TEXTURE_INFO.mk (TEXTURE_INFO.ID e) v.

(** [glGenTextures(1, &name)]: the driver hands out its next name. *)
Definition gen_texture : M Z :=
  names ← get gl_names;
  n ← get gl_generated;
  let name := to_GLuint (names n) in
  modify (set_gl_generated (S n)) ;;
  emit (glGenTextures name) ;;
  mret name.

(* ===================================================================== *)
(** ** The methods of [SceneManager] *)
(* ===================================================================== *)

Open Scope string_scope.

(** The names of the uniforms (the globals of the anonymous namespace). *)
Definition g_ModelName : string := "model".
Definition g_ColorValueName : string := "objectColor".
Definition g_TextureValueName : string := "objectTexture".
Definition g_UseTextureName : string := "bUseTexture".
Definition g_UseLightingName : string := "bUseLighting".

(** [CreateGLTexture(filename, tag)]. *)
Definition CreateGLTexture (filename : string) (tag : string) : M bool :=
  emit (stbi_set_flip_vertically_on_load true) ;;
  emit (stbi_load filename) ;;
  fs ← get files ;
  match fs !! filename with
  | Some image =>
      let width := img_width image in
      let height := img_height image in
      let colorChannels := img_channels image in
      emit (cout (msg_loaded filename width height colorChannels)) ;;
      textureID ← gen_texture ;
      emit (glBindTexture GL_TEXTURE_2D textureID) ;;
      emit (glTexParameteri GL_TEXTURE_2D GL_TEXTURE_WRAP_S GL_REPEAT) ;;
      emit (glTexParameteri GL_TEXTURE_2D GL_TEXTURE_WRAP_T GL_REPEAT) ;;
      emit (glTexParameteri GL_TEXTURE_2D GL_TEXTURE_MIN_FILTER GL_LINEAR) ;;
      emit (glTexParameteri GL_TEXTURE_2D GL_TEXTURE_MAG_FILTER GL_LINEAR) ;;
      let register : M bool :=
        emit (glGenerateMipmap GL_TEXTURE_2D) ;;
        emit stbi_image_free ;;
        emit (glBindTexture GL_TEXTURE_2D 0) ;;
        index ← get m_loadedTextures ;
        write_texture index (set_ID textureID) ;;
        index ← get m_loadedTextures ;
        write_texture index (set_tag tag) ;;
        index ← get m_loadedTextures ;
        modify (set_loadedTextures (index + 1)) ;;
        mret true in
      if (colorChannels =? 3)%Z then
        emit (glTexImage2D GL_TEXTURE_2D 0 GL_RGB8 width height 0 GL_RGB GL_UNSIGNED_BYTE) ;;
        register
      else if (colorChannels =? 4)%Z then
        emit (glTexImage2D GL_TEXTURE_2D 0 GL_RGBA8 width height 0 GL_RGBA GL_UNSIGNED_BYTE) ;;
        register
      else
        emit (cout (msg_not_implemented colorChannels)) ;;
        mret false
  | None =>
      emit (cout (msg_could_not_load filename)) ;;
      mret false
  end.

(** The three texture loops run [index] from [0] while
    [index < m_loadedTextures]; in the recursive functions below [n] is the
    number of entries still to visit, [m_loadedTextures - index]. *)

(** [BindGLTextures()]. *)
Fixpoint BindGLTextures_from (n : nat) (i : Z) : M unit :=
  match n with
  | O => mret tt
  | S n' =>
      emit (glActiveTexture i) ;;
      e ← read_texture i ;
      emit (glBindTexture GL_TEXTURE_2D (TEXTURE_INFO.ID e)) ;;
      BindGLTextures_from n' (i + 1)
  end.

Definition BindGLTextures : M unit :=
  loaded ← get m_loadedTextures ;
  BindGLTextures_from (Z.to_nat loaded) 0.

(** [DestroyGLTextures()]: generates a new name into every used entry. *)
Fixpoint DestroyGLTextures_from (n : nat) (i : Z) : M unit :=
  match n with
  | O => mret tt
  | S n' =>
      read_texture i ;;
      name ← gen_texture ;
      write_texture i (set_ID name) ;;
      DestroyGLTextures_from n' (i + 1)
  end.

Definition DestroyGLTextures : M unit :=
  loaded ← get m_loadedTextures ;
  DestroyGLTextures_from (Z.to_nat loaded) 0.

(** [FindTextureID(tag)]: the loop stops at the first entry whose tag
    compares equal ([bFound]), and returns its [ID] converted to [int];
    it returns the initial [-1] when it runs to the end. *)
Fixpoint FindTextureID_from (n : nat) (index : Z) (tag : string) : M Z :=
  match n with
  | O => mret (-1)
  | S n' =>
      e ← read_texture index ;
      if String.eqb (TEXTURE_INFO.tag e) tag
      then mret (GLuint_to_int (TEXTURE_INFO.ID e))
      else FindTextureID_from n' (index + 1) tag
  end.

Definition FindTextureID (tag : string) : M Z :=
  loaded ← get m_loadedTextures ;
  FindTextureID_from (Z.to_nat loaded) 0 tag.

(** [FindTextureSlot(tag)]: the same loop, returning the index. *)
Fixpoint FindTextureSlot_from (n : nat) (index : Z) (tag : string) : M Z :=
  match n with
  | O => mret (-1)
  | S n' =>
      e ← read_texture index ;
      if String.eqb (TEXTURE_INFO.tag e) tag
      then mret index
      else FindTextureSlot_from n' (index + 1) tag
  end.

Definition FindTextureSlot (tag : string) : M Z :=
  loaded ← get m_loadedTextures ;
  FindTextureSlot_from (Z.to_nat loaded) 0 tag.

(** [FindMaterial(tag, material)].  [material] is passed by reference: the
    function returns its result together with the content of [material]
    after the call.  The loop visits [m_objectMaterials[index]] from
    [index = 0] and stops at the first match, whose three lighting fields
    it copies. *)
Fixpoint FindMaterial_from (ms : list OBJECT_MATERIAL.t) (tag : string)
    (material : OBJECT_MATERIAL.t) : OBJECT_MATERIAL.t :=
  match ms with
  | [] => material
  | m :: rest =>
      if String.eqb (OBJECT_MATERIAL.tag m) tag
      then OBJECT_MATERIAL.mk (OBJECT_MATERIAL.diffuseColor m)
                              (OBJECT_MATERIAL.specularColor m)
                              (OBJECT_MATERIAL.shininess m)
                              (OBJECT_MATERIAL.tag material)
      else FindMaterial_from rest tag material
  end.

Definition FindMaterial (tag : string) (material : OBJECT_MATERIAL.t)
    : M (bool * OBJECT_MATERIAL.t) :=
  ms ← get m_objectMaterials ;
  if (length ms =? 0)%nat then mret (false, material)
  else mret (true, FindMaterial_from ms tag material).

(** [SetShaderColor(red, green, blue, alpha)]. *)
Definition SetShaderColor (redColorValue greenColorValue blueColorValue alphaValue : F32.float)
    : M unit :=
  let currentColor := glm.Vec4 redColorValue greenColorValue blueColorValue alphaValue in
  p ← get m_pShaderManager ;
  if p is Some _ then
    shader_set g_UseTextureName (UInt 0) ;;
    shader_set g_ColorValueName (UVec4 currentColor)
  else mret tt.

(** [SetShaderTexture(textureTag)]. *)
Definition SetShaderTexture (textureTag : string) : M unit :=
  p ← get m_pShaderManager ;
  if p is Some _ then
    shader_set g_UseTextureName (UInt 1) ;;
    textureID ← FindTextureSlot textureTag ;
    shader_set g_TextureValueName (USampler2D textureID)
  else mret tt.

(** [SetTextureUVScale(u, v)]. *)
Definition SetTextureUVScale (u v : F32.float) : M unit :=
  p ← get m_pShaderManager ;
  if p is Some _ then shader_set "UVscale" (UVec2 (glm.Vec2 u v))
  else mret tt.

(** [SetShaderMaterial(materialTag)].  The local [material] is declared
    without an initialiser; [material] below is whatever it holds when
    [FindMaterial] is called. *)
Definition SetShaderMaterial (material : OBJECT_MATERIAL.t) (materialTag : string) : M unit :=
  ms ← get m_objectMaterials ;
  if (0 <? length ms)%nat then
    r ← FindMaterial materialTag material ;
    let bReturn : bool := fst r in
    let material : OBJECT_MATERIAL.t := snd r in
    if bReturn then
      shader_set "material.diffuseColor" (UVec3 (OBJECT_MATERIAL.diffuseColor material)) ;;
      shader_set "material.specularColor" (UVec3 (OBJECT_MATERIAL.specularColor material)) ;;
      shader_set "material.shininess" (UFloat (OBJECT_MATERIAL.shininess material))
    else mret tt
  else mret tt.

(** [LoadSceneTextures()]. *)
Definition LoadSceneTextures : M unit :=
  CreateGLTexture "textures/black_marble.jpg" "box" ;;
  CreateGLTexture "textures/cement.jpg" "potBody" ;;
  CreateGLTexture "textures/cement.jpg" "potRim" ;;
  CreateGLTexture "textures/cement.jpg" "potSphereBottom" ;;
  CreateGLTexture "textures/dirt.jpg" "potDirt" ;;
  CreateGLTexture "textures/bricks_white_seamless.jpg" "backsplash" ;;
  CreateGLTexture "textures/marble_light_seamless.jpg" "counter" ;;
  CreateGLTexture "textures/green_texture.jpg" "stem" ;;
  CreateGLTexture "textures/green_texture.jpg" "leaf" ;;
  CreateGLTexture "textures/metal.jpg" "metal" ;;
  CreateGLTexture "textures/plastic_dark_seamless.png" "plastic" ;;
  BindGLTextures.

(** [DefineObjectMaterials()]. *)
Definition push_back (m : OBJECT_MATERIAL.t) : M unit :=
  modify (fun s => set_objectMaterials (m_objectMaterials s ++ [m]) s).

Definition cementMaterial : OBJECT_MATERIAL.t :=
  OBJECT_MATERIAL.mk (glm.Vec3 (flt 0.5) (flt 0.5) (flt 0.5))
                     (glm.Vec3 (flt 0.4) (flt 0.4) (flt 0.4)) (dbl 0.5) "cement".
Definition tileMaterial : OBJECT_MATERIAL.t :=
  OBJECT_MATERIAL.mk (glm.Vec3 (flt 0.3) (flt 0.2) (flt 0.1))
                     (glm.Vec3 (flt 0.4) (flt 0.5) (flt 0.6)) (dbl 25.0) "tile".
Definition marbleMaterial : OBJECT_MATERIAL.t :=
  OBJECT_MATERIAL.mk (glm.Vec3 (flt 0.6) (flt 0.6) (flt 0.6))
                     (glm.Vec3 (flt 0.3) (flt 0.4) (flt 0.4)) (dbl 28.0) "marble".
Definition dirtMaterial : OBJECT_MATERIAL.t :=
  OBJECT_MATERIAL.mk (glm.Vec3 (flt 0.5) (flt 0.5) (flt 0.5))
                     (glm.Vec3 (flt 0.1) (flt 0.1) (flt 0.1)) (dbl 0.3) "dirt".
Definition metalMaterial : OBJECT_MATERIAL.t :=
  OBJECT_MATERIAL.mk (glm.Vec3 (flt 0.5) (flt 0.4) (flt 0.4))
                     (glm.Vec3 (flt 0.4) (flt 0.4) (flt 0.4)) (dbl 24.0) "metal".
Definition glassMaterial : OBJECT_MATERIAL.t :=
  OBJECT_MATERIAL.mk (glm.Vec3 (flt 0.9) (flt 0.9) (flt 0.9))
                     (glm.Vec3 (flt 1.0) (flt 1.0) (flt 1.0)) (dbl 95.0) "glass".
Definition plasticMaterial : OBJECT_MATERIAL.t :=
  OBJECT_MATERIAL.mk (glm.Vec3 (flt 0.9) (flt 0.9) (flt 0.9))
                     (glm.Vec3 (flt 0.3) (flt 0.3) (flt 0.3)) (dbl 20.0) "plastic".

Definition DefineObjectMaterials : M unit :=
  push_back cementMaterial ;;
  push_back tileMaterial ;;
  push_back marbleMaterial ;;
  push_back dirtMaterial ;;
  push_back metalMaterial ;;
  push_back glassMaterial ;;
  push_back plasticMaterial.

(** [SetupSceneLights()]: every call goes through [m_pShaderManager]
    without a null test. *)
Definition setVec3Value (name : string) (x y z : F32.float) : M unit :=
  shader_set name (UVec3 (glm.Vec3 x y z)).
Definition setBoolValue (name : string) (b : bool) : M unit :=
  shader_set name (UBool b).

Definition SetupSceneLights : M unit :=
  setBoolValue g_UseLightingName true ;;
  setVec3Value "directionalLight.direction" (flt 1.0) (flt 1.0) (flt 1.0) ;;
  setVec3Value "directionalLight.ambient" (flt 0.52) (flt 0.56) (flt 0.5) ;;
  setVec3Value "directionalLight.diffuse" (flt 0.6) (flt 0.6) (flt 0.6) ;;
  setVec3Value "directionalLight.specular" (flt 0.0) (flt 0.0) (flt 0.0) ;;
  setBoolValue "directionalLight.bActive" true ;;
  setVec3Value "pointLights[0].position" (flt (-4.0)) (flt 8.0) (flt 0.0) ;;
  setVec3Value "pointLights[0].ambient" (flt 0.05) (flt 0.05) (flt 0.05) ;;
  setVec3Value "pointLights[0].diffuse" (flt 0.3) (flt 0.3) (flt 0.3) ;;
  setVec3Value "pointLights[0].specular" (flt 0.1) (flt 0.1) (flt 0.1) ;;
  setBoolValue "pointLights[0].bActive" true ;;
  setVec3Value "pointLights[1].position" (flt 4.0) (flt 8.0) (flt 0.0) ;;
  setVec3Value "pointLights[1].ambient" (flt 0.05) (flt 0.05) (flt 0.05) ;;
  setVec3Value "pointLights[1].diffuse" (flt 0.3) (flt 0.3) (flt 0.3) ;;
  setVec3Value "pointLights[1].specular" (flt 0.1) (flt 0.1) (flt 0.1) ;;
  setBoolValue "pointLights[1].bActive" true ;;
  setVec3Value "pointLights[2].position" (flt 3.8) (flt 5.5) (flt 4.0) ;;
  setVec3Value "pointLights[2].ambient" (flt 0.05) (flt 0.05) (flt 0.05) ;;
  setVec3Value "pointLights[2].diffuse" (flt 0.2) (flt 0.2) (flt 0.2) ;;
  setVec3Value "pointLights[2].specular" (flt 0.8) (flt 0.8) (flt 0.8) ;;
  setBoolValue "pointLights[2].bActive" true.

(** [PrepareScene()]. *)
Definition PrepareScene : M unit :=
  LoadSceneTextures ;;
  DefineObjectMaterials ;;
  SetupSceneLights ;;
  emit LoadPlaneMesh ;;
  emit LoadSphereMesh ;;
  emit LoadCylinderMesh ;;
  emit LoadTorusMesh ;;
  emit LoadBoxMesh ;;
  emit LoadTaperedCylinderMesh.

Section Rendering.
Context {libm : Libm}.

(** [SetTransformations(scaleXYZ, Xrot, Yrot, Zrot, positionXYZ)]. *)
Definition SetTransformations (scaleXYZ : glm.vec3)
    (XrotationDegrees YrotationDegrees ZrotationDegrees : F32.float)
    (positionXYZ : glm.vec3) : M unit :=
  let scale := glm.scale scaleXYZ in
  let rotationX :=
    glm.rotate (glm.radians XrotationDegrees) (glm.Vec3 (flt 1.0) (flt 0.0) (flt 0.0)) in
  let rotationY :=
    glm.rotate (glm.radians YrotationDegrees) (glm.Vec3 (flt 0.0) (flt 1.0) (flt 0.0)) in
  let rotationZ :=
    glm.rotate (glm.radians ZrotationDegrees) (glm.Vec3 (flt 0.0) (flt 0.0) (flt 1.0)) in
  let translation := glm.translate positionXYZ in
  let modelView :=
    glm.mat4_mul (glm.mat4_mul (glm.mat4_mul (glm.mat4_mul translation rotationZ)
                                             rotationY) rotationX) scale in
  p ← get m_pShaderManager ;
  if p is Some _ then shader_set g_ModelName (UMat4 modelView)
  else mret tt.

(** [RenderScene()].  The assignments to the locals [scaleXYZ],
    [XrotationDegrees], ... become [let]s, in the order of the source;
    [material k] is the content of the uninitialised local [material] at
    the [k]-th call of [SetShaderMaterial]. *)
Definition RenderScene (material : nat -> OBJECT_MATERIAL.t) : M unit :=
  let XrotationDegrees := flt 0.0 in
  let YrotationDegrees := flt 0.0 in
  let ZrotationDegrees := flt 0.0 in
  let scaleXYZ := glm.Vec3 (flt 20.0) (flt 1.0) (flt 10.0) in
  let XrotationDegrees := flt 0.0 in
  let YrotationDegrees := flt 0.0 in
  let ZrotationDegrees := flt 0.0 in
  let positionXYZ := glm.Vec3 (flt 0.0) (flt 0.0) (flt 0.0) in
  SetTransformations scaleXYZ XrotationDegrees YrotationDegrees ZrotationDegrees positionXYZ ;;
  SetShaderTexture "counter" ;;
  SetShaderMaterial (material 0%nat) "marble" ;;
  emit DrawPlaneMesh ;;
  let scaleXYZ := glm.Vec3 (flt 20.0) (flt 1.0) (flt 10.0) in
  let XrotationDegrees := flt 90.0 in
  let YrotationDegrees := flt 00.0 in
  let ZrotationDegrees := flt 0.0 in
  let positionXYZ := glm.Vec3 (flt 0.0) (flt 10.0) (flt (-10.0)) in
  SetTransformations scaleXYZ XrotationDegrees YrotationDegrees ZrotationDegrees positionXYZ ;;
  SetShaderTexture "backsplash" ;;
  SetShaderMaterial (material 1%nat) "tile" ;;
  emit DrawPlaneMesh ;;
  let scaleXYZ := glm.Vec3 (flt 15.0) (flt 1.0) (flt 9.0) in
  let XrotationDegrees := flt 0.0 in
  let YrotationDegrees := flt 0.0 in
  let ZrotationDegrees := flt 0.0 in
  let positionXYZ := glm.Vec3 (flt 3.0) (flt 1.0) (flt (-5.0)) in
  SetTransformations scaleXYZ XrotationDegrees YrotationDegrees ZrotationDegrees positionXYZ ;;
  SetShaderTexture "box" ;;
  SetShaderMaterial (material 2%nat) "marble" ;;
  emit DrawBoxMesh ;;
  let scaleXYZ := glm.Vec3 (flt 3.0) (flt 2.0) (flt 3.0) in
  let XrotationDegrees := flt 0.0 in
  let YrotationDegrees := flt 0.0 in
  let ZrotationDegrees := flt 0.0 in
  let positionXYZ := glm.Vec3 (flt 6.0) (flt 3.0) (flt (-4.0)) in
  SetTransformations scaleXYZ XrotationDegrees YrotationDegrees ZrotationDegrees positionXYZ ;;
  SetShaderTexture "potSphereBottom" ;;
  SetShaderMaterial (material 3%nat) "cement" ;;
  emit DrawSphereMesh ;;
  let scaleXYZ := glm.Vec3 (flt 3.0) (flt 4.0) (flt 3.0) in
  let XrotationDegrees := flt 0.0 in
  let YrotationDegrees := flt 0.0 in
  let ZrotationDegrees := flt 0.0 in
  let positionXYZ := glm.Vec3 (flt 6.0) (flt 3.0) (flt (-4.0)) in
  SetTransformations scaleXYZ XrotationDegrees YrotationDegrees ZrotationDegrees positionXYZ ;;
  SetShaderTexture "potDirt" ;;
  SetShaderMaterial (material 4%nat) "dirt" ;;
  emit (DrawCylinderMesh [true; false; false]) ;;
  SetShaderTexture "potBody" ;;
  SetShaderMaterial (material 5%nat) "cement" ;;
  emit (DrawCylinderMesh [false; true; true]) ;;
  let scaleXYZ := glm.Vec3 (flt 2.5) (flt 2.6) (flt 2.0) in
  let XrotationDegrees := flt 90.0 in
  let YrotationDegrees := flt 0.0 in
  let ZrotationDegrees := flt 0.0 in
  let positionXYZ := glm.Vec3 (flt 6.0) (flt 7.0) (flt (-4.0)) in
  SetTransformations scaleXYZ XrotationDegrees YrotationDegrees ZrotationDegrees positionXYZ ;;
  SetShaderTexture "potRim" ;;
  SetShaderMaterial (material 6%nat) "cement" ;;
  emit DrawTorusMesh ;;
  let scaleXYZ := glm.Vec3 (flt 0.1) (flt 8.0) (flt 0.1) in
  let XrotationDegrees := flt 0.0 in
  let YrotationDegrees := flt 0.0 in
  let ZrotationDegrees := flt 0.0 in
  let positionXYZ := glm.Vec3 (flt 6.0) (flt 2.0) (flt (-4.0)) in
  SetTransformations scaleXYZ XrotationDegrees YrotationDegrees ZrotationDegrees positionXYZ ;;
  SetShaderTexture "stem" ;;
  emit (DrawCylinderMesh []) ;;
  let scaleXYZ := glm.Vec3 (flt 0.1) (flt 8.0) (flt 0.1) in
  let XrotationDegrees := flt 10.0 in
  let YrotationDegrees := flt 0.0 in
  let ZrotationDegrees := flt 0.0 in
  let positionXYZ := glm.Vec3 (flt 6.0) (flt 2.0) (flt (-4.0)) in
  SetTransformations scaleXYZ XrotationDegrees YrotationDegrees ZrotationDegrees positionXYZ ;;
  SetShaderTexture "stem" ;;
  emit (DrawCylinderMesh []) ;;
  let scaleXYZ := glm.Vec3 (flt 0.1) (flt 8.0) (flt 0.1) in
  let XrotationDegrees := flt 10.0 in
  let YrotationDegrees := flt 0.0 in
  let ZrotationDegrees := flt 0.0 in
  let positionXYZ := glm.Vec3 (flt 6.5) (flt 2.0) (flt (-4.1)) in
  SetTransformations scaleXYZ XrotationDegrees YrotationDegrees ZrotationDegrees positionXYZ ;;
  SetShaderTexture "stem" ;;
  emit (DrawCylinderMesh []) ;;
  let scaleXYZ := glm.Vec3 (flt 0.1) (flt 9.0) (flt 0.1) in
  let XrotationDegrees := flt 10.0 in
  let YrotationDegrees := flt 0.0 in
  let ZrotationDegrees := flt 0.0 in
  let positionXYZ := glm.Vec3 (flt 5.8) (flt 2.0) (flt (-3.7)) in
  SetTransformations scaleXYZ XrotationDegrees YrotationDegrees ZrotationDegrees positionXYZ ;;
  SetShaderTexture "stem" ;;
  emit (DrawCylinderMesh []) ;;
  let scaleXYZ := glm.Vec3 (flt 0.1) (flt 8.0) (flt 0.1) in
  let XrotationDegrees := flt 10.0 in
  let YrotationDegrees := flt 0.0 in
  let ZrotationDegrees := flt 0.0 in
  let positionXYZ := glm.Vec3 (flt 5.3) (flt 2.0) (flt (-3.7)) in
  SetTransformations scaleXYZ XrotationDegrees YrotationDegrees ZrotationDegrees positionXYZ ;;
  SetShaderTexture "stem" ;;
  emit (DrawCylinderMesh []) ;;
  let scaleXYZ := glm.Vec3 (flt 0.3) (flt 0.05) (flt 0.1) in
  let XrotationDegrees := flt 90.0 in
  let YrotationDegrees := flt 0.0 in
  let ZrotationDegrees := flt 0.0 in
  let positionXYZ := glm.Vec3 (flt 5.8) (flt 7.8) (flt (-4.0)) in
  SetTransformations scaleXYZ XrotationDegrees YrotationDegrees ZrotationDegrees positionXYZ ;;
  SetShaderTexture "leaf" ;;
  emit DrawHalfSphereMesh ;;
  let scaleXYZ := glm.Vec3 (flt 0.3) (flt 0.05) (flt 0.1) in
  let XrotationDegrees := flt 90.0 in
  let YrotationDegrees := flt 0.0 in
  let ZrotationDegrees := flt 0.0 in
  let positionXYZ := glm.Vec3 (flt 5.75) (flt 9.1) (flt (-4.0)) in
  SetTransformations scaleXYZ XrotationDegrees YrotationDegrees ZrotationDegrees positionXYZ ;;
  SetShaderTexture "leaf" ;;
  emit DrawHalfSphereMesh ;;
  let scaleXYZ := glm.Vec3 (flt 0.25) (flt 0.05) (flt 0.1) in
  let XrotationDegrees := flt 90.0 in
  let YrotationDegrees := flt 0.0 in
  let ZrotationDegrees := flt 0.0 in
  let positionXYZ := glm.Vec3 (flt 5.8) (flt 8.3) (flt (-4.0)) in
  SetTransformations scaleXYZ XrotationDegrees YrotationDegrees ZrotationDegrees positionXYZ ;;
  SetShaderTexture "leaf" ;;
  emit DrawHalfSphereMesh ;;
  let scaleXYZ := glm.Vec3 (flt 0.3) (flt 0.05) (flt 0.1) in
  let XrotationDegrees := flt 90.0 in
  let YrotationDegrees := flt 0.0 in
  let ZrotationDegrees := flt 0.0 in
  let positionXYZ := glm.Vec3 (flt 5.8) (flt 9.9) (flt (-4.0)) in
  SetTransformations scaleXYZ XrotationDegrees YrotationDegrees ZrotationDegrees positionXYZ ;;
  SetShaderTexture "leaf" ;;
  emit DrawHalfSphereMesh ;;
  let scaleXYZ := glm.Vec3 (flt 0.25) (flt 0.05) (flt 0.1) in
  let XrotationDegrees := flt 90.0 in
  let YrotationDegrees := flt 1.0 in
  let ZrotationDegrees := flt 0.0 in
  let positionXYZ := glm.Vec3 (flt 6.2) (flt 9.8) (flt (-4.0)) in
  SetTransformations scaleXYZ XrotationDegrees YrotationDegrees ZrotationDegrees positionXYZ ;;
  SetShaderTexture "leaf" ;;
  emit DrawHalfSphereMesh ;;
  let scaleXYZ := glm.Vec3 (flt 0.3) (flt 0.05) (flt 0.1) in
  let XrotationDegrees := flt 90.0 in
  let YrotationDegrees := flt 10.0 in
  let ZrotationDegrees := flt 4.0 in
  let positionXYZ := glm.Vec3 (flt 6.25) (flt 8.1) (flt (-4.0)) in
  SetTransformations scaleXYZ XrotationDegrees YrotationDegrees ZrotationDegrees positionXYZ ;;
  SetShaderTexture "leaf" ;;
  emit DrawHalfSphereMesh ;;
  let scaleXYZ := glm.Vec3 (flt 0.25) (flt 0.1) (flt 0.1) in
  let XrotationDegrees := flt 90.0 in
  let YrotationDegrees := flt 10.0 in
  let ZrotationDegrees := flt 4.0 in
  let positionXYZ := glm.Vec3 (flt 5.8) (flt 8.9) (flt (-4.0)) in
  SetTransformations scaleXYZ XrotationDegrees YrotationDegrees ZrotationDegrees positionXYZ ;;
  SetShaderTexture "leaf" ;;
  emit DrawHalfSphereMesh ;;
  let scaleXYZ := glm.Vec3 (flt 0.2) (flt 0.05) (flt 0.1) in
  let XrotationDegrees := flt 90.0 in
  let YrotationDegrees := flt 0.0 in
  let ZrotationDegrees := flt 4.0 in
  let positionXYZ := glm.Vec3 (flt 6.25) (flt 8.5) (flt (-4.0)) in
  SetTransformations scaleXYZ XrotationDegrees YrotationDegrees ZrotationDegrees positionXYZ ;;
  SetShaderTexture "leaf" ;;
  emit DrawHalfSphereMesh ;;
  let scaleXYZ := glm.Vec3 (flt 3.0) (flt 3.0) (flt 3.0) in
  let XrotationDegrees := flt 0.0 in
  let YrotationDegrees := flt 0.0 in
  let ZrotationDegrees := flt 0.0 in
  let positionXYZ := glm.Vec3 (flt 1.0) (flt 3.0) (flt (-3.07)) in
  SetTransformations scaleXYZ XrotationDegrees YrotationDegrees ZrotationDegrees positionXYZ ;;
  SetShaderTexture "plastic" ;;
  SetShaderMaterial (material 7%nat) "plastic" ;;
  emit (DrawBoxMeshSide BoxSide.back) ;;
  SetShaderTexture "plastic" ;;
  SetShaderMaterial (material 8%nat) "plastic" ;;
  emit (DrawBoxMeshSide BoxSide.top) ;;
  SetShaderTexture "plastic" ;;
  SetShaderMaterial (material 9%nat) "plastic" ;;
  emit (DrawBoxMeshSide BoxSide.bottom) ;;
  SetShaderTexture "plastic" ;;
  SetShaderMaterial (material 10%nat) "plastic" ;;
  emit (DrawBoxMeshSide BoxSide.left) ;;
  SetShaderTexture "plastic" ;;
  SetShaderMaterial (material 11%nat) "plastic" ;;
  emit (DrawBoxMeshSide BoxSide.right) ;;
  let scaleXYZ := glm.Vec3 (flt 3.0) (flt 3.0) (flt 3.0) in
  let XrotationDegrees := flt 0.0 in
  let YrotationDegrees := flt 0.0 in
  let ZrotationDegrees := flt 0.0 in
  let positionXYZ := glm.Vec3 (flt 1.0) (flt 3.0) (flt (-3.6)) in
  SetTransformations scaleXYZ XrotationDegrees YrotationDegrees ZrotationDegrees positionXYZ ;;
  SetShaderColor (int_to_float 1) (int_to_float 1) (int_to_float 1) (int_to_float 1) ;;
  SetShaderMaterial (material 12%nat) "plastic" ;;
  emit (DrawBoxMeshSide BoxSide.front) ;;
  SetShaderTexture "plastic" ;;
  SetShaderMaterial (material 13%nat) "plastic" ;;
  emit DrawBoxMesh ;;
  let scaleXYZ := glm.Vec3 (flt 0.2) (flt 0.1) (flt 0.2) in
  let XrotationDegrees := flt 90.0 in
  let YrotationDegrees := flt 0.0 in
  let ZrotationDegrees := flt 0.0 in
  let positionXYZ := glm.Vec3 (flt 1.0) (flt 3.0) (flt (-2.0)) in
  SetTransformations scaleXYZ XrotationDegrees YrotationDegrees ZrotationDegrees positionXYZ ;;
  SetShaderTexture "plastic" ;;
  emit DrawHalfSphereMesh ;;
  let scaleXYZ := glm.Vec3 (flt 0.05) (flt 1.2) (flt 0.05) in
  let XrotationDegrees := flt 0.0 in
  let YrotationDegrees := flt 0.0 in
  let ZrotationDegrees := flt 0.0 in
  let positionXYZ := glm.Vec3 (flt 1.0) (flt 3.1) (flt (-2.0)) in
  SetTransformations scaleXYZ XrotationDegrees YrotationDegrees ZrotationDegrees positionXYZ ;;
  SetShaderTexture "plastic" ;;
  emit (DrawCylinderMesh []) ;;
  let scaleXYZ := glm.Vec3 (flt 0.05) (flt 1.1) (flt 0.05) in
  let XrotationDegrees := flt 90.0 in
  let YrotationDegrees := flt 90.0 in
  let ZrotationDegrees := flt 0.0 in
  let positionXYZ := glm.Vec3 (flt 1.0) (flt 3.0) (flt (-2.0)) in
  SetTransformations scaleXYZ XrotationDegrees YrotationDegrees ZrotationDegrees positionXYZ ;;
  SetShaderTexture "plastic" ;;
  emit (DrawCylinderMesh []) ;;
  let scaleXYZ := glm.Vec3 (flt 0.5) (flt 1.0) (flt 0.5) in
  let XrotationDegrees := flt 0.0 in
  let YrotationDegrees := flt 0.0 in
  let ZrotationDegrees := flt 0.0 in
  let positionXYZ := glm.Vec3 (flt 8.7) (flt 1.5) (flt (-1.5)) in
  SetTransformations scaleXYZ XrotationDegrees YrotationDegrees ZrotationDegrees positionXYZ ;;
  SetShaderColor (int_to_float 1) (int_to_float 1) (int_to_float 1) (dbl 0.3) ;;
  SetShaderMaterial (material 14%nat) "glass" ;;
  emit (DrawCylinderMesh []) ;;
  let scaleXYZ := glm.Vec3 (flt 0.5) (flt 0.5) (flt 0.5) in
  let XrotationDegrees := flt 0.0 in
  let YrotationDegrees := flt 0.0 in
  let ZrotationDegrees := flt 0.0 in
  let positionXYZ := glm.Vec3 (flt 8.7) (flt 2.5) (flt (-1.5)) in
  SetTransformations scaleXYZ XrotationDegrees YrotationDegrees ZrotationDegrees positionXYZ ;;
  SetShaderColor (int_to_float 1) (int_to_float 1) (int_to_float 1) (dbl 0.3) ;;
  SetShaderMaterial (material 15%nat) "glass" ;;
  emit (DrawTaperedCylinderMesh []) ;;
  let scaleXYZ := glm.Vec3 (flt 0.3) (flt 0.2) (flt 0.2) in
  let XrotationDegrees := flt 0.0 in
  let YrotationDegrees := flt 0.0 in
  let ZrotationDegrees := flt 0.0 in
  let positionXYZ := glm.Vec3 (flt 8.7) (flt 3.0) (flt (-1.5)) in
  SetTransformations scaleXYZ XrotationDegrees YrotationDegrees ZrotationDegrees positionXYZ ;;
  SetShaderTexture "metal" ;;
  SetShaderMaterial (material 16%nat) "metal" ;;
  emit (DrawCylinderMesh []) ;;
  let scaleXYZ := glm.Vec3 (flt 0.3) (flt 0.2) (flt 0.2) in
  let XrotationDegrees := flt 0.0 in
  let YrotationDegrees := flt 0.0 in
  let ZrotationDegrees := flt 0.0 in
  let positionXYZ := glm.Vec3 (flt 8.7) (flt 3.2) (flt (-1.5)) in
  SetTransformations scaleXYZ XrotationDegrees YrotationDegrees ZrotationDegrees positionXYZ ;;
  SetShaderTexture "metal" ;;
  SetShaderMaterial (material 17%nat) "metal" ;;
  emit DrawHalfSphereMesh ;;
  let scaleXYZ := glm.Vec3 (flt 0.5) (flt 1.0) (flt 0.5) in
  let XrotationDegrees := flt 0.0 in
  let YrotationDegrees := flt 0.0 in
  let ZrotationDegrees := flt 0.0 in
  let positionXYZ := glm.Vec3 (flt 9.9) (flt 1.5) (flt (-1.5)) in
  SetTransformations scaleXYZ XrotationDegrees YrotationDegrees ZrotationDegrees positionXYZ ;;
  SetShaderColor (int_to_float 1) (int_to_float 1) (int_to_float 1) (dbl 0.3) ;;
  SetShaderMaterial (material 18%nat) "glass" ;;
  emit (DrawCylinderMesh []) ;;
  let scaleXYZ := glm.Vec3 (flt 0.5) (flt 0.5) (flt 0.5) in
  let XrotationDegrees := flt 0.0 in
  let YrotationDegrees := flt 0.0 in
  let ZrotationDegrees := flt 0.0 in
  let positionXYZ := glm.Vec3 (flt 9.9) (flt 2.5) (flt (-1.5)) in
  SetTransformations scaleXYZ XrotationDegrees YrotationDegrees ZrotationDegrees positionXYZ ;;
  SetShaderColor (int_to_float 1) (int_to_float 1) (int_to_float 1) (dbl 0.3) ;;
  SetShaderMaterial (material 19%nat) "glass" ;;
  emit (DrawTaperedCylinderMesh []) ;;
  let scaleXYZ := glm.Vec3 (flt 0.3) (flt 0.2) (flt 0.2) in
  let XrotationDegrees := flt 0.0 in
  let YrotationDegrees := flt 0.0 in
  let ZrotationDegrees := flt 0.0 in
  let positionXYZ := glm.Vec3 (flt 9.9) (flt 3.0) (flt (-1.5)) in
  SetTransformations scaleXYZ XrotationDegrees YrotationDegrees ZrotationDegrees positionXYZ ;;
  SetShaderTexture "metal" ;;
  SetShaderMaterial (material 20%nat) "metal" ;;
  emit (DrawCylinderMesh []) ;;
  let scaleXYZ := glm.Vec3 (flt 0.3) (flt 0.2) (flt 0.2) in
  let XrotationDegrees := flt 0.0 in
  let YrotationDegrees := flt 0.0 in
  let ZrotationDegrees := flt 0.0 in
  let positionXYZ := glm.Vec3 (flt 9.9) (flt 3.2) (flt (-1.5)) in
  SetTransformations scaleXYZ XrotationDegrees YrotationDegrees ZrotationDegrees positionXYZ ;;
  SetShaderTexture "metal" ;;
  SetShaderMaterial (material 21%nat) "metal" ;;
  emit DrawHalfSphereMesh.

End Rendering.

Close Scope string_scope.

(* ===================================================================== *)
(** ** The vocabulary of the properties *)
(* ===================================================================== *)

(** The 4x4 identity with [(a, b, c)] in the translation column. *)
Definition translation_matrix (a b c : F32.float) : glm.mat4 :=
  glm.Mat4 (glm.Vec4 F32.one F32.zero F32.zero F32.zero)
           (glm.Vec4 F32.zero F32.one F32.zero F32.zero)
           (glm.Vec4 F32.zero F32.zero F32.one F32.zero)
           (glm.Vec4 a b c F32.one).

(** The matrix product, written as in the source. *)
Notation "a *m b" := (glm.mat4_mul a b) (at level 40, left associativity).

(** The value of a uniform of the shader the scene manager points to. *)
Definition uniform (name : string) (st : State) : option UniformValue :=
  sm ← m_pShaderManager st ; uniforms sm !! name.

(** The state after one setter call [name := v] on the shader [sm]. *)
Definition uniform_written (name : string) (v : UniformValue) (sm : ShaderManager)
    (st : State) : State :=
  set_calls (calls st ++ [SetUniform name v])
    (set_pShaderManager (Some {| uniforms := <[name := v]> (uniforms sm) |}) st).

(** The entries of [m_textureIDs] in use: the first [m_loadedTextures]. *)
Definition registered_textures (st : State) : list TEXTURE_INFO.t :=
  take (Z.to_nat (m_loadedTextures st)) (m_textureIDs st).

(** The comparison of the three lookups: the entry's tag equals [tag]. *)
Definition has_tag (tag : string) (e : TEXTURE_INFO.t) : Prop :=
  TEXTURE_INFO.tag e = tag.

#[global] Instance has_tag_dec (tag : string) (e : TEXTURE_INFO.t) :
  Decision (has_tag tag e).
Proof. unfold has_tag. apply _. Defined.

(** [m_loadedTextures] counts entries of the array. *)
Definition textures_in_bounds (st : State) : Prop :=
  0 <= m_loadedTextures st <= Z.of_nat (length (m_textureIDs st)).

(** Every [ID] is a [GLuint]. *)
Definition names_are_GLuint (st : State) : Prop :=
  Forall (fun e => 0 <= TEXTURE_INFO.ID e < GLuint_modulus) (m_textureIDs st).

(** A texture with the tag is registered. *)
Definition registered (st : State) (tag : string) : Prop :=
  exists e, e ∈ registered_textures st /\ TEXTURE_INFO.tag e = tag.

(** The part of the state that [RenderScene] reads: whether a shader
    manager is attached, the texture registry and the materials. *)
Definition frame (st : State)
    : bool * Z * list TEXTURE_INFO.t * list OBJECT_MATERIAL.t :=
  (bool_decide (is_Some (m_pShaderManager st)), m_loadedTextures st,
   m_textureIDs st, m_objectMaterials st).

(** [st2] is reached from [st1] by calls of [CreateGLTexture] for the
    given (file, tag) pairs, in order, each of which returned [true]. *)
Inductive loaded_from : State -> list (string * string) -> State -> Prop :=
| loaded_nil (st : State) : loaded_from st [] st
| loaded_cons (st st1 st2 : State) (filename tag : string)
    (rest : list (string * string)) :
    CreateGLTexture filename tag st = Done true st1 ->
    loaded_from st1 rest st2 ->
    loaded_from st ((filename, tag) :: rest) st2.

(** [CreateGLTexture] for every (file, tag) pair in turn, until one
    fails. *)
Fixpoint load_all (reqs : list (string * string)) : M bool :=
  match reqs with
  | [] => mret true
  | (filename, tag) :: rest =>
      b ← CreateGLTexture filename tag ;
      if (b : bool) then load_all rest else mret false
  end.

(** The state in which [c] leaves [st] ([st] itself when [c] is undefined
    there). *)
Definition state_after {A : Type} (c : M A) (st : State) : State :=
  match c st with
  | Done _ st' => st'
  | Undefined _ => st
  end.

(** The material tags that [RenderScene] asks for. *)
Definition scene_material_tags : list string :=
  ["cement"; "tile"; "marble"; "dirt"; "metal"; "glass"; "plastic"]%string.

(** A material with the tag has been defined. *)
Definition material_defined (st : State) (tag : string) : Prop :=
  Exists (fun m => OBJECT_MATERIAL.tag m = tag) (m_objectMaterials st).

(** What [RenderScene] needs of the state: a shader manager, a texture
    count within the array, and the materials of the scene. *)
Definition render_ready (st : State) : Prop :=
  is_Some (m_pShaderManager st) /\
  textures_in_bounds st /\
  Forall (material_defined st) scene_material_tags.

(** The draw calls of [ShapeMeshes], and the calls that are either a draw
    or a uniform write. *)
Definition is_draw (c : Call) : bool :=
  match c with
  | DrawPlaneMesh | DrawBoxMesh | DrawBoxMeshSide _ | DrawSphereMesh
  | DrawHalfSphereMesh | DrawTorusMesh | DrawCylinderMesh _
  | DrawTaperedCylinderMesh _ => true
  | _ => false
  end.

Definition is_render_call (c : Call) : bool :=
  match c with
  | SetUniform _ _ => true
  | _ => is_draw c
  end.

(** [c1] and [c2] behave alike: from two ready states with the same frame
    both return, with the same value and after the same calls, all of them
    uniform writes or draws, and neither changes the frame. *)
Definition alike {A : Type} (c1 c2 : M A) : Prop :=
  forall st1 st2, render_ready st1 -> frame st1 = frame st2 ->
    exists (a : A) (evs : list Call) (st1' st2' : State),
      c1 st1 = Done a st1' /\ c2 st2 = Done a st2' /\
      frame st1' = frame st1 /\ frame st2' = frame st2 /\
      calls st1' = calls st1 ++ evs /\ calls st2' = calls st2 ++ evs /\
      Forall (fun c => is_render_call c = true) evs.

(** [st'] extends [st]: the texture count stays within the array, the
    materials of [st] are a prefix of those of [st'], and a shader manager
    is attached to both or to neither. *)
Definition grows (st st' : State) : Prop :=
  (textures_in_bounds st -> textures_in_bounds st') /\
  (exists l, m_objectMaterials st' = m_objectMaterials st ++ l) /\
  (is_Some (m_pShaderManager st) <-> is_Some (m_pShaderManager st')).

(** Whenever [c] returns, the state it leaves extends the one it found. *)
Definition keeps {A : Type} (c : M A) : Prop :=
  forall st a st', c st = Done a st' -> grows st st'.


(** The images that [CreateGLTexture] uploads: those with 3 (RGB) or 4
    (RGBA) channels. *)
Definition supported (image : Image) : bool :=
  (img_channels image =? 3) || (img_channels image =? 4).

(** The file decodes to such an image. *)
Definition loadable (st : State) (filename : string) : bool :=
  match files st !! filename with
  | Some image => supported image
  | None => false
  end.

(** The name that the next [glGenTextures] returns. *)
Definition next_name (st : State) : Z := to_GLuint (gl_names st (gl_generated st)).

(** The [glTexImage2D] call of [CreateGLTexture] for a supported image. *)
Definition upload_call (image : Image) : Call :=
  if img_channels image =? 3
  then glTexImage2D GL_TEXTURE_2D 0 GL_RGB8 (img_width image) (img_height image) 0
         GL_RGB GL_UNSIGNED_BYTE
  else glTexImage2D GL_TEXTURE_2D 0 GL_RGBA8 (img_width image) (img_height image) 0
         GL_RGBA GL_UNSIGNED_BYTE.

(** The calls of [CreateGLTexture] for a file that decodes, up to the test
    of the channel count, and its calls after the upload. *)
Definition configure_calls (filename : string) (image : Image) (name : Z) : list Call :=
  [stbi_set_flip_vertically_on_load true; stbi_load filename;
   cout (msg_loaded filename (img_width image) (img_height image) (img_channels image));
   glGenTextures name; glBindTexture GL_TEXTURE_2D name;
   glTexParameteri GL_TEXTURE_2D GL_TEXTURE_WRAP_S GL_REPEAT;
   glTexParameteri GL_TEXTURE_2D GL_TEXTURE_WRAP_T GL_REPEAT;
   glTexParameteri GL_TEXTURE_2D GL_TEXTURE_MIN_FILTER GL_LINEAR;
   glTexParameteri GL_TEXTURE_2D GL_TEXTURE_MAG_FILTER GL_LINEAR].

Definition finish_calls : list Call :=
  [glGenerateMipmap GL_TEXTURE_2D; stbi_image_free; glBindTexture GL_TEXTURE_2D 0].

(** The calls of [BindGLTextures] for the entries [l], the first of them
    on texture unit [i]. *)
Fixpoint bind_calls (i : Z) (l : list TEXTURE_INFO.t) : list Call :=
  match l with
  | [] => []
  | e :: rest =>
      glActiveTexture i :: glBindTexture GL_TEXTURE_2D (TEXTURE_INFO.ID e)
        :: bind_calls (i + 1) rest
  end.

(** The entries [l] with the names that the driver [names] hands out from
    its [g]-th on. *)
Fixpoint rename (names : nat -> Z) (g : nat) (l : list TEXTURE_INFO.t)
    : list TEXTURE_INFO.t :=
  match l with
  | [] => []
  | e :: rest =>
      TEXTURE_INFO.mk (to_GLuint (names g)) (TEXTURE_INFO.tag e) :: rename names (S g) rest
  end.

(** What [FindTextureSlot] returns in [st]: the index of the first
    registered texture with the tag, or [-1]. *)
Definition slot_of (st : State) (tag : string) : Z :=
  match list_find (has_tag tag) (registered_textures st) with
  | Some (j, _) => Z.of_nat j
  | None => -1
  end.

(** The matrix that scales by [(a, b, c)] and then translates by
    [(x, y, z)]. *)
Definition scale_translation_matrix (a b c x y z : F32.float) : glm.mat4 :=
  glm.Mat4 (glm.Vec4 a F32.zero F32.zero F32.zero)
           (glm.Vec4 F32.zero b F32.zero F32.zero)
           (glm.Vec4 F32.zero F32.zero c F32.zero)
           (glm.Vec4 x y z F32.one).

(** A vector and a matrix with every [-0.0] read as [+0.0]. *)
Definition vec4_abs_zero (v : glm.vec4) : glm.vec4 :=
  glm.Vec4 (F32.abs_zero (glm.v4_x v)) (F32.abs_zero (glm.v4_y v))
           (F32.abs_zero (glm.v4_z v)) (F32.abs_zero (glm.v4_w v)).

Definition mat4_abs_zero (m : glm.mat4) : glm.mat4 :=
  glm.Mat4 (vec4_abs_zero (glm.col0 m)) (vec4_abs_zero (glm.col1 m))
           (vec4_abs_zero (glm.col2 m)) (vec4_abs_zero (glm.col3 m)).

(** The (file, tag) pairs that [LoadSceneTextures] passes to
    [CreateGLTexture], in the order of its calls. *)
Definition scene_texture_requests : list (string * string) :=
  [("textures/black_marble.jpg", "box");
   ("textures/cement.jpg", "potBody");
   ("textures/cement.jpg", "potRim");
   ("textures/cement.jpg", "potSphereBottom");
   ("textures/dirt.jpg", "potDirt");
   ("textures/bricks_white_seamless.jpg", "backsplash");
   ("textures/marble_light_seamless.jpg", "counter");
   ("textures/green_texture.jpg", "stem");
   ("textures/green_texture.jpg", "leaf");
   ("textures/metal.jpg", "metal");
   ("textures/plastic_dark_seamless.png", "plastic")]%string.

(** [CreateGLTexture] for each pair in turn, its result dropped as in
    [LoadSceneTextures], and then [k]. *)
Fixpoint load_then (reqs : list (string * string)) (k : M unit) : M unit :=
  match reqs with
  | [] => k
  | (filename, tag) :: rest => CreateGLTexture filename tag ;; load_then rest k
  end.

(** The requests whose file decodes to an image with 3 or 4 channels. *)
Definition loadable_requests (st : State) (reqs : list (string * string))
    : list (string * string) :=
  List.filter (fun r => loadable st (fst r)) reqs.

(** The uniforms [u] after the calls [evs]: every setter call overwrites
    the value under its name. *)
Definition replay (evs : list Call) (u : gmap string UniformValue)
    : gmap string UniformValue :=
  foldl (fun u c => match c with
                    | SetUniform name v => <[name := v]> u
                    | _ => u
                    end) u evs.

(** [st] after the calls [evs], all of them setter calls on the attached
    shader [sm] or calls that leave the scene manager alone. *)
Definition logged (evs : list Call) (sm : ShaderManager) (st : State) : State :=
  set_calls (calls st ++ evs)
    (set_pShaderManager (Some {| uniforms := replay evs (uniforms sm) |}) st).

(** The texture tags that [LoadSceneTextures] registers. *)
Definition scene_texture_tags : list string := scene_texture_requests.*2.

(** The uniforms that [RenderScene] writes. *)
Definition render_uniform_names : list string :=
  ["model"; "bUseTexture"; "objectColor"; "objectTexture";
   "material.diffuseColor"; "material.specularColor"; "material.shininess"]%string.

(** The calls that [RenderScene] makes on a scene manager in state [st]. *)
Inductive scene_call (st : State) : Call -> Prop :=
| scene_draw (c : Call) : is_draw c = true -> scene_call st c
| scene_model (m : glm.mat4) : scene_call st (SetUniform "model" (UMat4 m))
| scene_use_texture (b : Z) : b = 0 \/ b = 1 -> scene_call st (SetUniform "bUseTexture" (UInt b))
| scene_color (v : glm.vec4) : scene_call st (SetUniform "objectColor" (UVec4 v))
| scene_sampler (tag : string) :
    tag ∈ scene_texture_tags ->
    scene_call st (SetUniform "objectTexture" (USampler2D (slot_of st tag)))
| scene_diffuse (tag : string) (material : OBJECT_MATERIAL.t) :
    tag ∈ scene_material_tags ->
    scene_call st
      (SetUniform "material.diffuseColor"
         (UVec3 (OBJECT_MATERIAL.diffuseColor
                   (FindMaterial_from (m_objectMaterials st) tag material))))
| scene_specular (tag : string) (material : OBJECT_MATERIAL.t) :
    tag ∈ scene_material_tags ->
    scene_call st
      (SetUniform "material.specularColor"
         (UVec3 (OBJECT_MATERIAL.specularColor
                   (FindMaterial_from (m_objectMaterials st) tag material))))
| scene_shininess (tag : string) (material : OBJECT_MATERIAL.t) :
    tag ∈ scene_material_tags ->
    scene_call st
      (SetUniform "material.shininess"
         (UFloat (OBJECT_MATERIAL.shininess
                    (FindMaterial_from (m_objectMaterials st) tag material)))).

(** From a state with the frame of [st0] and a shader attached, [c]
    returns after calls that [RenderScene] makes in [st0], having changed
    nothing but the log and the uniforms of the shader. *)
Definition steps (st0 : State) {A : Type} (c : M A) : Prop :=
  forall (st : State) (sm : ShaderManager),
    m_pShaderManager st = Some sm -> frame st = frame st0 ->
    exists (a : A) (evs : list Call),
      c st = Done a (logged evs sm st) /\ Forall (scene_call st0) evs.

(** The materials that [DefineObjectMaterials] appends, in order. *)
Definition scene_materials : list OBJECT_MATERIAL.t :=
  [cementMaterial; tileMaterial; marbleMaterial; dirtMaterial;
   metalMaterial; glassMaterial; plasticMaterial].

(** The invariant of the texture registry: the count is within the array
    and every name is a [GLuint]. *)
Definition registry_ok (st : State) : Prop :=
  textures_in_bounds st /\ names_are_GLuint st.

(** [c] keeps the invariant of the registry whenever it returns. *)
Definition preserves {A : Type} (c : M A) : Prop :=
  forall (st : State) (a : A) (st' : State),
    registry_ok st -> c st = Done a st' -> registry_ok st'.

(** The entry that the [i]-th of a run of successful loads registers: the
    [i]-th next name of the driver, with the tag of the request. *)
Definition entry_of (st : State) (i : nat) (request : string * string) : TEXTURE_INFO.t :=
  TEXTURE_INFO.mk (to_GLuint (gl_names st (gl_generated st + i)%nat)) (snd request).

(** The draw calls of [c], whenever it returns, are [l]. *)
Definition draws (l : list Call) {A : Type} (c : M A) : Prop :=
  forall (st : State) (a : A) (st' : State),
    c st = Done a st' ->
    exists evs : list Call,
      calls st' = calls st ++ evs /\ List.filter is_draw evs = l.

(* ===================================================================== *)
(** ** Example data *)
(* ===================================================================== *)

(** A coarse stand-in for the C library: the first terms of the power
    series of cosine and sine. *)
Definition series_libm : Libm := {|
  cosf x := F32.sub F32.one (F32.div (F32.mul x x) (flt 2.0));
  sinf x := x;
  cosf_zero := eq_refl;
  sinf_zero := eq_refl
|}.

(** Modelled from the spec: SceneManager.h and the caller that constructs
    the scene manager are not part of the sources at hand.  The spec gives
    the texture registry "at most N entries where N = number of GPU texture
    slots available (hardware-imposed ceiling, commonly 16)", and the source
    comments say "There are up to 16 slots": a new scene manager has an
    array of 16 entries, none of them in use, no material, and the shader
    manager it was constructed with. *)
Definition texture_slots : nat := 16.

Definition new_scene (shader : option ShaderManager) (disk : gmap string Image)
    (driver : nat -> Z) : State := {|
  m_pShaderManager := shader;
  m_loadedTextures := 0;
  m_textureIDs := replicate texture_slots (TEXTURE_INFO.mk 0 EmptyString);
  m_objectMaterials := [];
  files := disk;
  gl_names := driver;
  gl_generated := 0;
  calls := []
|}.

Definition rgb_image : Image :=
  {| img_width := 2; img_height := 2; img_channels := 3; img_data := [] |}.
Definition rgba_image : Image :=
  {| img_width := 2; img_height := 2; img_channels := 4; img_data := [] |}.
Definition grey_alpha_image : Image :=
  {| img_width := 2; img_height := 2; img_channels := 2; img_data := [] |}.

(** A disk holding the eight image files of [LoadSceneTextures] and one
    two-channel image. *)
Definition scene_disk : gmap string Image :=
  list_to_map [
    ("textures/black_marble.jpg", rgb_image);
    ("textures/cement.jpg", rgb_image);
    ("textures/dirt.jpg", rgb_image);
    ("textures/bricks_white_seamless.jpg", rgb_image);
    ("textures/marble_light_seamless.jpg", rgb_image);
    ("textures/green_texture.jpg", rgb_image);
    ("textures/metal.jpg", rgb_image);
    ("textures/plastic_dark_seamless.png", rgba_image);
    ("textures/grey_alpha.png", grey_alpha_image)
  ].

(** A driver that numbers its textures 1, 2, 3, ... *)
Definition counting_driver (n : nat) : Z := Z.of_nat n + 1.

Definition empty_shader : ShaderManager := {| uniforms := ∅ |}.

Definition example_scene : State :=
  new_scene (Some empty_shader) scene_disk counting_driver.

Definition zero_material : OBJECT_MATERIAL.t :=
  OBJECT_MATERIAL.mk (glm.Vec3 F32.zero F32.zero F32.zero)
                     (glm.Vec3 F32.zero F32.zero F32.zero) F32.zero EmptyString.

(** The example scene after [PrepareScene]. *)
Definition prepared_scene : State := state_after PrepareScene example_scene.

(** Two textures registered. *)
Definition two_requests : list (string * string) :=
  [("textures/cement.jpg", "potBody"); ("textures/metal.jpg", "metal")]%string.
Definition two_textures_scene : State := state_after (load_all two_requests) example_scene.

(** Sixteen textures registered: the array is full. *)
Definition sixteen_requests : list (string * string) :=
  (fun tag => ("textures/cement.jpg"%string, tag)) <$>
  ["t0"; "t1"; "t2"; "t3"; "t4"; "t5"; "t6"; "t7";
   "t8"; "t9"; "t10"; "t11"; "t12"; "t13"; "t14"; "t15"]%string.
Definition full_scene : State := state_after (load_all sixteen_requests) example_scene.

(** The materials of the scene defined, no texture loaded. *)
Definition materials_scene : State := state_after DefineObjectMaterials example_scene.

(** Two materials with the tag glass, the second with the values of the
    tile material. *)
Definition second_glass : OBJECT_MATERIAL.t :=
  OBJECT_MATERIAL.mk (OBJECT_MATERIAL.diffuseColor tileMaterial)
    (OBJECT_MATERIAL.specularColor tileMaterial)
    (OBJECT_MATERIAL.shininess tileMaterial) "glass".
Definition glass_twice_scene : State :=
  set_objectMaterials [cementMaterial; glassMaterial; second_glass] example_scene.

(** A driver whose texture name is the largest [GLuint]. *)
Definition last_name_driver (n : nat) : Z := 4294967295.
Definition last_name_scene : State :=
  state_after (CreateGLTexture "textures/metal.jpg" "metal")
    (new_scene (Some empty_shader) scene_disk last_name_driver).

(** The shader of the prepared example scene. *)
Definition prepared_shader : ShaderManager :=
  default empty_shader (m_pShaderManager prepared_scene).

(** The example scene constructed with a null shader manager. *)
Definition unlit_scene : State := new_scene None scene_disk counting_driver.

(** The example scene on a disk where the file of the dirt texture is
    missing. *)
Definition dirtless_scene : State :=
  new_scene (Some empty_shader) (delete "textures/dirt.jpg"%string scene_disk) counting_driver.

(** The scene with two textures after a second texture was loaded under
    the tag metal. *)
Definition metal_again_scene : State :=
  state_after (CreateGLTexture "textures/dirt.jpg" "metal") two_textures_scene.

(* ===================================================================== *)
(** ** Facts about binary32 arithmetic *)
(* ===================================================================== *)

Lemma shr_23_zeros (m : positive) :
  SpecFloat.iter_pos shr_1 23
    {| shr_m := Zpos (m~0~0~0~0~0~0~0~0~0~0~0~0~0~0~0~0~0~0~0~0~0~0~0);
       shr_r := false; shr_s := false |}
  = {| shr_m := Zpos m; shr_r := false; shr_s := false |}.
Proof. reflexivity. Qed.

(** Rounding [m * 2^23] at exponent [e - 23] gives back the canonical
    [m] at exponent [e]. *)
Lemma mul_2p23_round (s : bool) (m : positive) (e : Z) :
  bounded F32.prec F32.emax m e = true ->
  binary_round_aux F32.prec F32.emax s (Zpos (8388608 * m)) (e + -23) loc_Exact
  = S754_finite s m e.
Proof.
  intros Hb. unfold bounded, canonical_mantissa in Hb.
  apply andb_prop in Hb as [Hc He]. apply Z.eqb_eq in Hc.
  unfold binary_round_aux at 1, shr_fexp at 1.
  change (8388608 * m)%positive
    with (m~0~0~0~0~0~0~0~0~0~0~0~0~0~0~0~0~0~0~0~0~0~0~0)%positive.
  cbn [Zdigits2 digits2_pos shr_record_of_loc].
  replace (fexp F32.prec F32.emax _ - (e + -23)) with 23.
  2:{ rewrite !Pos2Z.inj_succ.
      replace (Z.succ _ + (e + -23)) with (Z.pos (digits2_pos m) + e) by lia.
      rewrite Hc. lia. }
  unfold shr at 1. rewrite shr_23_zeros.
  cbn [shr_m loc_of_shr_record round_nearest_even].
  replace (e + -23 + 23) with e by lia.
  unfold shr_fexp. cbn [Zdigits2 shr_record_of_loc].
  rewrite Hc, Z.sub_diag. cbn [shr shr_m]. now rewrite He.
Qed.

(** [1.0f] is neutral for the multiplication of finite numbers. *)
Lemma mul_one_r (x : F32.float) :
  F32.is_finite x = true -> F32.mul x F32.one = x.
Proof.
  destruct x as [s|s| |s m e]; cbn [F32.is_finite]; intros Hx; try discriminate.
  - cbn. now rewrite xorb_false_r.
  - unfold F32.mul, F32.one, SFmul. rewrite xorb_false_r, Pos.mul_comm.
    now apply mul_2p23_round.
Qed.

Lemma mul_one_l (x : F32.float) :
  F32.is_finite x = true -> F32.mul F32.one x = x.
Proof.
  destruct x as [s|s| |s m e]; cbn [F32.is_finite]; intros Hx; try discriminate.
  - reflexivity.
  - unfold F32.mul, F32.one, SFmul. cbn [xorb].
    replace (-23 + e) with (e + -23) by lia.
    now apply mul_2p23_round.
Qed.

Lemma abs_zero_finite (x : F32.float) :
  F32.is_finite x = true -> F32.is_finite (F32.abs_zero x) = true.
Proof. destruct x; cbn; congruence. Qed.

Lemma abs_zero_idem (x : F32.float) : F32.abs_zero (F32.abs_zero x) = F32.abs_zero x.
Proof. now destruct x. Qed.

(* ===================================================================== *)
(** ** Facts about the GLM transformations *)
(* ===================================================================== *)

Ltac finite_cases x :=
  let s := fresh "s" in
  let H := fresh "H" in
  destruct x as [s|s| |s ? ?]; cbn [F32.is_finite]; intros H;
  try discriminate H; try destruct s.

(** [glm::translate] of a finite vector: the columns of the identity and
    the vector itself, a negative zero becoming [+0.0]. *)
Lemma translate_finite (tx ty tz : F32.float) :
  F32.is_finite tx = true -> F32.is_finite ty = true -> F32.is_finite tz = true ->
  glm.translate (glm.Vec3 tx ty tz)
  = translation_matrix (F32.abs_zero tx) (F32.abs_zero ty) (F32.abs_zero tz).
Proof.
  intros Hx Hy Hz.
  unfold glm.translate, glm.translate_mat, glm.vec4_add, glm.vec4_scale,
    translation_matrix, glm.mat4_identity.
  cbn [glm.col0 glm.col1 glm.col2 glm.col3 glm.v4_x glm.v4_y glm.v4_z glm.v4_w
       glm.v3_x glm.v3_y glm.v3_z].
  rewrite !mul_one_l by assumption.
  revert Hx Hy Hz. finite_cases tx; finite_cases ty; finite_cases tz; reflexivity.
Qed.

(** Multiplying a translation matrix by the identity gives it back. *)
Lemma mul_translation_identity (a b c : F32.float) :
  F32.is_finite a = true -> F32.is_finite b = true -> F32.is_finite c = true ->
  glm.mat4_mul (translation_matrix a b c) glm.mat4_identity
  = translation_matrix (F32.abs_zero a) (F32.abs_zero b) (F32.abs_zero c).
Proof.
  intros Ha Hb Hc.
  unfold glm.mat4_mul, glm.mat4_mul_col, glm.vec4_add, glm.vec4_scale,
    translation_matrix, glm.mat4_identity.
  cbn [glm.col0 glm.col1 glm.col2 glm.col3 glm.v4_x glm.v4_y glm.v4_z glm.v4_w].
  rewrite !mul_one_r by first [assumption | reflexivity].
  revert Ha Hb Hc. finite_cases a; finite_cases b; finite_cases c; reflexivity.
Qed.

Lemma scale_one_identity :
  glm.scale (glm.Vec3 (flt 1.0) (flt 1.0) (flt 1.0)) = glm.mat4_identity.
Proof. vm_compute. reflexivity. Qed.

Lemma radians_zero : glm.radians (flt 0.0) = F32.zero.
Proof. vm_compute. reflexivity. Qed.

Section RotateZero.
Context {libm : Libm}.

Lemma rotate_zero_x :
  glm.rotate (glm.radians (flt 0.0)) (glm.Vec3 (flt 1.0) (flt 0.0) (flt 0.0))
  = glm.mat4_identity.
Proof.
  rewrite radians_zero. unfold glm.rotate, glm.rotate_mat, F32.zero.
  rewrite cosf_zero, sinf_zero. vm_compute. reflexivity.
Qed.

Lemma rotate_zero_y :
  glm.rotate (glm.radians (flt 0.0)) (glm.Vec3 (flt 0.0) (flt 1.0) (flt 0.0))
  = glm.mat4_identity.
Proof.
  rewrite radians_zero. unfold glm.rotate, glm.rotate_mat, F32.zero.
  rewrite cosf_zero, sinf_zero. vm_compute. reflexivity.
Qed.

Lemma rotate_zero_z :
  glm.rotate (glm.radians (flt 0.0)) (glm.Vec3 (flt 0.0) (flt 0.0) (flt 1.0))
  = glm.mat4_identity.
Proof.
  rewrite radians_zero. unfold glm.rotate, glm.rotate_mat, F32.zero.
  rewrite cosf_zero, sinf_zero. vm_compute. reflexivity.
Qed.

(** The product that [SetTransformations] forms, for unit scale, zero
    rotations and a finite position. *)
Lemma neutral_product (tx ty tz : F32.float) :
  F32.is_finite tx = true -> F32.is_finite ty = true -> F32.is_finite tz = true ->
  glm.mat4_mul
    (glm.mat4_mul
       (glm.mat4_mul
          (glm.mat4_mul (glm.translate (glm.Vec3 tx ty tz))
             (glm.rotate (glm.radians (flt 0.0)) (glm.Vec3 (flt 0.0) (flt 0.0) (flt 1.0))))
          (glm.rotate (glm.radians (flt 0.0)) (glm.Vec3 (flt 0.0) (flt 1.0) (flt 0.0))))
       (glm.rotate (glm.radians (flt 0.0)) (glm.Vec3 (flt 1.0) (flt 0.0) (flt 0.0))))
    (glm.scale (glm.Vec3 (flt 1.0) (flt 1.0) (flt 1.0)))
  = glm.translate (glm.Vec3 tx ty tz).
Proof.
  intros Hx Hy Hz.
  rewrite rotate_zero_x, rotate_zero_y, rotate_zero_z, scale_one_identity.
  rewrite translate_finite by assumption.
  pose proof (abs_zero_finite _ Hx). pose proof (abs_zero_finite _ Hy).
  pose proof (abs_zero_finite _ Hz).
  rewrite !mul_translation_identity, !abs_zero_idem
    by (rewrite ?abs_zero_idem; assumption).
  reflexivity.
Qed.

End RotateZero.

(* ===================================================================== *)
(** ** Running the primitives *)
(* ===================================================================== *)

Lemma run_bind {A B : Type} (m : M A) (f : A -> M B) (st : State) :
  (m ≫= f) st = match m st with
                | Done a st' => f a st'
                | Undefined e => Undefined e
                end.
Proof. reflexivity. Qed.

Lemma run_shader_set (name : string) (v : UniformValue) (st : State)
    (sm : ShaderManager) :
  m_pShaderManager st = Some sm ->
  shader_set name v st = Done tt (uniform_written name v sm st).
Proof. intros H. unfold shader_set. rewrite run_bind. cbn. now rewrite H. Qed.

Lemma uniform_written_shader (name : string) (v : UniformValue)
    (sm : ShaderManager) (st : State) :
  m_pShaderManager (uniform_written name v sm st)
  = Some {| uniforms := <[name := v]> (uniforms sm) |}.
Proof. reflexivity. Qed.

Lemma uniform_written_same (name : string) (v : UniformValue)
    (sm : ShaderManager) (st : State) :
  uniform name (uniform_written name v sm st) = Some v.
Proof. unfold uniform. cbn. apply lookup_insert_eq. Qed.

Lemma uniform_written_other (name name' : string) (v : UniformValue)
    (sm : ShaderManager) (st : State) :
  name <> name' ->
  uniform name' (uniform_written name v sm st) = uniforms sm !! name'.
Proof. intros H. unfold uniform. cbn. now apply lookup_insert_ne. Qed.

Lemma run_read_texture (index : Z) (e : TEXTURE_INFO.t) (st : State) :
  0 <= index -> m_textureIDs st !! Z.to_nat index = Some e ->
  read_texture index st = Done e st.
Proof.
  intros H0 He. unfold read_texture. rewrite run_bind. cbn.
  destruct (index <? 0) eqn:E; [lia|]. now rewrite He.
Qed.

Lemma run_read_texture_out (index : Z) (st : State) :
  Z.of_nat (length (m_textureIDs st)) <= index ->
  read_texture index st = Undefined OutOfBounds.
Proof.
  intros H. unfold read_texture. rewrite run_bind. cbn.
  destruct (index <? 0) eqn:E; [reflexivity|].
  rewrite (proj2 (lookup_ge_None _ _)); [reflexivity | lia].
Qed.

(** The scan of [FindTextureSlot] and of [FindTextureID] finds the first
    entry with the tag among the [n] entries from [index] on. *)
Lemma FindTextureSlot_from_find (tag : string) (st : State) (n : nat) (index : Z) :
  0 <= index ->
  (Z.to_nat index + n <= length (m_textureIDs st))%nat ->
  FindTextureSlot_from n index tag st
  = Done (match list_find (has_tag tag)
                  (take n (drop (Z.to_nat index) (m_textureIDs st))) with
          | Some (j, _) => index + Z.of_nat j
          | None => -1
          end) st.
Proof.
  revert index. induction n as [|n IH]; intros index H0 Hn.
  - now rewrite take_0.
  - destruct (lookup_lt_is_Some_2 (m_textureIDs st) (Z.to_nat index)) as [e He]; [lia|].
    cbn [FindTextureSlot_from]. rewrite run_bind, (run_read_texture _ e) by assumption.
    rewrite (drop_S _ e) by assumption. cbn [take list_find].
    unfold has_tag at 1. destruct (String.eqb_spec (TEXTURE_INFO.tag e) tag) as [Ht|Ht].
    + rewrite decide_True by assumption. cbn. f_equal. lia.
    + rewrite decide_False by assumption.
      rewrite IH by lia. replace (Z.to_nat (index + 1)) with (S (Z.to_nat index)) by lia.
      destruct (list_find _ _) as [[j x]|]; cbn; [f_equal; lia | reflexivity].
Qed.

Lemma FindTextureID_from_find (tag : string) (st : State) (n : nat) (index : Z) :
  0 <= index ->
  (Z.to_nat index + n <= length (m_textureIDs st))%nat ->
  FindTextureID_from n index tag st
  = Done (match list_find (has_tag tag)
                  (take n (drop (Z.to_nat index) (m_textureIDs st))) with
          | Some (_, e) => GLuint_to_int (TEXTURE_INFO.ID e)
          | None => -1
          end) st.
Proof.
  revert index. induction n as [|n IH]; intros index H0 Hn.
  - now rewrite take_0.
  - destruct (lookup_lt_is_Some_2 (m_textureIDs st) (Z.to_nat index)) as [e He]; [lia|].
    cbn [FindTextureID_from]. rewrite run_bind, (run_read_texture _ e) by assumption.
    rewrite (drop_S _ e) by assumption. cbn [take list_find].
    unfold has_tag at 1. destruct (String.eqb_spec (TEXTURE_INFO.tag e) tag) as [Ht|Ht].
    + rewrite decide_True by assumption. reflexivity.
    + rewrite decide_False by assumption.
      rewrite IH by lia. replace (Z.to_nat (index + 1)) with (S (Z.to_nat index)) by lia.
      destruct (list_find _ _) as [[j x]|]; reflexivity.
Qed.

Lemma run_FindTextureSlot (tag : string) (st : State) :
  textures_in_bounds st ->
  FindTextureSlot tag st
  = Done (match list_find (has_tag tag) (registered_textures st) with
          | Some (j, _) => Z.of_nat j
          | None => -1
          end) st.
Proof.
  intros [H0 H1]. unfold FindTextureSlot. rewrite run_bind. cbn [get].
  rewrite FindTextureSlot_from_find by lia. cbn [Z.to_nat drop].
  unfold registered_textures. now destruct (list_find _ _) as [[j x]|].
Qed.

Lemma run_FindTextureID (tag : string) (st : State) :
  textures_in_bounds st ->
  FindTextureID tag st
  = Done (match list_find (has_tag tag) (registered_textures st) with
          | Some (_, e) => GLuint_to_int (TEXTURE_INFO.ID e)
          | None => -1
          end) st.
Proof.
  intros [H0 H1]. unfold FindTextureID. rewrite run_bind. cbn [get].
  rewrite FindTextureID_from_find by lia. reflexivity.
Qed.

Ltac fields :=
  cbn [m_pShaderManager m_loadedTextures m_textureIDs m_objectMaterials files
       gl_names gl_generated calls set_pShaderManager set_loadedTextures
       set_textureIDs set_objectMaterials set_gl_generated set_calls].

Ltac run :=
  unfold mbind, M_bind, mret, M_ret, emit, modify, get, undefined; fields.

(** What a call of [CreateGLTexture] that returns [false] leaves behind:
    the registry, the materials and the shader are as before. *)
Lemma CreateGLTexture_rejects (filename tag : string) (st : State) :
  (files st !! filename = None \/
   exists image, files st !! filename = Some image /\
                 img_channels image <> 3 /\ img_channels image <> 4) ->
  exists st',
    CreateGLTexture filename tag st = Done false st' /\
    m_textureIDs st' = m_textureIDs st /\
    m_loadedTextures st' = m_loadedTextures st /\
    m_objectMaterials st' = m_objectMaterials st /\
    m_pShaderManager st' = m_pShaderManager st.
Proof.
  intros [H | (image & H & H3 & H4)];
    unfold CreateGLTexture, gen_texture; run; rewrite H.
  - eexists. repeat split; reflexivity.
  - destruct (Z.eqb_spec (img_channels image) 3) as [E|_]; [contradiction|].
    destruct (Z.eqb_spec (img_channels image) 4) as [E|_]; [contradiction|].
    eexists. repeat split; reflexivity.
Qed.

(** What a call of [CreateGLTexture] that returns [true] has done: the
    entry at the old [m_loadedTextures] holds the new name and the tag,
    and the count is one higher. *)
Lemma CreateGLTexture_registers (filename tag : string) (st st' : State) :
  CreateGLTexture filename tag st = Done true st' ->
  0 <= m_loadedTextures st < Z.of_nat (length (m_textureIDs st)) /\
  m_textureIDs st'
  = <[Z.to_nat (m_loadedTextures st) :=
        TEXTURE_INFO.mk (to_GLuint (gl_names st (gl_generated st))) tag]>
      (m_textureIDs st) /\
  m_loadedTextures st' = m_loadedTextures st + 1 /\
  m_objectMaterials st' = m_objectMaterials st /\
  m_pShaderManager st' = m_pShaderManager st.
Proof.
  unfold CreateGLTexture, gen_texture, write_texture, read_texture. run.
  destruct (files st !! filename) as [image|]; [|discriminate].
  destruct (img_channels image =? 3); [|destruct (img_channels image =? 4)];
    fields; try discriminate.
  all: destruct (m_loadedTextures st <? 0) eqn:Hneg; [discriminate|].
  all: apply Z.ltb_ge in Hneg as Hpos.
  all: destruct (m_textureIDs st !! Z.to_nat (m_loadedTextures st)) as [e|] eqn:He;
    [|discriminate].
  all: pose proof (lookup_lt_Some _ _ _ He) as Hlt.
  all: fields; rewrite Hneg, list_lookup_insert_eq by lia; fields.
  all: intros [= <-]; fields; rewrite list_insert_insert_eq.
  all: repeat split; try lia; reflexivity.
Qed.

Lemma run_FindMaterial (tag : string) (material : OBJECT_MATERIAL.t) (st : State) :
  FindMaterial tag material st
  = Done (match m_objectMaterials st with
          | [] => (false, material)
          | _ :: _ => (true, FindMaterial_from (m_objectMaterials st) tag material)
          end) st.
Proof. unfold FindMaterial. run. now destruct (m_objectMaterials st). Qed.

(** When no material has the tag, the scan hands [material] back. *)
Lemma FindMaterial_from_no_match (ms : list OBJECT_MATERIAL.t) (tag : string)
    (material : OBJECT_MATERIAL.t) :
  Forall (fun m => OBJECT_MATERIAL.tag m <> tag) ms ->
  FindMaterial_from ms tag material = material.
Proof.
  induction 1 as [|m ms Hm _ IH]; [reflexivity|].
  cbn [FindMaterial_from].
  destruct (String.eqb_spec (OBJECT_MATERIAL.tag m) tag); [contradiction | exact IH].
Qed.

(** When some material has the tag, the scan copies the lighting fields of
    the first one, whatever [material] held. *)
Lemma FindMaterial_from_match (ms : list OBJECT_MATERIAL.t) (tag : string)
    (m1 m2 : OBJECT_MATERIAL.t) :
  Exists (fun m => OBJECT_MATERIAL.tag m = tag) ms ->
  OBJECT_MATERIAL.diffuseColor (FindMaterial_from ms tag m1)
  = OBJECT_MATERIAL.diffuseColor (FindMaterial_from ms tag m2) /\
  OBJECT_MATERIAL.specularColor (FindMaterial_from ms tag m1)
  = OBJECT_MATERIAL.specularColor (FindMaterial_from ms tag m2) /\
  OBJECT_MATERIAL.shininess (FindMaterial_from ms tag m1)
  = OBJECT_MATERIAL.shininess (FindMaterial_from ms tag m2).
Proof.
  induction ms as [|m ms IH]; intros H.
  - now apply Exists_nil in H.
  - cbn [FindMaterial_from].
    destruct (String.eqb_spec (OBJECT_MATERIAL.tag m) tag) as [E|E].
    + repeat split; reflexivity.
    + apply Exists_cons in H as [H|H]; [contradiction | now apply IH].
Qed.

(** A call of [CreateGLTexture] that returned [false] registered nothing. *)
Lemma CreateGLTexture_unregistered (filename tag : string) (st st' : State) :
  CreateGLTexture filename tag st = Done false st' ->
  m_textureIDs st' = m_textureIDs st /\
  m_loadedTextures st' = m_loadedTextures st /\
  m_objectMaterials st' = m_objectMaterials st /\
  m_pShaderManager st' = m_pShaderManager st.
Proof.
  unfold CreateGLTexture, gen_texture, write_texture, read_texture. run.
  destruct (files st !! filename) as [image|];
    [|intros [= <-]; repeat split; reflexivity].
  destruct (img_channels image =? 3); [|destruct (img_channels image =? 4)]; fields.
  3: intros [= <-]; repeat split; reflexivity.
  all: destruct (m_loadedTextures st <? 0) eqn:Hneg; [discriminate|].
  all: apply Z.ltb_ge in Hneg as Hpos.
  all: destruct (m_textureIDs st !! Z.to_nat (m_loadedTextures st)) as [e|] eqn:He;
    [|discriminate].
  all: pose proof (lookup_lt_Some _ _ _ He) as Hlt.
  all: fields; rewrite Hneg, list_lookup_insert_eq by lia; fields.
  all: discriminate.
Qed.

(** The effect of the four shader-facing methods when a shader manager is
    attached. *)
Lemma run_SetTransformations {libm : Libm} (scaleXYZ positionXYZ : glm.vec3)
    (XrotationDegrees YrotationDegrees ZrotationDegrees : F32.float)
    (st : State) (sm : ShaderManager) :
  m_pShaderManager st = Some sm ->
  SetTransformations scaleXYZ XrotationDegrees YrotationDegrees ZrotationDegrees
    positionXYZ st
  = Done tt
      (uniform_written "model"
         (UMat4
            (glm.mat4_mul
               (glm.mat4_mul
                  (glm.mat4_mul
                     (glm.mat4_mul (glm.translate positionXYZ)
                        (glm.rotate (glm.radians ZrotationDegrees)
                           (glm.Vec3 (flt 0.0) (flt 0.0) (flt 1.0))))
                     (glm.rotate (glm.radians YrotationDegrees)
                        (glm.Vec3 (flt 0.0) (flt 1.0) (flt 0.0))))
                  (glm.rotate (glm.radians XrotationDegrees)
                     (glm.Vec3 (flt 1.0) (flt 0.0) (flt 0.0))))
               (glm.scale scaleXYZ))) sm st).
Proof.
  intros Hsm. unfold SetTransformations. rewrite run_bind. cbn [get]. rewrite Hsm.
  exact (run_shader_set _ _ _ _ Hsm).
Qed.

Lemma run_SetShaderTexture (textureTag : string) (st : State) (sm : ShaderManager) :
  m_pShaderManager st = Some sm ->
  textures_in_bounds st ->
  SetShaderTexture textureTag st
  = Done tt
      (uniform_written "objectTexture"
         (USampler2D (match list_find (has_tag textureTag) (registered_textures st) with
                      | Some (j, _) => Z.of_nat j
                      | None => -1
                      end))
         {| uniforms := <["bUseTexture" := UInt 1]> (uniforms sm) |}
         (uniform_written "bUseTexture" (UInt 1) sm st)).
Proof.
  intros Hsm Hb. unfold SetShaderTexture. rewrite run_bind. cbn [get]. rewrite Hsm.
  rewrite run_bind, (run_shader_set _ _ _ _ Hsm).
  rewrite run_bind, run_FindTextureSlot by exact Hb.
  exact (run_shader_set _ _ _ _ (uniform_written_shader _ _ _ _)).
Qed.

Lemma run_SetShaderColor (red green blue alpha : F32.float) (st : State)
    (sm : ShaderManager) :
  m_pShaderManager st = Some sm ->
  SetShaderColor red green blue alpha st
  = Done tt
      (uniform_written "objectColor" (UVec4 (glm.Vec4 red green blue alpha))
         {| uniforms := <["bUseTexture" := UInt 0]> (uniforms sm) |}
         (uniform_written "bUseTexture" (UInt 0) sm st)).
Proof.
  intros Hsm. unfold SetShaderColor. rewrite run_bind. cbn [get]. rewrite Hsm.
  rewrite run_bind, (run_shader_set _ _ _ _ Hsm).
  exact (run_shader_set _ _ _ _ (uniform_written_shader _ _ _ _)).
Qed.

Lemma run_SetShaderMaterial (material : OBJECT_MATERIAL.t) (materialTag : string)
    (st : State) (sm : ShaderManager) :
  m_pShaderManager st = Some sm ->
  m_objectMaterials st <> [] ->
  let found := FindMaterial_from (m_objectMaterials st) materialTag material in
  let diffuse := UVec3 (OBJECT_MATERIAL.diffuseColor found) in
  let specular := UVec3 (OBJECT_MATERIAL.specularColor found) in
  let shine := UFloat (OBJECT_MATERIAL.shininess found) in
  SetShaderMaterial material materialTag st
  = Done tt
      (uniform_written "material.shininess" shine
         {| uniforms := <["material.specularColor" := specular]>
                          (<["material.diffuseColor" := diffuse]> (uniforms sm)) |}
         (uniform_written "material.specularColor" specular
            {| uniforms := <["material.diffuseColor" := diffuse]> (uniforms sm) |}
            (uniform_written "material.diffuseColor" diffuse sm st))).
Proof.
  intros Hsm Hne found diffuse specular shine.
  unfold SetShaderMaterial. rewrite run_bind. cbn [get].
  destruct (m_objectMaterials st) as [|m ms] eqn:E; [contradiction|].
  cbn [length Nat.ltb Nat.leb]. rewrite run_bind, run_FindMaterial, E. cbn [fst snd].
  rewrite run_bind, (run_shader_set _ _ _ _ Hsm).
  rewrite run_bind, (run_shader_set _ _ _ _ (uniform_written_shader _ _ _ _)).
  exact (run_shader_set _ _ _ _ (uniform_written_shader _ _ _ _)).
Qed.

(* ===================================================================== *)
(** ** The transformation of a mesh *)
(* ===================================================================== *)

(** C1. For every scale vector, rotation angles in degrees and translation
    vector, [SetTransformations] forms
    [translation * rotateZ * rotateY * rotateX * scale], where the three
    rotations are about the Z, Y and X axes by the angles converted to
    radians, and writes exactly that matrix to the uniform ["model"] of the
    shader: it is the one call made, and afterwards the uniform holds the
    matrix. *)
Theorem C1_SetTransformations_writes_model_matrix {libm : Libm}
    (scaleXYZ positionXYZ : glm.vec3)
    (XrotationDegrees YrotationDegrees ZrotationDegrees : F32.float)
    (st : State) (sm : ShaderManager) :
  m_pShaderManager st = Some sm ->
  let translation := glm.translate positionXYZ in
  let rotateZ :=
    glm.rotate (glm.radians ZrotationDegrees) (glm.Vec3 F32.zero F32.zero F32.one) in
  let rotateY :=
    glm.rotate (glm.radians YrotationDegrees) (glm.Vec3 F32.zero F32.one F32.zero) in
  let rotateX :=
    glm.rotate (glm.radians XrotationDegrees) (glm.Vec3 F32.one F32.zero F32.zero) in
  let scale := glm.scale scaleXYZ in
  let model := translation *m rotateZ *m rotateY *m rotateX *m scale in
  exists st',
    SetTransformations scaleXYZ XrotationDegrees YrotationDegrees ZrotationDegrees
      positionXYZ st = Done tt st' /\
    st' = uniform_written "model" (UMat4 model) sm st /\
    uniform "model" st' = Some (UMat4 model) /\
    calls st' = calls st ++ [SetUniform "model" (UMat4 model)].
Proof.
  intros Hsm translation rotateZ rotateY rotateX scale model.
  exists (uniform_written "model" (UMat4 model) sm st).
  split; [|split; [reflexivity | split; [apply uniform_written_same | reflexivity]]].
  exact (run_SetTransformations _ _ _ _ _ _ _ Hsm).
Qed.

(* ===================================================================== *)
(** ** Materials *)
(* ===================================================================== *)

(** C2. For every tag, [FindMaterial] returns [false] when no material has
    been defined and [true] as soon as one has, whether or not a material
    with the tag exists: the result is [true] exactly when the registry is
    not empty.  The state is not changed. *)
Theorem C2_FindMaterial_reports_nonempty (tag : string)
    (material : OBJECT_MATERIAL.t) (st : State) :
  exists (found : bool) (material' : OBJECT_MATERIAL.t),
    FindMaterial tag material st = Done (found, material') st /\
    (found = false <-> m_objectMaterials st = []) /\
    (found = true <-> m_objectMaterials st <> []).
Proof.
  rewrite run_FindMaterial. destruct (m_objectMaterials st) as [|m ms].
  - exists false, material. repeat split; congruence.
  - exists true, (FindMaterial_from (m :: ms) tag material).
    repeat split; congruence.
Qed.

(** C10. When materials have been defined and none of them has the tag,
    [FindMaterial] returns [true] and leaves [material] as it was, field by
    field; [SetShaderMaterial] with such a tag then passes the content of
    its uninitialised local to the three material uniforms. *)
Theorem C10_unknown_tag_forwards_caller_material (tag : string)
    (material : OBJECT_MATERIAL.t) (st : State) (sm : ShaderManager) :
  m_objectMaterials st <> [] ->
  Forall (fun m => OBJECT_MATERIAL.tag m <> tag) (m_objectMaterials st) ->
  m_pShaderManager st = Some sm ->
  FindMaterial tag material st = Done (true, material) st /\
  exists st',
    SetShaderMaterial material tag st = Done tt st' /\
    calls st' = calls st ++
      [SetUniform "material.diffuseColor" (UVec3 (OBJECT_MATERIAL.diffuseColor material));
       SetUniform "material.specularColor" (UVec3 (OBJECT_MATERIAL.specularColor material));
       SetUniform "material.shininess" (UFloat (OBJECT_MATERIAL.shininess material))] /\
    uniform "material.diffuseColor" st'
      = Some (UVec3 (OBJECT_MATERIAL.diffuseColor material)) /\
    uniform "material.specularColor" st'
      = Some (UVec3 (OBJECT_MATERIAL.specularColor material)) /\
    uniform "material.shininess" st'
      = Some (UFloat (OBJECT_MATERIAL.shininess material)).
Proof.
  intros Hne Hno Hsm.
  assert (Hfind : FindMaterial tag material st = Done (true, material) st).
  { rewrite run_FindMaterial. destruct (m_objectMaterials st) as [|m ms] eqn:E;
      [contradiction|]. now rewrite FindMaterial_from_no_match. }
  split; [exact Hfind|].
  rewrite (run_SetShaderMaterial _ _ _ _ Hsm Hne).
  rewrite (FindMaterial_from_no_match _ _ _ Hno).
  eexists. split; [reflexivity|]. split.
  { cbn [uniform_written calls set_calls set_pShaderManager].
    now rewrite <- !app_assoc. }
  unfold uniform. cbn [uniform_written m_pShaderManager set_calls set_pShaderManager
                       mbind option_bind uniforms].
  repeat split.
  - rewrite lookup_insert_ne by discriminate.
    rewrite lookup_insert_ne by discriminate. apply lookup_insert_eq.
  - rewrite lookup_insert_ne by discriminate. apply lookup_insert_eq.
  - apply lookup_insert_eq.
Qed.

(* ===================================================================== *)
(** ** Texture or colour *)
(* ===================================================================== *)

(** C7. With a shader attached, [SetShaderTexture] always leaves the
    use-texture flag at 1 and [SetShaderColor] always leaves it at 0 and
    stores the given RGBA colour; this holds from every state, so after any
    sequence of the two calls the flag is the one of the last call. *)
Theorem C7_use_texture_flag_follows_last_selection (st : State) (sm : ShaderManager)
    (textureTag : string) (red green blue alpha : F32.float) :
  m_pShaderManager st = Some sm ->
  textures_in_bounds st ->
  (exists st1 sm1,
     SetShaderTexture textureTag st = Done tt st1 /\
     uniform g_UseTextureName st1 = Some (UInt 1) /\
     m_pShaderManager st1 = Some sm1 /\ textures_in_bounds st1) /\
  (exists st2 sm2,
     SetShaderColor red green blue alpha st = Done tt st2 /\
     uniform g_UseTextureName st2 = Some (UInt 0) /\
     uniform g_ColorValueName st2 = Some (UVec4 (glm.Vec4 red green blue alpha)) /\
     m_pShaderManager st2 = Some sm2 /\ textures_in_bounds st2).
Proof.
  intros Hsm Hb. split.
  - rewrite (run_SetShaderTexture _ _ _ Hsm Hb).
    eexists _, _. split; [reflexivity|]. split; [|split; [reflexivity | exact Hb]].
    unfold uniform. cbn [uniform_written m_pShaderManager set_calls set_pShaderManager
                         mbind option_bind uniforms].
    rewrite lookup_insert_ne by discriminate. apply lookup_insert_eq.
  - rewrite (run_SetShaderColor _ _ _ _ _ _ Hsm).
    eexists _, _. split; [reflexivity|].
    split; [|split; [apply uniform_written_same | split; [reflexivity | exact Hb]]].
    unfold uniform. cbn [uniform_written m_pShaderManager set_calls set_pShaderManager
                         mbind option_bind uniforms].
    rewrite lookup_insert_ne by discriminate. apply lookup_insert_eq.
Qed.

(* ===================================================================== *)
(** ** The texture registry *)
(* ===================================================================== *)

(** C5. When the image decodes with a channel count other than 3 and 4,
    and likewise when the file cannot be decoded, [CreateGLTexture] returns
    [false] and the registry is as before: the array [m_textureIDs] and the
    count [m_loadedTextures] are unchanged. *)
Theorem C5_CreateGLTexture_failure_keeps_registry (filename tag : string) (st : State) :
  (files st !! filename = None \/
   exists image, files st !! filename = Some image /\
                 img_channels image <> 3 /\ img_channels image <> 4) ->
  exists st',
    CreateGLTexture filename tag st = Done false st' /\
    m_textureIDs st' = m_textureIDs st /\
    m_loadedTextures st' = m_loadedTextures st /\
    registered_textures st' = registered_textures st.
Proof.
  intros H. destruct (CreateGLTexture_rejects filename tag st H)
    as (st' & Hrun & Hids & Hn & _ & _).
  exists st'. unfold registered_textures. now rewrite Hids, Hn.
Qed.

Lemma to_GLuint_range (z : Z) : 0 <= to_GLuint z < GLuint_modulus.
Proof. unfold to_GLuint, GLuint_modulus. apply Z.mod_pos_bound. lia. Qed.

(** [-1] is the image of exactly one [GLuint], the largest. *)
Lemma GLuint_to_int_sentinel (u : Z) :
  0 <= u < GLuint_modulus -> (GLuint_to_int u = -1 <-> u = 4294967295).
Proof.
  unfold GLuint_to_int, GLuint_modulus. intros Hu.
  destruct (Z.ltb_spec u (2 ^ 31)); lia.
Qed.

Lemma GLuint_to_int_small (u : Z) : 0 <= u < 2 ^ 31 -> GLuint_to_int u = u.
Proof. unfold GLuint_to_int. intros Hu. destruct (Z.ltb_spec u (2 ^ 31)); lia. Qed.

(** C9.  On a registry whose count is within the array,
    [FindTextureSlot] and [FindTextureID] scan the registered textures in
    order and stop at the first one with the tag.  [FindTextureSlot] returns
    [-1] exactly when no registered texture has the tag, and otherwise the
    index of the first match.  [FindTextureID] returns [-1] when no
    registered texture has the tag; for a registered tag it returns the
    name of the first match converted to [int], which is [-1] exactly when
    that name is 4294967295, and is the name itself when the name is below
    2^31. *)
Theorem C9_texture_lookups_first_match (tag : string) (st : State) :
  textures_in_bounds st ->
  names_are_GLuint st ->
  exists slot id : Z,
    FindTextureSlot tag st = Done slot st /\
    FindTextureID tag st = Done id st /\
    (slot = -1 <-> ~ registered st tag) /\
    (slot = -1 -> id = -1) /\
    (slot <> -1 ->
     exists e,
       0 <= slot < m_loadedTextures st /\
       registered_textures st !! Z.to_nat slot = Some e /\
       TEXTURE_INFO.tag e = tag /\
       (forall j e', (j < Z.to_nat slot)%nat ->
                     registered_textures st !! j = Some e' ->
                     TEXTURE_INFO.tag e' <> tag) /\
       id = GLuint_to_int (TEXTURE_INFO.ID e) /\
       (id = -1 <-> TEXTURE_INFO.ID e = 4294967295) /\
       (TEXTURE_INFO.ID e < 2 ^ 31 -> id = TEXTURE_INFO.ID e)).
Proof.
  intros Hb Hn.
  rewrite run_FindTextureSlot, run_FindTextureID by assumption.
  destruct (list_find (has_tag tag) (registered_textures st)) as [[i e]|] eqn:Hf.
  - apply list_find_Some in Hf as (Hi & He & Hfirst).
    exists (Z.of_nat i), (GLuint_to_int (TEXTURE_INFO.ID e)).
    split; [reflexivity|]. split; [reflexivity|].
    split; [|split; [lia|]].
    { split; [lia|]. intros Hno. exfalso. apply Hno.
      exists e. split; [now apply list_elem_of_lookup_2 in Hi | exact He]. }
    intros _. exists e. rewrite Nat2Z.id.
    assert (Hlen : (i < length (registered_textures st))%nat)
      by now apply lookup_lt_Some in Hi.
    unfold registered_textures in Hlen. rewrite length_take in Hlen.
    destruct Hb as [Hb0 Hb1].
    split; [lia|]. split; [exact Hi|]. split; [exact He|].
    split; [intros j e' Hj He'; exact (Hfirst j e' He' Hj)|].
    split; [reflexivity|].
    assert (Hu : 0 <= TEXTURE_INFO.ID e < GLuint_modulus).
    { unfold registered_textures in Hi. apply lookup_take_Some in Hi as [Hi _].
      unfold names_are_GLuint in Hn. rewrite Forall_lookup in Hn. exact (Hn _ _ Hi). }
    split; [now apply GLuint_to_int_sentinel|].
    intros Hsmall. apply GLuint_to_int_small. lia.
  - apply list_find_None in Hf. rewrite Forall_forall in Hf.
    exists (-1), (-1). split; [reflexivity|]. split; [reflexivity|].
    split; [|split; [reflexivity | congruence]].
    split; [|reflexivity]. intros _ (e & Hin & He). exact (Hf e Hin He).
Qed.

(** The growth of the registry along a run of successful loads. *)
Lemma loaded_from_registry (st st' : State) (reqs : list (string * string)) :
  loaded_from st reqs st' ->
  textures_in_bounds st ->
  textures_in_bounds st' /\
  m_loadedTextures st' = m_loadedTextures st + Z.of_nat (length reqs) /\
  TEXTURE_INFO.tag <$> registered_textures st'
  = (TEXTURE_INFO.tag <$> registered_textures st) ++ reqs.*2.
Proof.
  induction 1 as [st | st st1 st2 filename tag rest Hrun _ IH]; intros Hb.
  - cbn [length fmap list_fmap]. rewrite app_nil_r. split; [exact Hb|]. split; [lia | reflexivity].
  - apply CreateGLTexture_registers in Hrun as (Hk & Hids & Hn & _ & _).
    assert (Hb1 : textures_in_bounds st1).
    { unfold textures_in_bounds. rewrite Hids, Hn, length_insert. lia. }
    destruct (IH Hb1) as (Hb2 & Hn2 & Htags).
    split; [exact Hb2|]. split; [cbn [length]; lia|].
    rewrite Htags. unfold registered_textures at 1. rewrite Hids, Hn.
    replace (Z.to_nat (m_loadedTextures st + 1))
      with (S (Z.to_nat (m_loadedTextures st))) by lia.
    rewrite (take_S_r _ _ (TEXTURE_INFO.mk (to_GLuint (gl_names st (gl_generated st))) tag))
      by (apply list_lookup_insert_eq; lia).
    rewrite take_insert_ge by lia.
    rewrite fmap_app. cbn [fmap list_fmap TEXTURE_INFO.tag snd].
    now rewrite <- app_assoc.
Qed.

(** C4. Starting from an empty registry, after any sequence of calls of
    [CreateGLTexture] that all returned [true], with pairwise distinct
    tags, the count is the number of calls, the registered tags are the
    given ones in the order of the calls, and [FindTextureSlot] of the
    [i]-th tag returns [i], an index in [[0, m_loadedTextures)]. *)
Theorem C4_slots_follow_registration_order (st st' : State)
    (reqs : list (string * string)) :
  m_loadedTextures st = 0 ->
  loaded_from st reqs st' ->
  NoDup reqs.*2 ->
  m_loadedTextures st' = Z.of_nat (length reqs) /\
  TEXTURE_INFO.tag <$> registered_textures st' = reqs.*2 /\
  forall (i : nat) (filename tag : string),
    reqs !! i = Some (filename, tag) ->
    FindTextureSlot tag st' = Done (Z.of_nat i) st' /\
    0 <= Z.of_nat i < m_loadedTextures st'.
Proof.
  intros H0 Hload Hnd.
  assert (Hb : textures_in_bounds st) by (unfold textures_in_bounds; lia).
  destruct (loaded_from_registry _ _ _ Hload Hb) as (Hb' & Hn & Htags).
  unfold registered_textures at 2 in Htags. rewrite H0 in Htags.
  change (Z.to_nat 0) with 0%nat in Htags.
  rewrite take_0, fmap_nil, app_nil_l in Htags.
  split; [lia|]. split; [exact Htags|].
  intros i filename tag Hi.
  assert (Hlt : (i < length reqs)%nat) by now apply lookup_lt_Some in Hi.
  split; [|lia].
  rewrite run_FindTextureSlot by exact Hb'.
  assert (Htag_i : (TEXTURE_INFO.tag <$> registered_textures st') !! i = Some tag).
  { rewrite Htags, list_lookup_fmap, Hi. reflexivity. }
  rewrite list_lookup_fmap in Htag_i.
  destruct (registered_textures st' !! i) as [e|] eqn:He; [|discriminate].
  injection Htag_i as Htag_e.
  assert (Hfind : list_find (has_tag tag) (registered_textures st') = Some (i, e)).
  { apply list_find_Some. split; [exact He|]. split; [exact Htag_e|].
    intros j y Hy Hj Hyt. unfold has_tag in Hyt.
    assert (Hji : j = i); [|lia].
    apply (NoDup_lookup reqs.*2 j i tag Hnd).
    - rewrite <- Htags, list_lookup_fmap, Hy. cbn. now rewrite Hyt.
    - rewrite <- Htags, list_lookup_fmap, He. cbn. now rewrite Htag_e. }
  now rewrite Hfind.
Qed.

(** C6.  The registry has no capacity test.  When every entry of the array
    is in use, a further call of [CreateGLTexture] on an image with 3 or 4
    channels is not rejected with [false]: it stores to
    [m_textureIDs[m_loadedTextures]], one past the end of the array. *)
Theorem C6_full_registry_is_overrun (filename tag : string) (st : State)
    (image : Image) :
  files st !! filename = Some image ->
  img_channels image = 3 \/ img_channels image = 4 ->
  m_loadedTextures st = Z.of_nat (length (m_textureIDs st)) ->
  CreateGLTexture filename tag st = Undefined OutOfBounds.
Proof.
  intros Hfile Hch Hfull.
  unfold CreateGLTexture, gen_texture, write_texture, read_texture. run.
  rewrite Hfile.
  assert (Hout : m_textureIDs st !! Z.to_nat (m_loadedTextures st) = None)
    by (apply lookup_ge_None; lia).
  destruct Hch as [-> | ->]; cbn [Z.eqb Pos.eqb]; fields;
    rewrite Hout; now destruct (m_loadedTextures st <? 0).
Qed.

(* ===================================================================== *)
(** ** Neutral scale and rotation *)
(* ===================================================================== *)

(** C8.  For every translation vector with finite components,
    [SetTransformations] with scale (1,1,1) and rotations (0,0,0) writes
    exactly [glm::translate(positionXYZ)] to the uniform ["model"], and
    this matrix is the identity with the vector in the translation column
    (a component [-0.0] appearing as [+0.0]). *)
Theorem C8_neutral_transformation_is_translation {libm : Libm}
    (tx ty tz : F32.float) (st : State) (sm : ShaderManager) :
  F32.is_finite tx = true ->
  F32.is_finite ty = true ->
  F32.is_finite tz = true ->
  m_pShaderManager st = Some sm ->
  exists st',
    SetTransformations (glm.Vec3 F32.one F32.one F32.one) F32.zero F32.zero F32.zero
      (glm.Vec3 tx ty tz) st = Done tt st' /\
    uniform "model" st' = Some (UMat4 (glm.translate (glm.Vec3 tx ty tz))) /\
    calls st' = calls st ++ [SetUniform "model" (UMat4 (glm.translate (glm.Vec3 tx ty tz)))] /\
    glm.translate (glm.Vec3 tx ty tz)
    = translation_matrix (F32.abs_zero tx) (F32.abs_zero ty) (F32.abs_zero tz).
Proof.
  intros Hx Hy Hz Hsm.
  rewrite (run_SetTransformations _ _ _ _ _ _ _ Hsm).
  change (glm.Vec3 F32.one F32.one F32.one)
    with (glm.Vec3 (flt 1.0) (flt 1.0) (flt 1.0)).
  change (glm.radians F32.zero) with (glm.radians (flt 0.0)).
  rewrite (neutral_product tx ty tz Hx Hy Hz).
  eexists. split; [reflexivity|]. split; [apply uniform_written_same|].
  split; [reflexivity|]. now apply translate_finite.
Qed.

(** C8, counterexample.  For a translation that is not finite the matrix
    written is not [glm::translate(positionXYZ)]: with [tx = +infinity]
    the products [infinity * 0] put NaN into its first column, where
    [glm::translate] has [(1, 0, 0, 0)]. *)
Lemma C8_infinite_translation_counterexample :
  exists st' written,
    @SetTransformations series_libm (glm.Vec3 F32.one F32.one F32.one)
      F32.zero F32.zero F32.zero
      (glm.Vec3 (S754_infinity false) F32.zero F32.zero) example_scene
    = Done tt st' /\
    uniform "model" st' = Some (UMat4 written) /\
    glm.col0 written = glm.Vec4 S754_nan S754_nan S754_nan S754_nan /\
    glm.col0 (glm.translate (glm.Vec3 (S754_infinity false) F32.zero F32.zero))
    = glm.Vec4 F32.one F32.zero F32.zero F32.zero /\
    written <> glm.translate (glm.Vec3 (S754_infinity false) F32.zero F32.zero).
Proof.
  eexists _, _.
  split; [exact (@run_SetTransformations series_libm _ _ _ _ _ example_scene empty_shader eq_refl)|].
  split; [apply uniform_written_same|].
  split; [vm_compute; reflexivity|].
  split; [vm_compute; reflexivity|].
  intros H. apply (f_equal glm.col0) in H. vm_compute in H. discriminate H.
Qed.

(* ===================================================================== *)
(** ** Rendering a prepared scene twice *)
(* ===================================================================== *)

Lemma frame_eq (st1 st2 : State) :
  frame st1 = frame st2 ->
  (is_Some (m_pShaderManager st1) <-> is_Some (m_pShaderManager st2)) /\
  m_loadedTextures st1 = m_loadedTextures st2 /\
  m_textureIDs st1 = m_textureIDs st2 /\
  m_objectMaterials st1 = m_objectMaterials st2.
Proof.
  unfold frame. intros [= Hs Hn Hids Hms].
  split; [|repeat split; assumption].
  rewrite <- (bool_decide_eq_true (is_Some (m_pShaderManager st1))),
          <- (bool_decide_eq_true (is_Some (m_pShaderManager st2))), Hs.
  reflexivity.
Qed.

Lemma render_ready_frame (st1 st2 : State) :
  frame st1 = frame st2 -> render_ready st1 -> render_ready st2.
Proof.
  intros Hf (Hs & Hb & Hm). apply frame_eq in Hf as (Hs' & Hn & Hids & Hms).
  unfold render_ready, textures_in_bounds, material_defined in *.
  rewrite <- Hn, <- Hids, <- Hms. tauto.
Qed.

Lemma frame_uniform_written (name : string) (v : UniformValue)
    (sm sm' : ShaderManager) (st : State) :
  m_pShaderManager st = Some sm ->
  frame (uniform_written name v sm' st) = frame st.
Proof. intros H. unfold frame. cbn. now rewrite H. Qed.

Lemma alike_bind {A B : Type} (c1 c2 : M A) (f1 f2 : A -> M B) :
  alike c1 c2 -> (forall a, alike (f1 a) (f2 a)) -> alike (c1 ≫= f1) (c2 ≫= f2).
Proof.
  intros Hc Hf st1 st2 Hr Hfr.
  destruct (Hc st1 st2 Hr Hfr)
    as (a & evs & st1' & st2' & H1 & H2 & F1 & F2 & C1 & C2 & R).
  destruct (Hf a st1' st2')
    as (b & evs' & st1'' & st2'' & H1' & H2' & F1' & F2' & C1' & C2' & R').
  { apply (render_ready_frame st1); [now symmetry | exact Hr]. }
  { congruence. }
  exists b, (evs ++ evs'), st1'', st2''.
  rewrite !run_bind, H1, H2.
  split; [exact H1'|]. split; [exact H2'|].
  split; [congruence|]. split; [congruence|].
  split; [rewrite C1', C1; now rewrite app_assoc|].
  split; [rewrite C2', C2; now rewrite app_assoc|].
  apply Forall_app. now split.
Qed.

Lemma alike_emit (c : Call) : is_draw c = true -> alike (emit c) (emit c).
Proof.
  intros Hc st1 st2 _ _. exists tt, [c]. eexists _, _.
  do 6 (split; [reflexivity|]).
  apply Forall_singleton. now destruct c.
Qed.

Lemma alike_SetTransformations {libm : Libm} (scaleXYZ positionXYZ : glm.vec3)
    (x y z : F32.float) :
  alike (SetTransformations scaleXYZ x y z positionXYZ)
        (SetTransformations scaleXYZ x y z positionXYZ).
Proof.
  intros st1 st2 Hr Hfr. pose proof (render_ready_frame _ _ Hfr Hr) as Hr2.
  destruct Hr as ([sm1 Hs1] & _). destruct Hr2 as ([sm2 Hs2] & _).
  rewrite (run_SetTransformations _ _ _ _ _ _ _ Hs1),
          (run_SetTransformations _ _ _ _ _ _ _ Hs2).
  eexists tt, _, _, _. split; [reflexivity|]. split; [reflexivity|].
  split; [exact (frame_uniform_written _ _ _ _ _ Hs1)|].
  split; [exact (frame_uniform_written _ _ _ _ _ Hs2)|].
  split; [reflexivity|]. split; [reflexivity|]. now apply Forall_singleton.
Qed.

Lemma alike_SetShaderColor (r g b a : F32.float) :
  alike (SetShaderColor r g b a) (SetShaderColor r g b a).
Proof.
  intros st1 st2 Hr Hfr. pose proof (render_ready_frame _ _ Hfr Hr) as Hr2.
  destruct Hr as ([sm1 Hs1] & _). destruct Hr2 as ([sm2 Hs2] & _).
  rewrite (run_SetShaderColor _ _ _ _ _ _ Hs1), (run_SetShaderColor _ _ _ _ _ _ Hs2).
  eexists tt, [_; _], _, _. split; [reflexivity|]. split; [reflexivity|].
  split; [unfold frame; cbn; now rewrite Hs1|].
  split; [unfold frame; cbn; now rewrite Hs2|].
  split; [cbn [uniform_written calls set_calls set_pShaderManager];
          now rewrite <- app_assoc|].
  split; [cbn [uniform_written calls set_calls set_pShaderManager];
          now rewrite <- app_assoc|].
  repeat constructor.
Qed.

Lemma alike_SetShaderTexture (tag : string) :
  alike (SetShaderTexture tag) (SetShaderTexture tag).
Proof.
  intros st1 st2 Hr Hfr. pose proof (render_ready_frame _ _ Hfr Hr) as Hr2.
  destruct Hr as ([sm1 Hs1] & Hb1 & _). destruct Hr2 as ([sm2 Hs2] & Hb2 & _).
  rewrite (run_SetShaderTexture _ _ _ Hs1 Hb1), (run_SetShaderTexture _ _ _ Hs2 Hb2).
  apply frame_eq in Hfr as (_ & Hn & Hids & _).
  unfold registered_textures. rewrite <- Hn, <- Hids.
  eexists tt, [_; _], _, _. split; [reflexivity|]. split; [reflexivity|].
  split; [unfold frame; cbn; now rewrite Hs1|].
  split; [unfold frame; cbn; now rewrite Hs2|].
  split; [cbn [uniform_written calls set_calls set_pShaderManager];
          now rewrite <- app_assoc|].
  split; [cbn [uniform_written calls set_calls set_pShaderManager];
          now rewrite <- app_assoc|].
  repeat constructor.
Qed.

(** For a material of the scene the content of the uninitialised local
    does not matter. *)
Lemma alike_SetShaderMaterial (m1 m2 : OBJECT_MATERIAL.t) (tag : string) :
  tag ∈ scene_material_tags ->
  alike (SetShaderMaterial m1 tag) (SetShaderMaterial m2 tag).
Proof.
  intros Htag st1 st2 Hr Hfr. pose proof (render_ready_frame _ _ Hfr Hr) as Hr2.
  destruct Hr as ([sm1 Hs1] & _ & Hm). destruct Hr2 as ([sm2 Hs2] & _).
  rewrite Forall_forall in Hm. specialize (Hm tag Htag). unfold material_defined in Hm.
  apply frame_eq in Hfr as (_ & _ & _ & Hms).
  assert (Hne1 : m_objectMaterials st1 <> []).
  { intros E. rewrite E in Hm. now apply Exists_nil in Hm. }
  assert (Hne2 : m_objectMaterials st2 <> []) by now rewrite <- Hms.
  rewrite (run_SetShaderMaterial _ _ _ _ Hs1 Hne1), (run_SetShaderMaterial _ _ _ _ Hs2 Hne2).
  rewrite <- Hms.
  destruct (FindMaterial_from_match _ _ m1 m2 Hm) as (-> & -> & ->).
  eexists tt, [_; _; _], _, _. split; [reflexivity|]. split; [reflexivity|].
  split; [unfold frame; cbn; now rewrite Hs1|].
  split; [unfold frame; cbn; now rewrite Hs2|].
  split; [cbn [uniform_written calls set_calls set_pShaderManager];
          now rewrite <- !app_assoc|].
  split; [cbn [uniform_written calls set_calls set_pShaderManager];
          now rewrite <- !app_assoc|].
  repeat constructor.
Qed.

Ltac scene_tag :=
  apply list_elem_of_In; cbn [In scene_material_tags];
  repeat (first [left; reflexivity | right]).

Ltac alike_step :=
  first [ apply alike_emit; reflexivity
        | apply alike_SetTransformations
        | apply alike_SetShaderTexture
        | apply alike_SetShaderColor
        | apply alike_SetShaderMaterial; scene_tag ].

(** Two runs of [RenderScene] behave alike, whatever their uninitialised
    locals hold. *)
Lemma alike_RenderScene {libm : Libm} (material1 material2 : nat -> OBJECT_MATERIAL.t) :
  alike (RenderScene material1) (RenderScene material2).
Proof.
  unfold RenderScene. cbv zeta.
  repeat (apply alike_bind; [alike_step | intros _]).
  alike_step.
Qed.

Lemma bind_inv {A B : Type} (m : M A) (f : A -> M B) (st st' : State) (b : B) :
  (m ≫= f) st = Done b st' ->
  exists a st1, m st = Done a st1 /\ f a st1 = Done b st'.
Proof.
  rewrite run_bind. destruct (m st) as [a st1|e]; [|discriminate]. eauto.
Qed.

Lemma grows_refl (st : State) : grows st st.
Proof. split; [tauto|]. split; [exists []; now rewrite app_nil_r | tauto]. Qed.

Lemma grows_trans (st1 st2 st3 : State) :
  grows st1 st2 -> grows st2 st3 -> grows st1 st3.
Proof.
  intros (Hb & [l Hl] & Hs) (Hb' & [l' Hl'] & Hs').
  split; [tauto|]. split; [|tauto].
  exists (l ++ l'). now rewrite Hl', Hl, app_assoc.
Qed.

Lemma keeps_bind {A B : Type} (m : M A) (f : A -> M B) :
  keeps m -> (forall a, keeps (f a)) -> keeps (m ≫= f).
Proof.
  intros Hm Hf st b st' Hrun. apply bind_inv in Hrun as (a & st1 & H1 & H2).
  exact (grows_trans _ _ _ (Hm _ _ _ H1) (Hf _ _ _ _ H2)).
Qed.

Lemma keeps_ret {A : Type} (a : A) : keeps (mret a).
Proof. intros st a' st' [= _ <-]. apply grows_refl. Qed.

Lemma keeps_emit (c : Call) : keeps (emit c).
Proof.
  intros st a st' [= _ <-]. unfold grows, textures_in_bounds. cbn.
  split; [tauto|]. split; [exists []; now rewrite app_nil_r | tauto].
Qed.

Lemma shader_set_inv (name : string) (v : UniformValue) (st st' : State) (a : unit) :
  shader_set name v st = Done a st' ->
  exists sm, m_pShaderManager st = Some sm /\ st' = uniform_written name v sm st.
Proof.
  intros H. destruct (m_pShaderManager st) as [sm|] eqn:E.
  - rewrite (run_shader_set _ _ _ _ E) in H. injection H as _ <-. eauto.
  - unfold shader_set in H. rewrite run_bind in H. cbn [get] in H. now rewrite E in H.
Qed.

Lemma keeps_shader_set (name : string) (v : UniformValue) : keeps (shader_set name v).
Proof.
  intros st a st' H. apply shader_set_inv in H as (sm & Hsm & ->).
  unfold grows, textures_in_bounds. cbn.
  split; [tauto|]. split; [exists []; now rewrite app_nil_r|].
  rewrite Hsm. split; eauto.
Qed.

Lemma keeps_CreateGLTexture (filename tag : string) :
  keeps (CreateGLTexture filename tag).
Proof.
  intros st [|] st' H.
  - apply CreateGLTexture_registers in H as (Hk & Hids & Hn & Hms & Hs).
    split; [|split].
    + intros _. unfold textures_in_bounds. rewrite Hids, Hn, length_insert. lia.
    + exists []. now rewrite Hms, app_nil_r.
    + now rewrite Hs.
  - apply CreateGLTexture_unregistered in H as (Hids & Hn & Hms & Hs).
    split; [|split].
    + unfold textures_in_bounds. now rewrite Hids, Hn.
    + exists []. now rewrite Hms, app_nil_r.
    + now rewrite Hs.
Qed.

Lemma read_texture_inv (index : Z) (st st' : State) (e : TEXTURE_INFO.t) :
  read_texture index st = Done e st' -> st' = st.
Proof.
  unfold read_texture. run. destruct (index <? 0); [discriminate|].
  destruct (_ !! _); [|discriminate]. now intros [= _ <-].
Qed.

Lemma keeps_BindGLTextures_from (n : nat) (i : Z) : keeps (BindGLTextures_from n i).
Proof.
  revert i. induction n as [|n IH]; intros i; cbn [BindGLTextures_from].
  - apply keeps_ret.
  - apply keeps_bind; [apply keeps_emit | intros _].
    apply keeps_bind; [|intros e].
    { intros st e st' H. apply read_texture_inv in H as ->. apply grows_refl. }
    apply keeps_bind; [apply keeps_emit | intros _]. apply IH.
Qed.

Lemma keeps_LoadSceneTextures : keeps LoadSceneTextures.
Proof.
  unfold LoadSceneTextures.
  repeat (apply keeps_bind; [apply keeps_CreateGLTexture | intros _]).
  unfold BindGLTextures. apply keeps_bind; [|intros n; apply keeps_BindGLTextures_from].
  intros st a st' [= _ <-]. apply grows_refl.
Qed.

Lemma run_DefineObjectMaterials (st : State) :
  DefineObjectMaterials st
  = Done tt (set_objectMaterials
               (m_objectMaterials st ++
                [cementMaterial; tileMaterial; marbleMaterial; dirtMaterial;
                 metalMaterial; glassMaterial; plasticMaterial]) st).
Proof.
  unfold DefineObjectMaterials, push_back. run. now rewrite <- !app_assoc.
Qed.

Lemma keeps_lights_and_meshes :
  keeps (SetupSceneLights ;;
         emit LoadPlaneMesh ;; emit LoadSphereMesh ;; emit LoadCylinderMesh ;;
         emit LoadTorusMesh ;; emit LoadBoxMesh ;; emit LoadTaperedCylinderMesh).
Proof.
  apply keeps_bind.
  - unfold SetupSceneLights, setVec3Value, setBoolValue.
    repeat (apply keeps_bind; [apply keeps_shader_set | intros _]).
    apply keeps_shader_set.
  - intros _. repeat (apply keeps_bind; [apply keeps_emit | intros _]).
    apply keeps_emit.
Qed.

(** After [PrepareScene] the state is ready for rendering. *)
Lemma PrepareScene_ready (st0 st1 : State) :
  textures_in_bounds st0 ->
  PrepareScene st0 = Done tt st1 ->
  render_ready st1.
Proof.
  intros Hb0 Hrun. unfold PrepareScene in Hrun.
  apply bind_inv in Hrun as (a & stA & HA & Hrun).
  apply bind_inv in Hrun as (b & stB & HB & Hrun).
  rewrite run_DefineObjectMaterials in HB. injection HB as _ <-.
  pose proof (keeps_LoadSceneTextures _ _ _ HA) as (HbA & _ & _).
  pose proof (keeps_lights_and_meshes _ _ _ Hrun) as (HbB & [l Hl] & HsB).
  assert (Hshader : is_Some (m_pShaderManager stA)).
  { apply bind_inv in Hrun as (c & stC & HC & _).
    unfold SetupSceneLights, setBoolValue in HC.
    apply bind_inv in HC as (d & stD & HD & _).
    apply shader_set_inv in HD as (sm & Hsm & _). cbn in Hsm. eauto. }
  split; [apply HsB; exact Hshader|]. split; [apply HbB, HbA, Hb0|].
  unfold material_defined. rewrite Hl. cbn [m_objectMaterials set_objectMaterials].
  unfold scene_material_tags.
  repeat apply Forall_cons_2; [..|apply Forall_nil_2];
    apply Exists_app; left; apply Exists_app; right;
    repeat (first [apply Exists_cons_hd; reflexivity | apply Exists_cons_tl]).
Qed.

(** C3. From the state that [PrepareScene] leaves, [RenderScene] returns,
    and run a second time, without preparing again, it returns again
    having made exactly the same sequence of calls as the first time, all
    of them uniform writes and draws, whatever the uninitialised locals of
    the two runs hold; neither run changes the registry, the materials or
    the shader attachment. *)
Theorem C3_RenderScene_twice_same_calls {libm : Libm} (st0 st1 : State)
    (material1 material2 : nat -> OBJECT_MATERIAL.t) :
  textures_in_bounds st0 ->
  PrepareScene st0 = Done tt st1 ->
  exists (evs : list Call) (st2 st3 : State),
    RenderScene material1 st1 = Done tt st2 /\
    RenderScene material2 st2 = Done tt st3 /\
    calls st2 = calls st1 ++ evs /\
    calls st3 = calls st2 ++ evs /\
    Forall (fun c => is_render_call c = true) evs /\
    frame st2 = frame st1 /\
    frame st3 = frame st1.
Proof.
  intros Hb0 Hprep. pose proof (PrepareScene_ready _ _ Hb0 Hprep) as Hr.
  destruct (alike_RenderScene material1 material1 st1 st1 Hr eq_refl)
    as ([] & evs & st2 & st2' & H1 & _ & F1 & _ & C1 & _ & R).
  destruct (alike_RenderScene material1 material2 st1 st2 Hr (eq_sym F1))
    as ([] & evs' & st2'' & st3 & H1' & H2 & _ & F3 & C1' & C3 & _).
  rewrite H1 in H1'. injection H1' as <-.
  rewrite C1 in C1'. apply app_inv_head in C1' as <-.
  exists evs, st2, st3. repeat split; try assumption. congruence.
Qed.

(* ===================================================================== *)
(** ** Without a shader manager, unknown textures, duplicate materials *)
(* ===================================================================== *)

(** The four methods that test [m_pShaderManager] make no call and change
    nothing when it is null. *)
Theorem guarded_setters_without_shader {libm : Libm} (st : State)
    (scaleXYZ positionXYZ : glm.vec3) (x y z r g b a u v : F32.float) (tag : string) :
  m_pShaderManager st = None ->
  SetTransformations scaleXYZ x y z positionXYZ st = Done tt st /\
  SetShaderColor r g b a st = Done tt st /\
  SetShaderTexture tag st = Done tt st /\
  SetTextureUVScale u v st = Done tt st.
Proof.
  intros H.
  unfold SetTransformations, SetShaderColor, SetShaderTexture, SetTextureUVScale.
  rewrite !run_bind. cbn [get]. rewrite H. repeat split; reflexivity.
Qed.

(** [SetShaderMaterial] (once a material is defined) and [SetupSceneLights]
    call through [m_pShaderManager] without a test: with a null pointer
    their behaviour is undefined. *)
Theorem unguarded_methods_without_shader (st : State)
    (material : OBJECT_MATERIAL.t) (tag : string) :
  m_pShaderManager st = None ->
  m_objectMaterials st <> [] ->
  SetShaderMaterial material tag st = Undefined NullPointer /\
  SetupSceneLights st = Undefined NullPointer.
Proof.
  intros H Hne. split.
  - unfold SetShaderMaterial. rewrite run_bind. cbn [get].
    destruct (m_objectMaterials st) as [|m ms] eqn:E; [contradiction|].
    cbn [length Nat.ltb Nat.leb]. rewrite run_bind, run_FindMaterial, E. cbn [fst snd].
    rewrite run_bind. unfold shader_set at 1. rewrite run_bind. cbn [get].
    now rewrite H.
  - unfold SetupSceneLights, setBoolValue. rewrite run_bind.
    unfold shader_set at 1. rewrite run_bind. cbn [get]. now rewrite H.
Qed.

(** [SetShaderTexture] with a tag that no registered texture has passes the
    sentinel [-1] on to the sampler uniform. *)
Theorem unknown_texture_sets_sampler_to_sentinel (st : State) (sm : ShaderManager)
    (tag : string) :
  m_pShaderManager st = Some sm ->
  textures_in_bounds st ->
  ~ registered st tag ->
  exists st',
    SetShaderTexture tag st = Done tt st' /\
    uniform g_TextureValueName st' = Some (USampler2D (-1)) /\
    uniform g_UseTextureName st' = Some (UInt 1).
Proof.
  intros Hsm Hb Hno. rewrite (run_SetShaderTexture _ _ _ Hsm Hb).
  assert (Hf : list_find (has_tag tag) (registered_textures st) = None).
  { apply list_find_None, Forall_forall. intros e He Ht. apply Hno. now exists e. }
  rewrite Hf. eexists. split; [reflexivity|]. split; [apply uniform_written_same|].
  unfold uniform. cbn [uniform_written m_pShaderManager set_calls set_pShaderManager
                       mbind option_bind uniforms].
  rewrite lookup_insert_ne by discriminate. apply lookup_insert_eq.
Qed.

(** Among several materials with the same tag [FindMaterial] takes the
    first: it copies the three lighting fields of the first material with
    the tag and keeps the tag field of [material]. *)
Theorem FindMaterial_first_wins (st : State) (tag : string)
    (material m : OBJECT_MATERIAL.t) (before after : list OBJECT_MATERIAL.t) :
  m_objectMaterials st = before ++ m :: after ->
  Forall (fun m' => OBJECT_MATERIAL.tag m' <> tag) before ->
  OBJECT_MATERIAL.tag m = tag ->
  FindMaterial tag material st
  = Done (true, OBJECT_MATERIAL.mk (OBJECT_MATERIAL.diffuseColor m)
                  (OBJECT_MATERIAL.specularColor m) (OBJECT_MATERIAL.shininess m)
                  (OBJECT_MATERIAL.tag material)) st.
Proof.
  intros Hms Hbefore Hm. rewrite run_FindMaterial, Hms.
  assert (Hscan : FindMaterial_from (before ++ m :: after) tag material
                  = OBJECT_MATERIAL.mk (OBJECT_MATERIAL.diffuseColor m)
                      (OBJECT_MATERIAL.specularColor m) (OBJECT_MATERIAL.shininess m)
                      (OBJECT_MATERIAL.tag material)).
  { clear Hms. induction Hbefore as [|m' before Hm' _ IH]; cbn [app FindMaterial_from].
    - destruct (String.eqb_spec (OBJECT_MATERIAL.tag m) tag); [reflexivity | contradiction].
    - destruct (String.eqb_spec (OBJECT_MATERIAL.tag m') tag); [contradiction | exact IH]. }
  rewrite Hscan. now destruct before.
Qed.

(* ===================================================================== *)
(** ** Every path of [CreateGLTexture] *)
(* ===================================================================== *)

(** Two states with the same members are the same state. *)
Lemma State_eq (s1 s2 : State) :
  m_pShaderManager s1 = m_pShaderManager s2 ->
  m_loadedTextures s1 = m_loadedTextures s2 ->
  m_textureIDs s1 = m_textureIDs s2 ->
  m_objectMaterials s1 = m_objectMaterials s2 ->
  files s1 = files s2 ->
  gl_names s1 = gl_names s2 ->
  gl_generated s1 = gl_generated s2 ->
  calls s1 = calls s2 ->
  s1 = s2.
Proof. destruct s1, s2; cbn; intros; subst; reflexivity. Qed.

(** [CreateGLTexture] on each of its four paths: the image is registered;
    the file does not decode; the channel count is not supported; the
    array is full. *)
Lemma run_CreateGLTexture_accepted (filename tag : string) (st : State) (image : Image) :
  files st !! filename = Some image ->
  supported image = true ->
  0 <= m_loadedTextures st < Z.of_nat (length (m_textureIDs st)) ->
  CreateGLTexture filename tag st
  = Done true
      (set_loadedTextures (m_loadedTextures st + 1)
         (set_textureIDs
            (<[Z.to_nat (m_loadedTextures st) := TEXTURE_INFO.mk (next_name st) tag]>
               (m_textureIDs st))
            (set_gl_generated (S (gl_generated st))
               (set_calls (calls st ++ configure_calls filename image (next_name st)
                             ++ upload_call image :: finish_calls) st)))).
Proof.
  intros Hfile Hsup Hn.
  destruct (lookup_lt_is_Some_2 (m_textureIDs st) (Z.to_nat (m_loadedTextures st)))
    as [e He]; [lia|].
  unfold CreateGLTexture, gen_texture, write_texture, read_texture. run.
  rewrite Hfile. unfold supported in Hsup. unfold upload_call.
  destruct (img_channels image =? 3) eqn:E3;
    [|destruct (img_channels image =? 4) eqn:E4; [|discriminate Hsup]]; fields.
  all: destruct (m_loadedTextures st <? 0) eqn:Hneg; [lia|].
  all: rewrite He; fields; rewrite Hneg, list_lookup_insert_eq by lia; fields.
  all: f_equal; apply State_eq; fields; try reflexivity.
  all: try (rewrite list_insert_insert_eq; reflexivity).
  all: unfold configure_calls, finish_calls, next_name; rewrite <- !app_assoc; reflexivity.
Qed.

Lemma run_CreateGLTexture_missing (filename tag : string) (st : State) :
  files st !! filename = None ->
  CreateGLTexture filename tag st
  = Done false
      (set_calls (calls st ++ [stbi_set_flip_vertically_on_load true; stbi_load filename;
                               cout (msg_could_not_load filename)]) st).
Proof.
  intros Hfile. unfold CreateGLTexture. run. rewrite Hfile.
  f_equal. apply State_eq; fields; try reflexivity.
  rewrite <- !app_assoc. reflexivity.
Qed.

Lemma run_CreateGLTexture_unsupported (filename tag : string) (st : State) (image : Image) :
  files st !! filename = Some image ->
  supported image = false ->
  CreateGLTexture filename tag st
  = Done false
      (set_gl_generated (S (gl_generated st))
         (set_calls (calls st ++ configure_calls filename image (next_name st)
                       ++ [cout (msg_not_implemented (img_channels image))]) st)).
Proof.
  intros Hfile Hsup. unfold CreateGLTexture, gen_texture. run. rewrite Hfile.
  unfold supported in Hsup. apply orb_false_elim in Hsup as [-> ->].
  f_equal. apply State_eq; fields; try reflexivity.
  unfold configure_calls, next_name. rewrite <- !app_assoc. reflexivity.
Qed.

Lemma run_CreateGLTexture_overrun (filename tag : string) (st : State) (image : Image) :
  files st !! filename = Some image ->
  supported image = true ->
  Z.of_nat (length (m_textureIDs st)) <= m_loadedTextures st ->
  CreateGLTexture filename tag st = Undefined OutOfBounds.
Proof.
  intros Hfile Hsup Hfull.
  unfold CreateGLTexture, gen_texture, write_texture, read_texture. run.
  rewrite Hfile.
  assert (Hout : m_textureIDs st !! Z.to_nat (m_loadedTextures st) = None)
    by (apply lookup_ge_None; lia).
  unfold supported in Hsup.
  destruct (img_channels image =? 3) eqn:E3;
    [|destruct (img_channels image =? 4) eqn:E4; [|discriminate Hsup]]; fields;
    rewrite Hout; now destruct (m_loadedTextures st <? 0).
Qed.

(* ===================================================================== *)
(** ** Binding and renaming the textures *)
(* ===================================================================== *)

Lemma run_emit (c : Call) (st : State) :
  emit c st = Done tt (set_calls (calls st ++ [c]) st).
Proof. reflexivity. Qed.

Lemma run_BindGLTextures_from (n : nat) (i : Z) (st : State) :
  0 <= i ->
  (Z.to_nat i + n <= length (m_textureIDs st))%nat ->
  BindGLTextures_from n i st
  = Done tt (set_calls (calls st ++ bind_calls i (take n (drop (Z.to_nat i) (m_textureIDs st))))
               st).
Proof.
  revert i st. induction n as [|n IH]; intros i st H0 Hn.
  - cbn [BindGLTextures_from take bind_calls]. rewrite app_nil_r.
    unfold mret, M_ret. f_equal. apply State_eq; reflexivity.
  - destruct (lookup_lt_is_Some_2 (m_textureIDs st) (Z.to_nat i)) as [e He]; [lia|].
    cbn [BindGLTextures_from].
    rewrite run_bind, run_emit, run_bind, (run_read_texture _ e) by (fields; assumption).
    rewrite run_bind, run_emit, IH by (fields; lia). fields.
    rewrite (drop_S _ e (Z.to_nat i)) by assumption. cbn [take bind_calls].
    replace (Z.to_nat (i + 1)) with (S (Z.to_nat i)) by lia.
    f_equal. apply State_eq; fields; try reflexivity.
    now rewrite <- !app_assoc.
Qed.

Lemma run_BindGLTextures (st : State) :
  m_loadedTextures st <= Z.of_nat (length (m_textureIDs st)) ->
  BindGLTextures st
  = Done tt (set_calls (calls st ++ bind_calls 0 (registered_textures st)) st).
Proof.
  intros Hn. unfold BindGLTextures. rewrite run_bind. cbn [get].
  rewrite run_BindGLTextures_from by (cbn; lia). reflexivity.
Qed.

Lemma bind_calls_lookup (l : list TEXTURE_INFO.t) (i : Z) (j : nat) (e : TEXTURE_INFO.t) :
  l !! j = Some e ->
  bind_calls i l !! (2 * j)%nat = Some (glActiveTexture (i + Z.of_nat j)) /\
  bind_calls i l !! (2 * j + 1)%nat = Some (glBindTexture GL_TEXTURE_2D (TEXTURE_INFO.ID e)).
Proof.
  revert i j. induction l as [|x l IH]; intros i j Hj; [discriminate|].
  destruct j as [|j].
  - injection Hj as ->. cbn. split; [f_equal; f_equal; lia | reflexivity].
  - cbn [lookup list_lookup] in Hj. destruct (IH (i + 1) j Hj) as [H1 H2].
    replace (2 * S j)%nat with (S (S (2 * j))) by lia.
    replace (S (S (2 * j)) + 1)%nat with (S (S (2 * j + 1))) by lia.
    split; [|exact H2].
    change (bind_calls (i + 1) l !! (2 * j)%nat = Some (glActiveTexture (i + Z.of_nat (S j)))).
    rewrite H1. f_equal. f_equal. lia.
Qed.

Lemma bind_calls_length (l : list TEXTURE_INFO.t) (i : Z) :
  length (bind_calls i l) = (2 * length l)%nat.
Proof. revert i. induction l as [|x l IH]; intros i; cbn; [reflexivity|]. rewrite IH. lia. Qed.

(** [BindGLTextures] makes, for every registered texture in index order,
    the two calls [glActiveTexture(GL_TEXTURE0 + i)] and
    [glBindTexture(GL_TEXTURE_2D, m_textureIDs[i].ID)], and nothing else:
    texture unit [i] receives the texture of slot [i].  With no texture
    registered it makes no call.  The scene manager itself is unchanged. *)
Theorem BindGLTextures_binds_slot_by_slot (st : State) :
  m_loadedTextures st <= Z.of_nat (length (m_textureIDs st)) ->
  exists evs,
    BindGLTextures st = Done tt (set_calls (calls st ++ evs) st) /\
    length evs = (2 * length (registered_textures st))%nat /\
    (m_loadedTextures st <= 0 -> evs = []) /\
    forall (i : nat) (e : TEXTURE_INFO.t),
      registered_textures st !! i = Some e ->
      evs !! (2 * i)%nat = Some (glActiveTexture (Z.of_nat i)) /\
      evs !! (2 * i + 1)%nat = Some (glBindTexture GL_TEXTURE_2D (TEXTURE_INFO.ID e)).
Proof.
  intros Hn. exists (bind_calls 0 (registered_textures st)).
  split; [now apply run_BindGLTextures|]. split; [apply bind_calls_length|].
  split.
  - intros H0. unfold registered_textures.
    replace (Z.to_nat (m_loadedTextures st)) with 0%nat by lia. reflexivity.
  - intros i e He. exact (bind_calls_lookup _ 0 i e He).
Qed.

Lemma run_gen_texture (st : State) :
  gen_texture st
  = Done (next_name st)
      (set_calls (calls st ++ [glGenTextures (next_name st)])
         (set_gl_generated (S (gl_generated st)) st)).
Proof. reflexivity. Qed.

Lemma run_write_texture (index : Z) (f : TEXTURE_INFO.t -> TEXTURE_INFO.t)
    (e : TEXTURE_INFO.t) (st : State) :
  0 <= index -> m_textureIDs st !! Z.to_nat index = Some e ->
  write_texture index f st
  = Done tt (set_textureIDs (<[Z.to_nat index := f e]> (m_textureIDs st)) st).
Proof.
  intros H0 He. unfold write_texture.
  rewrite run_bind, (run_read_texture _ e) by assumption. reflexivity.
Qed.

Lemma rename_length (names : nat -> Z) (g : nat) (l : list TEXTURE_INFO.t) :
  length (rename names g l) = length l.
Proof. revert g. induction l as [|e l IH]; intros g; cbn; [reflexivity | now rewrite IH]. Qed.

Lemma rename_lookup (names : nat -> Z) (g : nat) (l : list TEXTURE_INFO.t) (k : nat) :
  rename names g l !! k
  = (fun e => TEXTURE_INFO.mk (to_GLuint (names (g + k)%nat)) (TEXTURE_INFO.tag e)) <$> l !! k.
Proof.
  revert g k. induction l as [|e l IH]; intros g k; [reflexivity|].
  destruct k as [|k]; cbn [rename lookup list_lookup].
  - cbn. now rewrite Nat.add_0_r.
  - rewrite IH. now replace (S g + k)%nat with (g + S k)%nat by lia.
Qed.

Lemma rename_tags (names : nat -> Z) (g : nat) (l : list TEXTURE_INFO.t) :
  TEXTURE_INFO.tag <$> rename names g l = TEXTURE_INFO.tag <$> l.
Proof. revert g. induction l as [|e l IH]; intros g; cbn; [reflexivity | now rewrite IH]. Qed.

Lemma rename_names (names : nat -> Z) (g : nat) (l : list TEXTURE_INFO.t) :
  TEXTURE_INFO.ID <$> rename names g l
  = (fun k => to_GLuint (names (g + k)%nat)) <$> seq 0 (length l).
Proof.
  revert g. induction l as [|e l IH]; intros g; [reflexivity|].
  cbn [rename fmap list_fmap length seq TEXTURE_INFO.ID]. rewrite Nat.add_0_r. f_equal.
  change (TEXTURE_INFO.ID <$> rename names (S g) l
          = (fun k => to_GLuint (names (g + k)%nat)) <$> seq 1 (length l)).
  rewrite IH, <- fmap_S_seq, <- list_fmap_compose.
  apply list_fmap_ext. intros _ k _. cbn. f_equal. f_equal. lia.
Qed.

Lemma run_DestroyGLTextures_from (n : nat) (i : Z) (st : State) :
  0 <= i ->
  (Z.to_nat i + n <= length (m_textureIDs st))%nat ->
  DestroyGLTextures_from n i st
  = let renamed_entries :=
      rename (gl_names st) (gl_generated st) (take n (drop (Z.to_nat i) (m_textureIDs st))) in
    Done tt
      (set_textureIDs
         (take (Z.to_nat i) (m_textureIDs st) ++ renamed_entries
            ++ drop (Z.to_nat i + n) (m_textureIDs st))
         (set_gl_generated (gl_generated st + n)
            (set_calls (calls st ++ (glGenTextures <$> (TEXTURE_INFO.ID <$> renamed_entries)))
               st))).
Proof.
  revert i st. induction n as [|n IH]; intros i st H0 Hn; cbv zeta.
  - rewrite take_0. cbn [DestroyGLTextures_from rename fmap list_fmap app].
    unfold mret, M_ret. f_equal. apply State_eq; fields; try reflexivity.
    + rewrite Nat.add_0_r. now rewrite take_drop.
    + now rewrite Nat.add_0_r.
    + now rewrite app_nil_r.
  - destruct (lookup_lt_is_Some_2 (m_textureIDs st) (Z.to_nat i)) as [e He]; [lia|].
    cbn [DestroyGLTextures_from].
    rewrite run_bind, (run_read_texture _ e) by assumption.
    rewrite run_bind, run_gen_texture.
    rewrite run_bind, (run_write_texture _ _ e) by (fields; assumption).
    rewrite IH by (fields; rewrite ?length_insert; lia). cbv zeta. fields.
    replace (Z.to_nat (i + 1)) with (S (Z.to_nat i)) by lia.
    rewrite (drop_S _ e (Z.to_nat i)) by assumption. cbn [take rename fmap list_fmap].
    rewrite !drop_insert_lt by lia.
    rewrite (take_S_r _ _ (set_ID (next_name st) e)) by (apply list_lookup_insert_eq; lia).
    rewrite take_insert_ge by lia.
    f_equal. apply State_eq; fields; try reflexivity.
    + rewrite <- app_assoc. cbn [app]. unfold set_ID, next_name.
      now replace (S (Z.to_nat i) + n)%nat with (Z.to_nat i + S n)%nat by lia.
    + lia.
    + rewrite <- app_assoc. reflexivity.
Qed.

Lemma run_DestroyGLTextures (st : State) :
  m_loadedTextures st <= Z.of_nat (length (m_textureIDs st)) ->
  DestroyGLTextures st
  = let renamed_entries :=
      rename (gl_names st) (gl_generated st) (registered_textures st) in
    Done tt
      (set_textureIDs
         (renamed_entries ++ drop (Z.to_nat (m_loadedTextures st)) (m_textureIDs st))
         (set_gl_generated (gl_generated st + Z.to_nat (m_loadedTextures st))
            (set_calls (calls st ++ (glGenTextures <$> (TEXTURE_INFO.ID <$> renamed_entries)))
               st))).
Proof.
  intros Hn. unfold DestroyGLTextures. rewrite run_bind. cbn [get].
  rewrite run_DestroyGLTextures_from by (cbn; lia). reflexivity.
Qed.

Lemma registered_length (st : State) :
  m_loadedTextures st <= Z.of_nat (length (m_textureIDs st)) ->
  length (registered_textures st) = Z.to_nat (m_loadedTextures st).
Proof. intros H. unfold registered_textures. rewrite length_take. lia. Qed.

(** [DestroyGLTextures] deletes nothing: its only calls are
    [glGenTextures], one per registered texture, and each stores a new name
    of the driver into the [ID] of its entry.  The tags, the entries beyond
    the count and the count itself stay as they were. *)
Theorem DestroyGLTextures_renames_in_place (st : State) :
  m_loadedTextures st <= Z.of_nat (length (m_textureIDs st)) ->
  exists st',
    DestroyGLTextures st = Done tt st' /\
    m_loadedTextures st' = m_loadedTextures st /\
    TEXTURE_INFO.tag <$> m_textureIDs st' = TEXTURE_INFO.tag <$> m_textureIDs st /\
    (forall (i : nat) (e : TEXTURE_INFO.t),
        registered_textures st !! i = Some e ->
        m_textureIDs st' !! i
        = Some (TEXTURE_INFO.mk (to_GLuint (gl_names st (gl_generated st + i)%nat))
                  (TEXTURE_INFO.tag e))) /\
    (forall i : nat, (Z.to_nat (m_loadedTextures st) <= i)%nat ->
        m_textureIDs st' !! i = m_textureIDs st !! i) /\
    gl_generated st' = (gl_generated st + length (registered_textures st))%nat /\
    calls st'
    = calls st ++
        ((fun k => glGenTextures (to_GLuint (gl_names st (gl_generated st + k)%nat)))
           <$> seq 0 (length (registered_textures st))).
Proof.
  intros Hn. rewrite run_DestroyGLTextures by exact Hn. cbv zeta.
  pose proof (registered_length st Hn) as Hlen.
  eexists. split; [reflexivity|]. fields.
  split; [reflexivity|]. split; [|split; [|split; [|split]]].
  - rewrite fmap_app, rename_tags, <- fmap_app. unfold registered_textures.
    now rewrite take_drop.
  - intros i e He. rewrite lookup_app_l
      by (rewrite rename_length; now apply lookup_lt_Some in He).
    rewrite rename_lookup, He. reflexivity.
  - intros i Hi. rewrite lookup_app_r by (rewrite rename_length; lia).
    rewrite rename_length, Hlen, lookup_drop. f_equal. lia.
  - lia.
  - f_equal. rewrite rename_names, <- list_fmap_compose. reflexivity.
Qed.

Lemma list_find_tags (tag : string) (l1 l2 : list TEXTURE_INFO.t) :
  TEXTURE_INFO.tag <$> l1 = TEXTURE_INFO.tag <$> l2 ->
  fst <$> list_find (has_tag tag) l1 = fst <$> list_find (has_tag tag) l2.
Proof.
  revert l2. induction l1 as [|a l1 IH]; intros [|b l2]; try discriminate; [reflexivity|].
  intros [= Ht Hrest]. cbn [list_find]. specialize (IH l2 Hrest).
  destruct (decide (has_tag tag a)) as [Ha|Ha], (decide (has_tag tag b)) as [Hb|Hb];
    unfold has_tag in Ha, Hb; try congruence; [reflexivity|].
  destruct (list_find (has_tag tag) l1) as [[j1 e1]|],
           (list_find (has_tag tag) l2) as [[j2 e2]|]; cbn in IH |- *; congruence.
Qed.

Lemma slot_of_tags (tag : string) (st1 st2 : State) :
  TEXTURE_INFO.tag <$> registered_textures st1 = TEXTURE_INFO.tag <$> registered_textures st2 ->
  slot_of st1 tag = slot_of st2 tag.
Proof.
  intros H. apply (list_find_tags tag) in H. unfold slot_of.
  destruct (list_find (has_tag tag) (registered_textures st1)) as [[j1 e1]|],
           (list_find (has_tag tag) (registered_textures st2)) as [[j2 e2]|];
    cbn in H; congruence.
Qed.

Lemma FindTextureSlot_slot_of (tag : string) (st : State) :
  textures_in_bounds st -> FindTextureSlot tag st = Done (slot_of st tag) st.
Proof. exact (run_FindTextureSlot tag st). Qed.

(** After [DestroyGLTextures] the registry is as full as before: the count
    is unchanged, [FindTextureSlot] answers every tag as before, and when
    the array was full a further [CreateGLTexture] of a supported image
    still runs off its end. *)
Theorem DestroyGLTextures_frees_no_slot (st : State) (tag : string) :
  textures_in_bounds st ->
  exists (st' : State) (slot : Z),
    DestroyGLTextures st = Done tt st' /\
    m_loadedTextures st' = m_loadedTextures st /\
    FindTextureSlot tag st = Done slot st /\
    FindTextureSlot tag st' = Done slot st' /\
    forall (filename tag' : string) (image : Image),
      m_loadedTextures st = Z.of_nat (length (m_textureIDs st)) ->
      files st !! filename = Some image ->
      supported image = true ->
      CreateGLTexture filename tag' st' = Undefined OutOfBounds.
Proof.
  intros Hb. destruct Hb as [Hb0 Hb1].
  pose proof (run_DestroyGLTextures st Hb1) as Hrun. cbv zeta in Hrun.
  pose proof (registered_length st Hb1) as Hlen.
  eexists _, (slot_of st tag). split; [exact Hrun|]. fields.
  split; [reflexivity|]. split; [now apply FindTextureSlot_slot_of|].
  match goal with |- FindTextureSlot _ ?s = _ /\ _ => set (st' := s) end.
  assert (Hids : m_textureIDs st'
                 = rename (gl_names st) (gl_generated st) (registered_textures st)
                     ++ drop (Z.to_nat (m_loadedTextures st)) (m_textureIDs st)) by reflexivity.
  assert (Hcount : m_loadedTextures st' = m_loadedTextures st) by reflexivity.
  assert (Hlen' : length (m_textureIDs st') = length (m_textureIDs st)).
  { rewrite Hids, length_app, rename_length, length_drop, Hlen. lia. }
  assert (Hb' : textures_in_bounds st').
  { unfold textures_in_bounds. rewrite Hcount, Hlen'. lia. }
  split.
  - rewrite FindTextureSlot_slot_of by exact Hb'. f_equal. apply slot_of_tags.
    unfold registered_textures at 1. rewrite Hcount, Hids.
    rewrite take_app_length' by (rewrite rename_length; symmetry; exact Hlen).
    apply rename_tags.
  - intros filename tag' image Hfull Hfile Hsup.
    apply (run_CreateGLTexture_overrun filename tag' st' image);
      [exact Hfile | exact Hsup | rewrite Hcount, Hlen'; lia].
Qed.

(* ===================================================================== *)
(** ** Loading and looking up *)
(* ===================================================================== *)

Lemma loadable_cases (st : State) (filename : string) :
  (loadable st filename = true /\
   exists image, files st !! filename = Some image /\ supported image = true) \/
  (loadable st filename = false /\
   (files st !! filename = None \/
    exists image, files st !! filename = Some image /\ supported image = false)).
Proof.
  unfold loadable. destruct (files st !! filename) as [image|]; [|right; auto].
  destruct (supported image) eqn:E; [left | right]; eauto.
Qed.

(** With room in the array, [CreateGLTexture] returns, and it returns
    [true] exactly when the file decodes to an image with 3 or 4 channels.
    The count grows by one exactly then; one texture name of the driver is
    used up whenever the file decodes, supported or not. *)
Theorem CreateGLTexture_succeeds_iff_supported (filename tag : string) (st : State) :
  0 <= m_loadedTextures st < Z.of_nat (length (m_textureIDs st)) ->
  exists (b : bool) (st' : State),
    CreateGLTexture filename tag st = Done b st' /\
    b = loadable st filename /\
    (b = true <-> exists image, files st !! filename = Some image /\
                                (img_channels image = 3 \/ img_channels image = 4)) /\
    m_loadedTextures st' = m_loadedTextures st + (if b then 1 else 0) /\
    length (m_textureIDs st') = length (m_textureIDs st) /\
    gl_generated st'
    = (gl_generated st + (if files st !! filename is Some _ then 1 else 0))%nat /\
    files st' = files st.
Proof.
  intros Hn.
  assert (Hsup : forall image, supported image = true
                               <-> img_channels image = 3 \/ img_channels image = 4).
  { intros image. unfold supported. rewrite orb_true_iff, !Z.eqb_eq. reflexivity. }
  destruct (loadable_cases st filename)
    as [(Hl & image & Hfile & Hs) | (Hl & [Hfile | (image & Hfile & Hs)])]; rewrite Hl.
  - rewrite (run_CreateGLTexture_accepted _ _ _ _ Hfile Hs Hn).
    eexists _, _. split; [reflexivity|]. fields. split; [reflexivity|].
    split; [|split; [reflexivity | split; [apply length_insert | split; [|reflexivity]]]].
    + split; [intros _; exists image; split; [exact Hfile | now apply Hsup] | reflexivity].
    + rewrite Hfile. lia.
  - rewrite (run_CreateGLTexture_missing _ _ _ Hfile).
    eexists _, _. split; [reflexivity|]. fields. split; [reflexivity|].
    split; [|split; [lia | split; [reflexivity | split; [|reflexivity]]]].
    + split; [discriminate | intros (image & Himg & _); congruence].
    + rewrite Hfile. lia.
  - rewrite (run_CreateGLTexture_unsupported _ _ _ _ Hfile Hs).
    eexists _, _. split; [reflexivity|]. fields. split; [reflexivity|].
    split; [|split; [lia | split; [reflexivity | split; [|reflexivity]]]].
    + split; [discriminate|]. intros (image' & Himg & Hch).
      rewrite Hfile in Himg. injection Himg as <-. apply Hsup in Hch. congruence.
    + rewrite Hfile. lia.
Qed.

(** The two failing paths of [CreateGLTexture].  When the file does not
    decode, no OpenGL call is made.  When the image has an unsupported
    channel count, a texture name has been generated and bound and the four
    parameters set; the function then returns without a call of
    [stbi_image_free], so the image is never released, and the name stays
    allocated. *)
Theorem CreateGLTexture_failure_releases_nothing (filename tag : string) (st : State) :
  loadable st filename = false ->
  exists (st' : State) (evs : list Call),
    CreateGLTexture filename tag st = Done false st' /\
    calls st' = calls st ++ evs /\
    (stbi_image_free ∉ evs) /\
    match files st !! filename with
    | None =>
        evs = [stbi_set_flip_vertically_on_load true; stbi_load filename;
               cout (msg_could_not_load filename)] /\
        gl_generated st' = gl_generated st
    | Some image =>
        evs = configure_calls filename image (next_name st)
                ++ [cout (msg_not_implemented (img_channels image))] /\
        gl_generated st' = S (gl_generated st) /\
        glGenTextures (next_name st) ∈ evs /\
        glBindTexture GL_TEXTURE_2D (next_name st) ∈ evs
    end.
Proof.
  intros Hl. destruct (loadable_cases st filename)
    as [(Hl' & _) | (_ & [Hfile | (image & Hfile & Hs)])]; [congruence| |]; rewrite Hfile.
  - rewrite (run_CreateGLTexture_missing _ _ _ Hfile).
    eexists _, _. split; [reflexivity|]. fields. split; [reflexivity|].
    split; [|split; reflexivity].
    rewrite !not_elem_of_cons; repeat split; try discriminate; apply not_elem_of_nil.
  - rewrite (run_CreateGLTexture_unsupported _ _ _ _ Hfile Hs).
    eexists _, _. split; [reflexivity|]. fields. split; [reflexivity|].
    unfold configure_calls. cbn [app].
    split; [|split; [reflexivity | split; [reflexivity | split]]].
    + rewrite !not_elem_of_cons; repeat split; try discriminate; apply not_elem_of_nil.
    + do 3 apply list_elem_of_further. apply list_elem_of_here.
    + do 4 apply list_elem_of_further. apply list_elem_of_here.
Qed.

Lemma find_registered (st : State) (tag : string) :
  registered st tag <-> exists j e, list_find (has_tag tag) (registered_textures st) = Some (j, e).
Proof.
  split.
  - intros (e & He & Ht).
    destruct (list_find (has_tag tag) (registered_textures st)) as [[j e']|] eqn:Hf; [eauto|].
    apply list_find_None in Hf. rewrite Forall_forall in Hf. now destruct (Hf e He).
  - intros (j & e & Hf). apply list_find_Some in Hf as (Hj & Ht & _).
    exists e. split; [now apply list_elem_of_lookup_2 in Hj | exact Ht].
Qed.

Lemma find_unregistered (st : State) (tag : string) :
  ~ registered st tag <-> list_find (has_tag tag) (registered_textures st) = None.
Proof.
  rewrite find_registered. split.
  - intros H. destruct (list_find _ _) as [[j e]|]; [destruct H; eauto | reflexivity].
  - intros -> (j & e & H). discriminate.
Qed.

(** The registry after a call of [CreateGLTexture] that returned [true]. *)
Lemma CreateGLTexture_appends (filename tag : string) (st st' : State) :
  textures_in_bounds st ->
  CreateGLTexture filename tag st = Done true st' ->
  textures_in_bounds st' /\
  registered_textures st' = registered_textures st ++ [TEXTURE_INFO.mk (next_name st) tag] /\
  length (registered_textures st) = Z.to_nat (m_loadedTextures st).
Proof.
  intros [Hb0 Hb1] Hrun.
  apply CreateGLTexture_registers in Hrun as (Hk & Hids & Hn & _ & _).
  split; [unfold textures_in_bounds; rewrite Hids, Hn, length_insert; lia|].
  split; [|apply registered_length; lia].
  unfold registered_textures. rewrite Hids, Hn.
  replace (Z.to_nat (m_loadedTextures st + 1)) with (S (Z.to_nat (m_loadedTextures st))) by lia.
  rewrite (take_S_r _ _ (TEXTURE_INFO.mk (next_name st) tag))
    by (apply list_lookup_insert_eq; lia).
  now rewrite take_insert_ge by lia.
Qed.

(** The registry is append-only and the lookups take the first match.
    After a call of [CreateGLTexture] that returned [true], every tag
    registered before is answered by [FindTextureSlot] and [FindTextureID]
    exactly as before, also the tag just registered again, whose new
    texture is never found; a tag that is new gets the old count as its
    slot and the new name as its ID; every other tag is still unknown. *)
Theorem CreateGLTexture_keeps_earlier_lookups (filename tag : string) (st st' : State) :
  textures_in_bounds st ->
  CreateGLTexture filename tag st = Done true st' ->
  (forall tag' : string, registered st tag' ->
     exists slot id : Z,
       FindTextureSlot tag' st = Done slot st /\ FindTextureSlot tag' st' = Done slot st' /\
       FindTextureID tag' st = Done id st /\ FindTextureID tag' st' = Done id st' /\
       0 <= slot < m_loadedTextures st) /\
  (~ registered st tag ->
     FindTextureSlot tag st' = Done (m_loadedTextures st) st' /\
     FindTextureID tag st' = Done (GLuint_to_int (next_name st)) st') /\
  (forall tag' : string, ~ registered st tag' -> tag' <> tag ->
     FindTextureSlot tag' st' = Done (-1) st' /\ FindTextureID tag' st' = Done (-1) st').
Proof.
  intros Hb Hrun. pose proof Hb as [Hb0 Hb1].
  destruct (CreateGLTexture_appends _ _ _ _ Hb Hrun) as (Hb' & Hreg & Hlen).
  split; [|split].
  - intros tag' Hin. apply find_registered in Hin as (j & e & Hf).
    exists (Z.of_nat j), (GLuint_to_int (TEXTURE_INFO.ID e)).
    rewrite !run_FindTextureSlot, !run_FindTextureID by assumption.
    rewrite Hreg, (list_find_app_l _ _ _ _ _ Hf), Hf.
    repeat split; try lia.
    apply list_find_Some in Hf as (Hj & _). apply lookup_lt_Some in Hj. lia.
  - intros Hno. apply find_unregistered in Hno.
    rewrite run_FindTextureSlot, run_FindTextureID by assumption.
    rewrite Hreg, (list_find_app_r _ _ _ Hno). cbn [list_find].
    rewrite decide_True by reflexivity. cbn. rewrite Hlen.
    split; [f_equal; lia | reflexivity].
  - intros tag' Hno Hne. apply find_unregistered in Hno.
    rewrite run_FindTextureSlot, run_FindTextureID by assumption.
    rewrite Hreg, (list_find_app_r _ _ _ Hno). cbn [list_find].
    rewrite decide_False by (unfold has_tag; cbn; congruence). cbn. split; reflexivity.
Qed.

(** The sampler that [SetShaderTexture] writes for a registered tag is the
    index of the first entry with the tag, and [BindGLTextures] binds the
    texture of exactly this entry on the texture unit of that index. *)
Theorem SetShaderTexture_selects_bound_unit (st : State) (sm : ShaderManager) (tag : string) :
  m_pShaderManager st = Some sm ->
  textures_in_bounds st ->
  registered st tag ->
  exists (i : nat) (e : TEXTURE_INFO.t) (st1 st2 : State) (evs : list Call),
    registered_textures st !! i = Some e /\
    TEXTURE_INFO.tag e = tag /\
    (forall (j : nat) (e' : TEXTURE_INFO.t),
       (j < i)%nat -> registered_textures st !! j = Some e' -> TEXTURE_INFO.tag e' <> tag) /\
    SetShaderTexture tag st = Done tt st1 /\
    uniform g_TextureValueName st1 = Some (USampler2D (Z.of_nat i)) /\
    BindGLTextures st = Done tt st2 /\
    calls st2 = calls st ++ evs /\
    evs !! (2 * i)%nat = Some (glActiveTexture (Z.of_nat i)) /\
    evs !! (2 * i + 1)%nat = Some (glBindTexture GL_TEXTURE_2D (TEXTURE_INFO.ID e)).
Proof.
  intros Hsm Hb Hin. apply find_registered in Hin as (i & e & Hf).
  pose proof Hf as Hf'. apply list_find_Some in Hf' as (Hi & Ht & Hfirst).
  exists i, e. rewrite (run_SetShaderTexture _ _ _ Hsm Hb), Hf.
  rewrite run_BindGLTextures by apply Hb.
  eexists _, _, _. split; [exact Hi|]. split; [exact Ht|].
  split; [intros j e' Hj He'; exact (Hfirst j e' He' Hj)|]. split; [reflexivity|].
  split; [apply uniform_written_same|]. split; [reflexivity|]. split; [reflexivity|].
  exact (bind_calls_lookup _ 0 i e Hi).
Qed.

(** The scan of [FindMaterial] stops at the first material with the tag. *)
Lemma FindMaterial_from_first (tag : string) (material m : OBJECT_MATERIAL.t)
    (before after : list OBJECT_MATERIAL.t) :
  Forall (fun m' => OBJECT_MATERIAL.tag m' <> tag) before ->
  OBJECT_MATERIAL.tag m = tag ->
  FindMaterial_from (before ++ m :: after) tag material
  = OBJECT_MATERIAL.mk (OBJECT_MATERIAL.diffuseColor m) (OBJECT_MATERIAL.specularColor m)
      (OBJECT_MATERIAL.shininess m) (OBJECT_MATERIAL.tag material).
Proof.
  intros Hbefore Hm. induction Hbefore as [|m' before Hm' _ IH]; cbn [app FindMaterial_from].
  - destruct (String.eqb_spec (OBJECT_MATERIAL.tag m) tag); [reflexivity | contradiction].
  - destruct (String.eqb_spec (OBJECT_MATERIAL.tag m') tag); [contradiction | exact IH].
Qed.

(** [SetShaderMaterial] with the tag of a defined material writes the
    diffuse colour, the specular colour and the shininess of the first
    material with the tag to the three material uniforms, whatever its
    uninitialised local held, and changes nothing else of the scene
    manager. *)
Theorem SetShaderMaterial_writes_first_match (st : State) (sm : ShaderManager)
    (tag : string) (material m : OBJECT_MATERIAL.t)
    (before after : list OBJECT_MATERIAL.t) :
  m_pShaderManager st = Some sm ->
  m_objectMaterials st = before ++ m :: after ->
  Forall (fun m' => OBJECT_MATERIAL.tag m' <> tag) before ->
  OBJECT_MATERIAL.tag m = tag ->
  exists st',
    SetShaderMaterial material tag st = Done tt st' /\
    calls st' = calls st ++
      [SetUniform "material.diffuseColor" (UVec3 (OBJECT_MATERIAL.diffuseColor m));
       SetUniform "material.specularColor" (UVec3 (OBJECT_MATERIAL.specularColor m));
       SetUniform "material.shininess" (UFloat (OBJECT_MATERIAL.shininess m))] /\
    uniform "material.diffuseColor" st' = Some (UVec3 (OBJECT_MATERIAL.diffuseColor m)) /\
    uniform "material.specularColor" st' = Some (UVec3 (OBJECT_MATERIAL.specularColor m)) /\
    uniform "material.shininess" st' = Some (UFloat (OBJECT_MATERIAL.shininess m)) /\
    frame st' = frame st.
Proof.
  intros Hsm Hms Hbefore Hm.
  assert (Hne : m_objectMaterials st <> []) by (rewrite Hms; now destruct before).
  rewrite (run_SetShaderMaterial _ _ _ _ Hsm Hne), Hms.
  rewrite (FindMaterial_from_first _ _ _ _ _ Hbefore Hm). cbn [OBJECT_MATERIAL.diffuseColor
    OBJECT_MATERIAL.specularColor OBJECT_MATERIAL.shininess].
  eexists. split; [reflexivity|]. split.
  { cbn [uniform_written calls set_calls set_pShaderManager]. now rewrite <- !app_assoc. }
  unfold uniform, frame. cbn [uniform_written m_pShaderManager set_calls set_pShaderManager
                       mbind option_bind uniforms m_loadedTextures m_textureIDs
                       m_objectMaterials].
  repeat split.
  - rewrite lookup_insert_ne by discriminate.
    rewrite lookup_insert_ne by discriminate. apply lookup_insert_eq.
  - rewrite lookup_insert_ne by discriminate. apply lookup_insert_eq.
  - apply lookup_insert_eq.
  - now rewrite Hsm.
Qed.

(* ===================================================================== *)
(** ** Transformations without rotation *)
(* ===================================================================== *)

Ltac finite_entry :=
  repeat match goal with
         | H : F32.is_finite ?x = true |- context [?x] =>
             is_var x; revert H; finite_cases x
         end;
  reflexivity.

(** A translation followed by a scaling, both finite. *)
Lemma translation_scale_product (a b c sx sy sz : F32.float) :
  F32.is_finite a = true -> F32.is_finite b = true -> F32.is_finite c = true ->
  F32.is_finite sx = true -> F32.is_finite sy = true -> F32.is_finite sz = true ->
  mat4_abs_zero (glm.mat4_mul (translation_matrix a b c) (glm.scale (glm.Vec3 sx sy sz)))
  = scale_translation_matrix (F32.abs_zero sx) (F32.abs_zero sy) (F32.abs_zero sz)
      (F32.abs_zero a) (F32.abs_zero b) (F32.abs_zero c).
Proof.
  intros Ha Hb Hc Hx Hy Hz.
  unfold glm.scale, glm.scale_mat, mat4_abs_zero, vec4_abs_zero, glm.mat4_mul,
    glm.mat4_mul_col, translation_matrix, glm.mat4_identity, scale_translation_matrix.
  cbn [glm.col0 glm.col1 glm.col2 glm.col3 glm.v4_x glm.v4_y glm.v4_z glm.v4_w
       glm.v3_x glm.v3_y glm.v3_z glm.vec4_add glm.vec4_scale].
  rewrite !(mul_one_l sx Hx), !(mul_one_l sy Hy), !(mul_one_l sz Hz).
  rewrite !(mul_one_r a Ha), !(mul_one_r b Hb), !(mul_one_r c Hc).
  f_equal; f_equal; finite_entry.
Qed.

Section ZeroRotation.
Context {libm : Libm}.

(** The product that [SetTransformations] forms for zero rotations and
    finite scale and position. *)
Lemma zero_rotation_product (sx sy sz tx ty tz : F32.float) :
  F32.is_finite sx = true -> F32.is_finite sy = true -> F32.is_finite sz = true ->
  F32.is_finite tx = true -> F32.is_finite ty = true -> F32.is_finite tz = true ->
  mat4_abs_zero
    (glm.mat4_mul
       (glm.mat4_mul
          (glm.mat4_mul
             (glm.mat4_mul (glm.translate (glm.Vec3 tx ty tz))
                (glm.rotate (glm.radians (flt 0.0)) (glm.Vec3 (flt 0.0) (flt 0.0) (flt 1.0))))
             (glm.rotate (glm.radians (flt 0.0)) (glm.Vec3 (flt 0.0) (flt 1.0) (flt 0.0))))
          (glm.rotate (glm.radians (flt 0.0)) (glm.Vec3 (flt 1.0) (flt 0.0) (flt 0.0))))
       (glm.scale (glm.Vec3 sx sy sz)))
  = scale_translation_matrix (F32.abs_zero sx) (F32.abs_zero sy) (F32.abs_zero sz)
      (F32.abs_zero tx) (F32.abs_zero ty) (F32.abs_zero tz).
Proof.
  intros Hsx Hsy Hsz Hx Hy Hz.
  rewrite rotate_zero_x, rotate_zero_y, rotate_zero_z.
  rewrite translate_finite by assumption.
  pose proof (abs_zero_finite _ Hx). pose proof (abs_zero_finite _ Hy).
  pose proof (abs_zero_finite _ Hz).
  rewrite !mul_translation_identity, !abs_zero_idem
    by (rewrite ?abs_zero_idem; assumption).
  rewrite translation_scale_product by assumption.
  now rewrite !abs_zero_idem.
Qed.

End ZeroRotation.

(** With the three rotation angles zero and finite scale and position,
    [SetTransformations] writes the matrix that scales by (sx, sy, sz) and
    then translates by (tx, ty, tz): the scale factors on the diagonal, the
    position in the last column and zero elsewhere, up to the sign of
    zeros. *)
Theorem SetTransformations_without_rotation {libm : Libm}
    (sx sy sz tx ty tz : F32.float) (st : State) (sm : ShaderManager) :
  F32.is_finite sx = true -> F32.is_finite sy = true -> F32.is_finite sz = true ->
  F32.is_finite tx = true -> F32.is_finite ty = true -> F32.is_finite tz = true ->
  m_pShaderManager st = Some sm ->
  exists (st' : State) (model : glm.mat4),
    SetTransformations (glm.Vec3 sx sy sz) F32.zero F32.zero F32.zero
      (glm.Vec3 tx ty tz) st = Done tt st' /\
    uniform g_ModelName st' = Some (UMat4 model) /\
    mat4_abs_zero model
    = scale_translation_matrix (F32.abs_zero sx) (F32.abs_zero sy) (F32.abs_zero sz)
        (F32.abs_zero tx) (F32.abs_zero ty) (F32.abs_zero tz).
Proof.
  intros Hsx Hsy Hsz Hx Hy Hz Hsm.
  rewrite (run_SetTransformations _ _ _ _ _ _ _ Hsm).
  change (glm.radians F32.zero) with (glm.radians (flt 0.0)).
  eexists _, _. split; [reflexivity|]. split; [apply uniform_written_same|].
  now apply zero_rotation_product.
Qed.

(* ===================================================================== *)
(** ** The textures of the scene *)
(* ===================================================================== *)

Lemma LoadSceneTextures_load_then :
  LoadSceneTextures = load_then scene_texture_requests BindGLTextures.
Proof. reflexivity. Qed.

Lemma loadable_requests_files (st st' : State) (reqs : list (string * string)) :
  files st' = files st -> loadable_requests st' reqs = loadable_requests st reqs.
Proof. intros H. unfold loadable_requests, loadable. now rewrite H. Qed.

(** The loads of [load_then]: failed loads are skipped, the others are
    registered in order. *)
Lemma run_load_then (reqs : list (string * string)) (st : State) :
  textures_in_bounds st ->
  m_loadedTextures st + Z.of_nat (length (loadable_requests st reqs))
    <= Z.of_nat (length (m_textureIDs st)) ->
  exists st1 : State,
    (forall k : M unit, load_then reqs k st = k st1) /\
    textures_in_bounds st1 /\
    m_loadedTextures st1 = m_loadedTextures st + Z.of_nat (length (loadable_requests st reqs)) /\
    length (m_textureIDs st1) = length (m_textureIDs st) /\
    TEXTURE_INFO.tag <$> registered_textures st1
    = (TEXTURE_INFO.tag <$> registered_textures st) ++ (loadable_requests st reqs).*2 /\
    m_pShaderManager st1 = m_pShaderManager st /\
    m_objectMaterials st1 = m_objectMaterials st /\
    files st1 = files st /\
    exists evs, calls st1 = calls st ++ evs.
Proof.
  revert st. induction reqs as [|[filename tag] rest IH]; intros st Hb Hroom.
  - exists st. cbn. rewrite app_nil_r. repeat split; try apply Hb; try lia.
    exists []. now rewrite app_nil_r.
  - unfold loadable_requests in Hroom |- *. cbn [List.filter fst] in Hroom |- *.
    fold (loadable_requests st rest) in Hroom |- *.
    assert (Hstep : forall st' b,
              CreateGLTexture filename tag st = Done b st' ->
              forall k, load_then ((filename, tag) :: rest) k st = load_then rest k st').
    { intros st' b E k. cbn [load_then]. rewrite run_bind, E. reflexivity. }
    destruct (loadable_cases st filename)
      as [(Hl & image & Hfile & Hs) | (Hl & Hfail)]; rewrite Hl in Hroom |- *.
    + cbn [length] in Hroom |- *.
      assert (Hn : 0 <= m_loadedTextures st < Z.of_nat (length (m_textureIDs st)))
        by (destruct Hb; lia).
      pose proof (run_CreateGLTexture_accepted _ tag _ _ Hfile Hs Hn) as Hrun.
      destruct (CreateGLTexture_appends _ _ _ _ Hb Hrun) as (Hb' & Hreg & _).
      match type of Hrun with _ = Done true ?s => set (st' := s) in * end.
      assert (Hfiles : files st' = files st) by reflexivity.
      destruct (IH st' Hb') as (st1 & Hk & Hb1 & Hn1 & Hlen1 & Htags & Hsm & Hms & Hf & evs & Hc).
      { rewrite (loadable_requests_files _ _ _ Hfiles).
        subst st'. fields. rewrite length_insert. lia. }
      rewrite (loadable_requests_files _ _ _ Hfiles) in Hn1, Htags.
      exists st1. split; [intros k; rewrite (Hstep _ _ Hrun); apply Hk|].
      split; [exact Hb1|]. split; [rewrite Hn1; subst st'; fields; lia|].
      split; [rewrite Hlen1; subst st'; fields; apply length_insert|].
      split; [rewrite Htags, Hreg, fmap_app; cbn; now rewrite <- app_assoc|].
      split; [rewrite Hsm; reflexivity|]. split; [rewrite Hms; reflexivity|].
      split; [rewrite Hf; reflexivity|].
      eexists. rewrite Hc. subst st'. fields. now rewrite <- app_assoc.
    + assert (exists st', CreateGLTexture filename tag st = Done false st' /\
                m_textureIDs st' = m_textureIDs st /\
                m_loadedTextures st' = m_loadedTextures st /\
                m_objectMaterials st' = m_objectMaterials st /\
                m_pShaderManager st' = m_pShaderManager st /\
                files st' = files st /\
                exists evs, calls st' = calls st ++ evs)
        as (st' & Hrun & Hids & Hcount & Hms' & Hsm' & Hfiles & evs' & Hc').
      { destruct Hfail as [Hfile | (image & Hfile & Hs)].
        - rewrite (run_CreateGLTexture_missing _ _ _ Hfile).
          eexists. split; [reflexivity|]. fields. repeat split. eexists. reflexivity.
        - rewrite (run_CreateGLTexture_unsupported _ _ _ _ Hfile Hs).
          eexists. split; [reflexivity|]. fields. repeat split. eexists. reflexivity. }
      assert (Hb' : textures_in_bounds st')
        by (unfold textures_in_bounds; now rewrite Hids, Hcount).
      destruct (IH st' Hb') as (st1 & Hk & Hb1 & Hn1 & Hlen1 & Htags & Hsm & Hms & Hf & evs & Hc).
      { rewrite (loadable_requests_files _ _ _ Hfiles), Hids, Hcount. exact Hroom. }
      rewrite (loadable_requests_files _ _ _ Hfiles) in Hn1, Htags.
      exists st1. split; [intros k; rewrite (Hstep _ _ Hrun); apply Hk|].
      split; [exact Hb1|]. split; [now rewrite Hn1, Hcount|].
      split; [now rewrite Hlen1, Hids|].
      split; [rewrite Htags; unfold registered_textures; now rewrite Hids, Hcount|].
      split; [congruence|]. split; [congruence|]. split; [congruence|].
      eexists. rewrite Hc, Hc'. now rewrite <- app_assoc.
Qed.

(** Without room for every loadable request the loads run off the array. *)
Lemma run_load_then_overrun (reqs : list (string * string)) (st : State) (k : M unit) :
  textures_in_bounds st ->
  Z.of_nat (length (m_textureIDs st))
    < m_loadedTextures st + Z.of_nat (length (loadable_requests st reqs)) ->
  load_then reqs k st = Undefined OutOfBounds.
Proof.
  revert st. induction reqs as [|[filename tag] rest IH]; intros st Hb Hroom.
  - cbn in Hroom. destruct Hb. lia.
  - unfold loadable_requests in Hroom. cbn [List.filter fst] in Hroom.
    fold (loadable_requests st rest) in Hroom.
    cbn [load_then]. rewrite run_bind.
    destruct (loadable_cases st filename)
      as [(Hl & image & Hfile & Hs) | (Hl & Hfail)]; rewrite Hl in Hroom.
    + cbn [length] in Hroom.
      destruct (Z.ltb_spec (m_loadedTextures st) (Z.of_nat (length (m_textureIDs st))))
        as [Hlt | Hge].
      * assert (Hn : 0 <= m_loadedTextures st < Z.of_nat (length (m_textureIDs st)))
          by (destruct Hb; lia).
        pose proof (run_CreateGLTexture_accepted _ tag _ _ Hfile Hs Hn) as Hrun.
        destruct (CreateGLTexture_appends _ _ _ _ Hb Hrun) as (Hb' & _ & _).
        rewrite Hrun. apply IH; [exact Hb'|].
        rewrite (loadable_requests_files st) by reflexivity.
        fields. rewrite length_insert. lia.
      * now rewrite (run_CreateGLTexture_overrun _ tag _ _ Hfile Hs Hge).
    + destruct Hfail as [Hfile | (image & Hfile & Hs)].
      * rewrite (run_CreateGLTexture_missing _ _ _ Hfile). apply IH.
        -- exact Hb.
        -- rewrite (loadable_requests_files st) by reflexivity. exact Hroom.
      * rewrite (run_CreateGLTexture_unsupported _ _ _ _ Hfile Hs). apply IH.
        -- exact Hb.
        -- rewrite (loadable_requests_files st) by reflexivity. exact Hroom.
Qed.

(** [LoadSceneTextures] ignores the results of its eleven loads.  When the
    array has room for those that succeed it returns; the textures that
    loaded are registered in the order of the calls, so that a texture
    behind a failed load moves down to the lower slot; and the last calls
    made are those of [BindGLTextures] for the whole registry. *)
Theorem LoadSceneTextures_skips_failed_loads (st : State) :
  textures_in_bounds st ->
  m_loadedTextures st + Z.of_nat (length (loadable_requests st scene_texture_requests))
    <= Z.of_nat (length (m_textureIDs st)) ->
  exists (st' : State) (evs : list Call),
    LoadSceneTextures st = Done tt st' /\
    textures_in_bounds st' /\
    m_loadedTextures st'
    = m_loadedTextures st + Z.of_nat (length (loadable_requests st scene_texture_requests)) /\
    TEXTURE_INFO.tag <$> registered_textures st'
    = (TEXTURE_INFO.tag <$> registered_textures st)
        ++ (loadable_requests st scene_texture_requests).*2 /\
    calls st' = calls st ++ evs ++ bind_calls 0 (registered_textures st').
Proof.
  intros Hb Hroom.
  destruct (run_load_then _ _ Hb Hroom)
    as (st1 & Hk & Hb1 & Hn1 & Hlen1 & Htags & _ & _ & _ & evs & Hc).
  rewrite LoadSceneTextures_load_then, Hk, run_BindGLTextures by apply Hb1.
  eexists _, evs. split; [reflexivity|].
  split; [exact Hb1|]. split; [exact Hn1|]. split; [exact Htags|].
  fields. rewrite Hc. now rewrite <- app_assoc.
Qed.

(** When the array has no room for all the textures of the scene that
    load, [LoadSceneTextures], and with it [PrepareScene], runs off the end
    of the array: preparing a scene a second time is undefined as soon as
    the second round does not fit. *)
Theorem LoadSceneTextures_overruns_without_room (st : State) :
  textures_in_bounds st ->
  Z.of_nat (length (m_textureIDs st))
    < m_loadedTextures st + Z.of_nat (length (loadable_requests st scene_texture_requests)) ->
  LoadSceneTextures st = Undefined OutOfBounds /\
  PrepareScene st = Undefined OutOfBounds.
Proof.
  intros Hb Hroom.
  assert (H : LoadSceneTextures st = Undefined OutOfBounds).
  { rewrite LoadSceneTextures_load_then. now apply run_load_then_overrun. }
  split; [exact H|]. unfold PrepareScene. now rewrite run_bind, H.
Qed.

(* ===================================================================== *)
(** ** The calls of [RenderScene] *)
(* ===================================================================== *)

Lemma logged_nil (sm : ShaderManager) (st : State) :
  m_pShaderManager st = Some sm -> logged [] sm st = st.
Proof.
  intros H. apply State_eq; unfold logged; fields; try reflexivity.
  - rewrite H. now destruct sm.
  - apply app_nil_r.
Qed.

Lemma logged_logged (evs1 evs2 : list Call) (sm : ShaderManager) (st : State) :
  logged evs2 {| uniforms := replay evs1 (uniforms sm) |} (logged evs1 sm st)
  = logged (evs1 ++ evs2) sm st.
Proof.
  apply State_eq; unfold logged; fields; try reflexivity.
  - unfold replay. cbn [uniforms]. now rewrite foldl_app.
  - now rewrite app_assoc.
Qed.

Lemma logged_shader (evs : list Call) (sm : ShaderManager) (st : State) :
  m_pShaderManager (logged evs sm st) = Some {| uniforms := replay evs (uniforms sm) |}.
Proof. reflexivity. Qed.

Lemma frame_logged (evs : list Call) (sm sm' : ShaderManager) (st : State) :
  m_pShaderManager st = Some sm -> frame (logged evs sm' st) = frame st.
Proof. intros H. unfold frame. cbn. now rewrite H. Qed.

Lemma uniform_logged (name : string) (evs : list Call) (sm : ShaderManager) (st : State) :
  uniform name (logged evs sm st) = replay evs (uniforms sm) !! name.
Proof. reflexivity. Qed.

Lemma uniform_written_logged (name : string) (v : UniformValue) (sm : ShaderManager)
    (st : State) :
  uniform_written name v sm st = logged [SetUniform name v] sm st.
Proof. reflexivity. Qed.

Lemma run_shader_set_logged (name : string) (v : UniformValue) (evs : list Call)
    (sm : ShaderManager) (st : State) :
  shader_set name v (logged evs sm st)
  = Done tt (logged (evs ++ [SetUniform name v]) sm st).
Proof.
  rewrite (run_shader_set _ _ _ _ (logged_shader evs sm st)).
  f_equal. rewrite <- logged_logged. reflexivity.
Qed.

Lemma run_emit_logged (c : Call) (evs : list Call) (sm : ShaderManager) (st : State) :
  (forall name v, c <> SetUniform name v) ->
  emit c (logged evs sm st) = Done tt (logged (evs ++ [c]) sm st).
Proof.
  intros Hc. rewrite run_emit. f_equal.
  apply State_eq; unfold logged; fields; try reflexivity.
  - unfold replay. rewrite foldl_snoc. destruct c; try reflexivity. now destruct (Hc name v).
  - now rewrite app_assoc.
Qed.

Lemma run_shader_set_start (name : string) (v : UniformValue) (sm : ShaderManager)
    (st : State) :
  m_pShaderManager st = Some sm ->
  shader_set name v st = Done tt (logged [SetUniform name v] sm st).
Proof. intros H. now rewrite (run_shader_set _ _ _ _ H), uniform_written_logged. Qed.

Lemma run_emit_start (c : Call) (sm : ShaderManager) (st : State) :
  m_pShaderManager st = Some sm ->
  (forall name v, c <> SetUniform name v) ->
  emit c st = Done tt (logged [c] sm st).
Proof.
  intros H Hc. pose proof (run_emit_logged c [] sm st Hc) as Hrun.
  now rewrite (logged_nil sm st H) in Hrun.
Qed.

Lemma steps_bind (st0 : State) {A B : Type} (c : M A) (f : A -> M B) :
  steps st0 c -> (forall a, steps st0 (f a)) -> steps st0 (c ≫= f).
Proof.
  intros Hc Hf st sm Hsm Hfr.
  destruct (Hc st sm Hsm Hfr) as (a & evs & Hrun & Hevs).
  destruct (Hf a (logged evs sm st) _ (logged_shader evs sm st))
    as (b & evs' & Hrun' & Hevs').
  { now rewrite (frame_logged _ _ _ _ Hsm). }
  exists b, (evs ++ evs'). rewrite run_bind, Hrun, Hrun', logged_logged.
  split; [reflexivity | now apply Forall_app].
Qed.

Lemma steps_emit (st0 : State) (c : Call) : is_draw c = true -> steps st0 (emit c).
Proof.
  intros Hc st sm Hsm _. exists tt, [c].
  rewrite (run_emit_start c sm st Hsm) by (intros name v ->; discriminate).
  split; [reflexivity|]. apply Forall_singleton. now apply scene_draw.
Qed.

Lemma steps_SetTransformations {libm : Libm} (st0 : State)
    (scaleXYZ positionXYZ : glm.vec3) (x y z : F32.float) :
  steps st0 (SetTransformations scaleXYZ x y z positionXYZ).
Proof.
  intros st sm Hsm _.
  rewrite (run_SetTransformations _ _ _ _ _ _ _ Hsm), uniform_written_logged.
  eexists tt, _. split; [reflexivity|]. apply Forall_singleton. apply scene_model.
Qed.

Lemma steps_SetShaderColor (st0 : State) (r g b a : F32.float) :
  steps st0 (SetShaderColor r g b a).
Proof.
  intros st sm Hsm _. unfold SetShaderColor. rewrite run_bind. cbn [get]. rewrite Hsm.
  rewrite run_bind, (run_shader_set_start _ _ _ _ Hsm), run_shader_set_logged. cbn [app].
  eexists tt, _. split; [reflexivity|].
  repeat apply Forall_cons_2; [..|apply Forall_nil_2].
  - apply scene_use_texture. now left.
  - apply scene_color.
Qed.

Lemma steps_SetShaderTexture (st0 : State) (tag : string) :
  textures_in_bounds st0 ->
  tag ∈ scene_texture_tags ->
  steps st0 (SetShaderTexture tag).
Proof.
  intros Hb0 Htag st sm Hsm Hfr. apply frame_eq in Hfr as (_ & Hn & Hids & _).
  assert (Hb : textures_in_bounds st)
    by (unfold textures_in_bounds; now rewrite Hn, Hids).
  unfold SetShaderTexture. rewrite run_bind. cbn [get]. rewrite Hsm.
  rewrite run_bind, (run_shader_set_start _ _ _ _ Hsm).
  rewrite run_bind, run_FindTextureSlot
    by (unfold textures_in_bounds; cbn; exact Hb).
  rewrite run_shader_set_logged. cbn [app].
  eexists tt, _. split; [reflexivity|].
  repeat apply Forall_cons_2; [..|apply Forall_nil_2].
  - apply scene_use_texture. now right.
  - assert (Hreg : registered_textures (logged [SetUniform g_UseTextureName (UInt 1)] sm st)
                   = registered_textures st0).
    { unfold registered_textures. cbn. now rewrite Hn, Hids. }
    rewrite Hreg. now apply scene_sampler.
Qed.

Lemma steps_SetShaderMaterial (st0 : State) (material : OBJECT_MATERIAL.t) (tag : string) :
  tag ∈ scene_material_tags ->
  steps st0 (SetShaderMaterial material tag).
Proof.
  intros Htag st sm Hsm Hfr. apply frame_eq in Hfr as (_ & _ & _ & Hms).
  destruct (m_objectMaterials st) as [|m ms] eqn:E.
  - exists tt, []. unfold SetShaderMaterial. rewrite run_bind. cbn [get]. rewrite E.
    cbn. rewrite (logged_nil sm st Hsm). split; [reflexivity | constructor].
  - assert (Hne : m_objectMaterials st <> []) by (rewrite E; discriminate).
    unfold SetShaderMaterial. rewrite run_bind. cbn [get]. rewrite E.
    cbn [length Nat.ltb Nat.leb]. rewrite run_bind, run_FindMaterial, E. cbn [fst snd].
    rewrite run_bind, (run_shader_set_start _ _ _ _ Hsm), run_bind, run_shader_set_logged,
      run_shader_set_logged. cbn [app].
    eexists tt, _. split; [reflexivity|]. rewrite Hms.
    repeat apply Forall_cons_2; [..|apply Forall_nil_2].
    + now apply scene_diffuse.
    + now apply scene_specular.
    + now apply scene_shininess.
Qed.

Ltac texture_tag :=
  apply list_elem_of_In; cbn;
  repeat (first [left; reflexivity | right]).

Ltac steps_step :=
  first [ apply steps_emit; reflexivity
        | apply steps_SetTransformations
        | apply steps_SetShaderTexture; [assumption | texture_tag]
        | apply steps_SetShaderColor
        | apply steps_SetShaderMaterial; scene_tag ].

Lemma steps_RenderScene {libm : Libm} (st0 : State) (material : nat -> OBJECT_MATERIAL.t) :
  textures_in_bounds st0 -> steps st0 (RenderScene material).
Proof.
  intros Hb. unfold RenderScene. cbv zeta.
  repeat (apply steps_bind; [steps_step | intros _]).
  steps_step.
Qed.

Lemma replay_cons (c : Call) (evs : list Call) (u : gmap string UniformValue) :
  replay (c :: evs) u = replay evs (replay [c] u).
Proof. reflexivity. Qed.

(** The calls of [RenderScene] leave every other uniform alone. *)
Lemma replay_untouched (st0 : State) (evs : list Call) (u : gmap string UniformValue)
    (name : string) :
  Forall (scene_call st0) evs ->
  name ∉ render_uniform_names ->
  replay evs u !! name = u !! name.
Proof.
  intros Hevs Hname. revert u. induction Hevs as [|c evs Hc _ IH]; intros u; [reflexivity|].
  rewrite replay_cons, IH. unfold render_uniform_names in Hname.
  rewrite !not_elem_of_cons in Hname.
  destruct Hname as (H1 & H2 & H3 & H4 & H5 & H6 & H7 & _).
  destruct Hc as [c Hc| | | | | | |]; cbn [replay foldl];
    try (apply lookup_insert_ne; congruence).
  now destruct c.
Qed.

Lemma scene_call_render (st0 : State) (c : Call) :
  scene_call st0 c -> is_render_call c = true.
Proof. intros [c' Hc| | | | | | |]; try reflexivity. now destruct c'. Qed.

Lemma slot_of_registered (st : State) (tag : string) :
  m_loadedTextures st <= Z.of_nat (length (m_textureIDs st)) ->
  registered st tag ->
  0 <= slot_of st tag < m_loadedTextures st /\
  exists e, registered_textures st !! Z.to_nat (slot_of st tag) = Some e /\
            TEXTURE_INFO.tag e = tag.
Proof.
  intros Hb Hin. apply find_registered in Hin as (j & e & Hf). unfold slot_of. rewrite Hf.
  apply list_find_Some in Hf as (Hj & Ht & _).
  pose proof (lookup_lt_Some _ _ _ Hj) as Hlt. rewrite registered_length in Hlt by exact Hb.
  split; [lia|]. exists e. now rewrite Nat2Z.id.
Qed.

(** When a material has the tag, the scan of [FindMaterial] hands back
    the lighting fields of one of the materials. *)
Lemma FindMaterial_from_found (ms : list OBJECT_MATERIAL.t) (tag : string)
    (material : OBJECT_MATERIAL.t) :
  Exists (fun m => OBJECT_MATERIAL.tag m = tag) ms ->
  exists m, m ∈ ms /\ OBJECT_MATERIAL.tag m = tag /\
    OBJECT_MATERIAL.diffuseColor (FindMaterial_from ms tag material)
    = OBJECT_MATERIAL.diffuseColor m /\
    OBJECT_MATERIAL.specularColor (FindMaterial_from ms tag material)
    = OBJECT_MATERIAL.specularColor m /\
    OBJECT_MATERIAL.shininess (FindMaterial_from ms tag material)
    = OBJECT_MATERIAL.shininess m.
Proof.
  induction ms as [|m ms IH]; intros H.
  - now apply Exists_nil in H.
  - cbn [FindMaterial_from].
    destruct (String.eqb_spec (OBJECT_MATERIAL.tag m) tag) as [E|E].
    + exists m. split; [apply list_elem_of_here|]. repeat split; assumption.
    + apply Exists_cons in H as [H|H]; [contradiction|].
      destruct (IH H) as (m' & Hin & Hrest). exists m'.
      split; [now apply list_elem_of_further | exact Hrest].
Qed.

(** With a shader attached and the count within the array, [RenderScene]
    returns, prepared or not.  Its calls are uniform writes and draws; the
    registry, the materials, the files and the driver are untouched; the
    uniforms afterwards are those before with the writes of the log
    applied, so that every uniform other than the seven it writes (the
    lighting set up by [SetupSceneLights], the UV scale) keeps its value. *)
Theorem RenderScene_touches_only_its_uniforms {libm : Libm} (st : State)
    (sm : ShaderManager) (material : nat -> OBJECT_MATERIAL.t) :
  m_pShaderManager st = Some sm ->
  textures_in_bounds st ->
  exists (evs : list Call) (st' : State),
    RenderScene material st = Done tt st' /\
    calls st' = calls st ++ evs /\
    Forall (fun c => is_render_call c = true) evs /\
    m_pShaderManager st' = Some {| uniforms := replay evs (uniforms sm) |} /\
    frame st' = frame st /\
    files st' = files st /\
    gl_names st' = gl_names st /\
    gl_generated st' = gl_generated st /\
    forall name : string,
      name ∉ render_uniform_names -> uniform name st' = uniform name st.
Proof.
  intros Hsm Hb.
  destruct (steps_RenderScene st material Hb st sm Hsm eq_refl) as ([] & evs & Hrun & Hevs).
  exists evs, (logged evs sm st). split; [exact Hrun|]. split; [reflexivity|].
  split; [eapply Forall_impl; [exact Hevs | apply scene_call_render]|].
  split; [reflexivity|]. split; [now apply (frame_logged _ sm)|].
  split; [reflexivity|]. split; [reflexivity|]. split; [reflexivity|].
  intros name Hname. rewrite uniform_logged, (replay_untouched st _ _ _ Hevs Hname).
  unfold uniform. now rewrite Hsm.
Qed.

(** When the eleven texture tags of the scene are registered, every
    sampler value that [RenderScene] writes goes to [objectTexture] and is
    the slot of a registered texture of the scene: the not-found value
    [-1] is never passed to the shader. *)
Theorem RenderScene_selects_loaded_textures {libm : Libm} (st : State)
    (sm : ShaderManager) (material : nat -> OBJECT_MATERIAL.t) :
  m_pShaderManager st = Some sm ->
  textures_in_bounds st ->
  Forall (registered st) scene_texture_tags ->
  exists (evs : list Call) (st' : State),
    RenderScene material st = Done tt st' /\
    calls st' = calls st ++ evs /\
    forall (name : string) (slot : Z),
      SetUniform name (USampler2D slot) ∈ evs ->
      name = g_TextureValueName /\
      0 <= slot < m_loadedTextures st /\
      exists e, registered_textures st !! Z.to_nat slot = Some e /\
                TEXTURE_INFO.tag e ∈ scene_texture_tags.
Proof.
  intros Hsm Hb Hreg.
  destruct (steps_RenderScene st material Hb st sm Hsm eq_refl) as ([] & evs & Hrun & Hevs).
  exists evs, (logged evs sm st). split; [exact Hrun|]. split; [reflexivity|].
  intros name slot Hin. rewrite Forall_forall in Hevs. specialize (Hevs _ Hin).
  inversion Hevs as [c Hc| | | |tag Htag| | |]; subst; [discriminate Hc|].
  rewrite Forall_forall in Hreg.
  destruct (slot_of_registered st tag (proj2 Hb) (Hreg tag Htag)) as (Hslot & e & He & Ht).
  split; [reflexivity|]. split; [exact Hslot|]. exists e. split; [exact He | now rewrite Ht].
Qed.

(** When the seven material tags of the scene are defined, every vector
    and every float that [RenderScene] writes to the shader through
    [setVec3Value] and [setFloatValue] is a field of one of the defined
    materials, whatever the uninitialised local of [SetShaderMaterial]
    held. *)
Theorem RenderScene_writes_defined_materials {libm : Libm} (st : State)
    (sm : ShaderManager) (material : nat -> OBJECT_MATERIAL.t) :
  m_pShaderManager st = Some sm ->
  textures_in_bounds st ->
  Forall (material_defined st) scene_material_tags ->
  exists (evs : list Call) (st' : State),
    RenderScene material st = Done tt st' /\
    calls st' = calls st ++ evs /\
    (forall (name : string) (v : glm.vec3),
       SetUniform name (UVec3 v) ∈ evs ->
       exists m, m ∈ m_objectMaterials st /\
         OBJECT_MATERIAL.tag m ∈ scene_material_tags /\
         ((name = "material.diffuseColor"%string /\ v = OBJECT_MATERIAL.diffuseColor m) \/
          (name = "material.specularColor"%string /\ v = OBJECT_MATERIAL.specularColor m))) /\
    (forall (name : string) (x : F32.float),
       SetUniform name (UFloat x) ∈ evs ->
       name = "material.shininess"%string /\
       exists m, m ∈ m_objectMaterials st /\
         OBJECT_MATERIAL.tag m ∈ scene_material_tags /\ x = OBJECT_MATERIAL.shininess m).
Proof.
  intros Hsm Hb Hdef.
  destruct (steps_RenderScene st material Hb st sm Hsm eq_refl) as ([] & evs & Hrun & Hevs).
  exists evs, (logged evs sm st). split; [exact Hrun|]. split; [reflexivity|].
  rewrite Forall_forall in Hevs. rewrite Forall_forall in Hdef. split.
  - intros name v Hin. specialize (Hevs _ Hin).
    inversion Hevs as [c Hc| | | | |tag mat Htag|tag mat Htag|]; subst; [discriminate Hc| |].
    + destruct (FindMaterial_from_found _ _ mat (Hdef tag Htag))
        as (m & Hm & Ht & Hd & _ & _).
      exists m. split; [exact Hm|]. split; [now rewrite Ht|]. left. now split.
    + destruct (FindMaterial_from_found _ _ mat (Hdef tag Htag))
        as (m & Hm & Ht & _ & Hs & _).
      exists m. split; [exact Hm|]. split; [now rewrite Ht|]. right. now split.
  - intros name x Hin. specialize (Hevs _ Hin).
    inversion Hevs as [c Hc| | | | | | |tag mat Htag]; subst; [discriminate Hc|].
    destruct (FindMaterial_from_found _ _ mat (Hdef tag Htag))
      as (m & Hm & Ht & _ & _ & Hs).
    split; [reflexivity|]. exists m. split; [exact Hm|]. split; [now rewrite Ht | exact Hs].
Qed.

(* ===================================================================== *)
(** ** Preparing the scene *)
(* ===================================================================== *)

Lemma run_LoadSceneTextures (st : State) :
  textures_in_bounds st ->
  m_loadedTextures st + Z.of_nat (length (loadable_requests st scene_texture_requests))
    <= Z.of_nat (length (m_textureIDs st)) ->
  exists st' : State,
    LoadSceneTextures st = Done tt st' /\
    textures_in_bounds st' /\
    m_loadedTextures st'
    = m_loadedTextures st + Z.of_nat (length (loadable_requests st scene_texture_requests)) /\
    TEXTURE_INFO.tag <$> registered_textures st'
    = (TEXTURE_INFO.tag <$> registered_textures st)
        ++ (loadable_requests st scene_texture_requests).*2 /\
    m_pShaderManager st' = m_pShaderManager st /\
    m_objectMaterials st' = m_objectMaterials st.
Proof.
  intros Hb Hroom.
  destruct (run_load_then _ _ Hb Hroom)
    as (st1 & Hk & Hb1 & Hn1 & Hlen1 & Htags & Hsm & Hms & _ & _).
  rewrite LoadSceneTextures_load_then, Hk, run_BindGLTextures by apply Hb1.
  eexists. split; [reflexivity|]. repeat split; try assumption; apply Hb1.
Qed.

Lemma run_SetupSceneLights (st : State) (sm : ShaderManager) :
  m_pShaderManager st = Some sm ->
  exists evs : list Call,
    SetupSceneLights st = Done tt (logged evs sm st) /\
    forall u : gmap string UniformValue,
      replay evs u !! g_UseLightingName = Some (UBool true) /\
      replay evs u !! "directionalLight.bActive"%string = Some (UBool true) /\
      replay evs u !! "pointLights[0].bActive"%string = Some (UBool true) /\
      replay evs u !! "pointLights[1].bActive"%string = Some (UBool true) /\
      replay evs u !! "pointLights[2].bActive"%string = Some (UBool true).
Proof.
  intros Hsm. unfold SetupSceneLights, setVec3Value, setBoolValue.
  rewrite run_bind, (run_shader_set_start _ _ _ _ Hsm).
  repeat rewrite run_bind, run_shader_set_logged.
  rewrite run_shader_set_logged. cbn [app].
  eexists. split; [reflexivity|]. intros u. cbn [replay foldl].
  repeat split; repeat (rewrite lookup_insert_ne by discriminate); apply lookup_insert_eq.
Qed.

Lemma scene_materials_defined (before : list OBJECT_MATERIAL.t) :
  Forall (fun tag => Exists (fun m => OBJECT_MATERIAL.tag m = tag) (before ++ scene_materials))
    scene_material_tags.
Proof.
  unfold scene_material_tags, scene_materials.
  repeat apply Forall_cons_2; [..|apply Forall_nil_2];
    apply Exists_app; right;
    repeat (first [apply Exists_cons_hd; reflexivity | apply Exists_cons_tl]).
Qed.

(** With a shader attached and room in the array, [PrepareScene] returns:
    the textures that load are registered in order after those already
    there, the seven materials of the scene are appended, every material
    tag that [RenderScene] asks for is defined, and lighting is switched on
    with the directional light and the three point lights active. *)
Theorem PrepareScene_registers_what_loads (st : State) (sm : ShaderManager) :
  m_pShaderManager st = Some sm ->
  textures_in_bounds st ->
  m_loadedTextures st + Z.of_nat (length (loadable_requests st scene_texture_requests))
    <= Z.of_nat (length (m_textureIDs st)) ->
  exists st' : State,
    PrepareScene st = Done tt st' /\
    textures_in_bounds st' /\
    m_loadedTextures st'
    = m_loadedTextures st + Z.of_nat (length (loadable_requests st scene_texture_requests)) /\
    TEXTURE_INFO.tag <$> registered_textures st'
    = (TEXTURE_INFO.tag <$> registered_textures st)
        ++ (loadable_requests st scene_texture_requests).*2 /\
    m_objectMaterials st' = m_objectMaterials st ++ scene_materials /\
    Forall (material_defined st') scene_material_tags /\
    uniform g_UseLightingName st' = Some (UBool true) /\
    uniform "directionalLight.bActive" st' = Some (UBool true) /\
    uniform "pointLights[0].bActive" st' = Some (UBool true) /\
    uniform "pointLights[1].bActive" st' = Some (UBool true) /\
    uniform "pointLights[2].bActive" st' = Some (UBool true).
Proof.
  intros Hsm Hb Hroom.
  destruct (run_LoadSceneTextures st Hb Hroom) as (st1 & Hload & Hb1 & Hn1 & Htags & Hsm1 & Hms1).
  unfold PrepareScene. rewrite run_bind, Hload, run_bind, run_DefineObjectMaterials.
  set (st2 := set_objectMaterials _ st1).
  assert (Hsm2 : m_pShaderManager st2 = Some sm) by (subst st2; fields; congruence).
  destruct (run_SetupSceneLights st2 sm Hsm2) as (evs & Hlights & Hu).
  rewrite run_bind, Hlights.
  repeat rewrite run_bind, run_emit_logged by discriminate.
  rewrite run_emit_logged by discriminate.
  eexists. split; [reflexivity|].
  split; [exact Hb1|]. split; [exact Hn1|]. split; [exact Htags|].
  split; [subst st2; fields; now rewrite Hms1|].
  split.
  { unfold material_defined. subst st2. fields. apply scene_materials_defined. }
  rewrite !uniform_logged. unfold replay. rewrite <- !app_assoc, foldl_app. cbn [app foldl].
  apply Hu.
Qed.

(** [PrepareScene] on a scene manager with a null shader manager never
    returns: [SetupSceneLights] calls through the null pointer after the
    textures have been loaded and the materials defined (when the textures
    do not fit, the array is overrun before that). *)
Theorem PrepareScene_needs_a_shader (st : State) :
  m_pShaderManager st = None ->
  textures_in_bounds st ->
  (exists f : Fault, PrepareScene st = Undefined f) /\
  (m_loadedTextures st + Z.of_nat (length (loadable_requests st scene_texture_requests))
     <= Z.of_nat (length (m_textureIDs st)) ->
   PrepareScene st = Undefined NullPointer).
Proof.
  intros Hsm Hb.
  assert (Hnull : m_loadedTextures st
                    + Z.of_nat (length (loadable_requests st scene_texture_requests))
                  <= Z.of_nat (length (m_textureIDs st)) ->
                  PrepareScene st = Undefined NullPointer).
  { intros Hroom.
    destruct (run_LoadSceneTextures st Hb Hroom) as (st1 & Hload & _ & _ & _ & Hsm1 & _).
    unfold PrepareScene. rewrite run_bind, Hload, run_bind, run_DefineObjectMaterials.
    unfold SetupSceneLights, setBoolValue. rewrite run_bind, run_bind.
    unfold shader_set at 1. rewrite run_bind. cbn [get]. fields. now rewrite Hsm1, Hsm. }
  split; [|exact Hnull].
  destruct (Z.le_gt_cases
              (m_loadedTextures st
                 + Z.of_nat (length (loadable_requests st scene_texture_requests)))
              (Z.of_nat (length (m_textureIDs st)))) as [Hroom | Hno].
  - exists NullPointer. now apply Hnull.
  - exists OutOfBounds. unfold PrepareScene.
    rewrite run_bind, LoadSceneTextures_load_then, run_load_then_overrun by (assumption || lia).
    reflexivity.
Qed.

(* ===================================================================== *)
(** ** The invariant of the registry *)
(* ===================================================================== *)

Lemma preserves_bind {A B : Type} (m : M A) (f : A -> M B) :
  preserves m -> (forall a, preserves (f a)) -> preserves (m ≫= f).
Proof.
  intros Hm Hf st b st' Hok Hrun. apply bind_inv in Hrun as (a & st1 & H1 & H2).
  exact (Hf a st1 b st' (Hm st a st1 Hok H1) H2).
Qed.

Lemma preserves_ret {A : Type} (a : A) : preserves (mret a).
Proof. intros st a' st' Hok [= _ <-]. exact Hok. Qed.

Lemma preserves_get {A : Type} (proj : State -> A) : preserves (get proj).
Proof. intros st a' st' Hok [= _ <-]. exact Hok. Qed.

Lemma preserves_emit (c : Call) : preserves (emit c).
Proof. intros st a st' Hok [= _ <-]. exact Hok. Qed.

Lemma preserves_shader_set (name : string) (v : UniformValue) :
  preserves (shader_set name v).
Proof. intros st a st' Hok H. apply shader_set_inv in H as (sm & _ & ->). exact Hok. Qed.

Lemma preserves_push_back (m : OBJECT_MATERIAL.t) : preserves (push_back m).
Proof. intros st a st' Hok [= _ <-]. exact Hok. Qed.

Lemma preserves_CreateGLTexture (filename tag : string) :
  preserves (CreateGLTexture filename tag).
Proof.
  intros st [|] st' [Hb Hn] H.
  - apply CreateGLTexture_registers in H as (Hk & Hids & Hcount & _ & _). split.
    + unfold textures_in_bounds. rewrite Hids, Hcount, length_insert. lia.
    + unfold names_are_GLuint. rewrite Hids. apply Forall_insert; [exact Hn|].
      apply to_GLuint_range.
  - apply CreateGLTexture_unregistered in H as (Hids & Hcount & _ & _). split.
    + unfold textures_in_bounds. now rewrite Hids, Hcount.
    + unfold names_are_GLuint. now rewrite Hids.
Qed.

Lemma preserves_BindGLTextures : preserves BindGLTextures.
Proof.
  intros st a st' Hok H. rewrite run_BindGLTextures in H by apply Hok.
  injection H as _ <-. exact Hok.
Qed.

Lemma rename_GLuint (names : nat -> Z) (g : nat) (l : list TEXTURE_INFO.t) :
  Forall (fun e => 0 <= TEXTURE_INFO.ID e < GLuint_modulus) (rename names g l).
Proof.
  revert g. induction l as [|e l IH]; intros g; cbn [rename]; constructor;
    [apply to_GLuint_range | apply IH].
Qed.

Lemma preserves_DestroyGLTextures : preserves DestroyGLTextures.
Proof.
  intros st a st' [Hb Hn] H. rewrite run_DestroyGLTextures in H by apply Hb.
  cbv zeta in H. injection H as _ <-. split.
  - unfold textures_in_bounds. fields.
    rewrite length_app, rename_length, length_drop, registered_length by apply Hb.
    destruct Hb. lia.
  - unfold names_are_GLuint. fields. apply Forall_app. split; [apply rename_GLuint|].
    now apply Forall_drop.
Qed.

Lemma FindTextureSlot_from_inv (n : nat) (index : Z) (tag : string) (st st' : State) (r : Z) :
  FindTextureSlot_from n index tag st = Done r st' -> st' = st.
Proof.
  revert index. induction n as [|n IH]; intros index; cbn [FindTextureSlot_from].
  - now intros [= _ <-].
  - intros H. apply bind_inv in H as (e & st1 & H1 & H2).
    apply read_texture_inv in H1 as ->.
    destruct (String.eqb _ _); [now injection H2 as _ <- | exact (IH _ H2)].
Qed.

Lemma preserves_FindTextureSlot (tag : string) : preserves (FindTextureSlot tag).
Proof.
  intros st r st' Hok H. unfold FindTextureSlot in H. rewrite run_bind in H. cbn [get] in H.
  now apply FindTextureSlot_from_inv in H as ->.
Qed.

Lemma preserves_SetTransformations {libm : Libm} (scaleXYZ positionXYZ : glm.vec3)
    (x y z : F32.float) :
  preserves (SetTransformations scaleXYZ x y z positionXYZ).
Proof.
  unfold SetTransformations. apply preserves_bind; [apply preserves_get|].
  intros [sm|]; [apply preserves_shader_set | apply preserves_ret].
Qed.

Lemma preserves_SetShaderColor (r g b a : F32.float) : preserves (SetShaderColor r g b a).
Proof.
  unfold SetShaderColor. apply preserves_bind; [apply preserves_get|].
  intros [sm|]; [|apply preserves_ret].
  apply preserves_bind; [apply preserves_shader_set | intros _; apply preserves_shader_set].
Qed.

Lemma preserves_SetShaderTexture (tag : string) : preserves (SetShaderTexture tag).
Proof.
  unfold SetShaderTexture. apply preserves_bind; [apply preserves_get|].
  intros [sm|]; [|apply preserves_ret].
  apply preserves_bind; [apply preserves_shader_set | intros _].
  apply preserves_bind; [apply preserves_FindTextureSlot | intros slot].
  apply preserves_shader_set.
Qed.

Lemma preserves_SetShaderMaterial (material : OBJECT_MATERIAL.t) (tag : string) :
  preserves (SetShaderMaterial material tag).
Proof.
  unfold SetShaderMaterial. apply preserves_bind; [apply preserves_get|].
  intros ms. destruct (0 <? length ms)%nat; [|apply preserves_ret].
  apply preserves_bind.
  { unfold FindMaterial. apply preserves_bind; [apply preserves_get|].
    intros ms'. destruct (length ms' =? 0)%nat; apply preserves_ret. }
  intros [[|] found]; cbn [fst snd]; [|apply preserves_ret].
  repeat (apply preserves_bind; [apply preserves_shader_set | intros _]).
  apply preserves_shader_set.
Qed.

Lemma preserves_PrepareScene : preserves PrepareScene.
Proof.
  unfold PrepareScene. apply preserves_bind; [|intros _; apply preserves_bind; [|intros _]].
  - unfold LoadSceneTextures.
    repeat (apply preserves_bind; [apply preserves_CreateGLTexture | intros _]).
    apply preserves_BindGLTextures.
  - unfold DefineObjectMaterials.
    repeat (apply preserves_bind; [apply preserves_push_back | intros _]).
    apply preserves_push_back.
  - apply preserves_bind.
    + unfold SetupSceneLights, setVec3Value, setBoolValue.
      repeat (apply preserves_bind; [apply preserves_shader_set | intros _]).
      apply preserves_shader_set.
    + intros _. repeat (apply preserves_bind; [apply preserves_emit | intros _]).
      apply preserves_emit.
Qed.

Ltac preserves_step :=
  first [ apply preserves_emit
        | apply preserves_SetTransformations
        | apply preserves_SetShaderTexture
        | apply preserves_SetShaderColor
        | apply preserves_SetShaderMaterial ].

Lemma preserves_RenderScene {libm : Libm} (material : nat -> OBJECT_MATERIAL.t) :
  preserves (RenderScene material).
Proof.
  unfold RenderScene. cbv zeta.
  repeat (apply preserves_bind; [preserves_step | intros _]).
  preserves_step.
Qed.

(** The invariant of the texture registry, the count within the array and
    every ID a [GLuint], is kept by [CreateGLTexture] (whatever it
    returns), [BindGLTextures], [DestroyGLTextures] (which always returns
    from such a state), [PrepareScene] and [RenderScene]. *)
Theorem registry_invariant_is_kept {libm : Libm} (st : State) :
  textures_in_bounds st ->
  names_are_GLuint st ->
  (forall (filename tag : string) (b : bool) (st' : State),
     CreateGLTexture filename tag st = Done b st' ->
     textures_in_bounds st' /\ names_are_GLuint st') /\
  (forall st' : State,
     BindGLTextures st = Done tt st' -> textures_in_bounds st' /\ names_are_GLuint st') /\
  (exists st' : State,
     DestroyGLTextures st = Done tt st' /\ textures_in_bounds st' /\ names_are_GLuint st') /\
  (forall st' : State,
     PrepareScene st = Done tt st' -> textures_in_bounds st' /\ names_are_GLuint st') /\
  (forall (material : nat -> OBJECT_MATERIAL.t) (st' : State),
     RenderScene material st = Done tt st' ->
     textures_in_bounds st' /\ names_are_GLuint st').
Proof.
  intros Hb Hn. assert (Hok : registry_ok st) by now split.
  split; [|split; [|split; [|split]]].
  - intros filename tag b st' H. exact (preserves_CreateGLTexture _ _ _ _ _ Hok H).
  - intros st' H. exact (preserves_BindGLTextures _ _ _ Hok H).
  - pose proof (run_DestroyGLTextures st (proj2 Hb)) as Hrun. cbv zeta in Hrun.
    eexists. split; [exact Hrun|]. exact (preserves_DestroyGLTextures _ _ _ Hok Hrun).
  - intros st' H. exact (preserves_PrepareScene _ _ _ Hok H).
  - intros material st' H. exact (preserves_RenderScene material _ _ _ Hok H).
Qed.

(* ===================================================================== *)
(** ** The ID as an [int] *)
(* ===================================================================== *)

(** The conversion of a [GLuint] to [int] loses nothing: converted back it
    is the name. *)
Lemma GLuint_round_trip (u : Z) :
  0 <= u < GLuint_modulus ->
  to_GLuint (GLuint_to_int u) = u /\ - 2 ^ 31 <= GLuint_to_int u < 2 ^ 31.
Proof.
  unfold to_GLuint, GLuint_to_int, GLuint_modulus. intros Hu.
  destruct (Z.ltb_spec u (2 ^ 31)).
  - split; [apply Z.mod_small|]; lia.
  - split; [|lia]. replace (u - 2 ^ 32) with (u + (-1) * 2 ^ 32) by lia.
    rewrite Z.mod_add by lia. apply Z.mod_small. lia.
Qed.

(** For a registered tag, the [int] that [FindTextureID] returns,
    converted back to [GLuint], is the name stored in the entry whose index
    [FindTextureSlot] returns: the conversion to [int] loses nothing,
    although the value may read [-1]. *)
Theorem FindTextureID_converts_back (tag : string) (st : State) :
  textures_in_bounds st ->
  names_are_GLuint st ->
  registered st tag ->
  exists (i : nat) (e : TEXTURE_INFO.t) (id : Z),
    FindTextureSlot tag st = Done (Z.of_nat i) st /\
    registered_textures st !! i = Some e /\
    FindTextureID tag st = Done id st /\
    - 2 ^ 31 <= id < 2 ^ 31 /\
    to_GLuint id = TEXTURE_INFO.ID e.
Proof.
  intros Hb Hn Hin. apply find_registered in Hin as (i & e & Hf).
  exists i, e, (GLuint_to_int (TEXTURE_INFO.ID e)).
  rewrite run_FindTextureSlot, run_FindTextureID, Hf by assumption.
  apply list_find_Some in Hf as (Hi & _).
  assert (Hu : 0 <= TEXTURE_INFO.ID e < GLuint_modulus).
  { unfold registered_textures in Hi. apply lookup_take_Some in Hi as [Hi _].
    unfold names_are_GLuint in Hn. rewrite Forall_lookup in Hn. exact (Hn _ _ Hi). }
  destruct (GLuint_round_trip _ Hu) as [Hback Hrange].
  repeat split; try assumption; apply Hrange.
Qed.

(* ===================================================================== *)
(** ** Materials, defined and looked up *)
(* ===================================================================== *)

(** The scan of [FindMaterial] over materials appended to others. *)
Lemma FindMaterial_from_app_l (l1 l2 : list OBJECT_MATERIAL.t) (tag : string)
    (material : OBJECT_MATERIAL.t) :
  Exists (fun m => OBJECT_MATERIAL.tag m = tag) l1 ->
  FindMaterial_from (l1 ++ l2) tag material = FindMaterial_from l1 tag material.
Proof.
  induction l1 as [|m l1 IH]; intros H; [now apply Exists_nil in H|].
  cbn [app FindMaterial_from].
  destruct (String.eqb_spec (OBJECT_MATERIAL.tag m) tag) as [E|E]; [reflexivity|].
  apply Exists_cons in H as [H|H]; [contradiction | now apply IH].
Qed.

Lemma FindMaterial_from_app_r (l1 l2 : list OBJECT_MATERIAL.t) (tag : string)
    (material : OBJECT_MATERIAL.t) :
  ~ Exists (fun m => OBJECT_MATERIAL.tag m = tag) l1 ->
  FindMaterial_from (l1 ++ l2) tag material = FindMaterial_from l2 tag material.
Proof.
  induction l1 as [|m l1 IH]; intros H; [reflexivity|].
  cbn [app FindMaterial_from].
  destruct (String.eqb_spec (OBJECT_MATERIAL.tag m) tag) as [E|E].
  - destruct H. now apply Exists_cons_hd.
  - apply IH. intros H'. apply H. now apply Exists_cons_tl.
Qed.

(** [DefineObjectMaterials] appends the seven materials of the scene.  A
    tag that was defined before is answered by [FindMaterial] as before
    (the earlier material shadows the new one); for a tag not defined
    before, [FindMaterial] copies the fields of the material of the scene
    with that tag, and hands [material] back unchanged when the scene has
    none. *)
Theorem DefineObjectMaterials_then_FindMaterial (st : State) (tag : string)
    (material : OBJECT_MATERIAL.t) :
  exists st' : State,
    DefineObjectMaterials st = Done tt st' /\
    m_objectMaterials st' = m_objectMaterials st ++ scene_materials /\
    (material_defined st tag ->
     exists found : OBJECT_MATERIAL.t,
       FindMaterial tag material st = Done (true, found) st /\
       FindMaterial tag material st' = Done (true, found) st') /\
    (~ material_defined st tag ->
     forall m : OBJECT_MATERIAL.t,
       m ∈ scene_materials -> OBJECT_MATERIAL.tag m = tag ->
       FindMaterial tag material st'
       = Done (true, OBJECT_MATERIAL.mk (OBJECT_MATERIAL.diffuseColor m)
                       (OBJECT_MATERIAL.specularColor m) (OBJECT_MATERIAL.shininess m)
                       (OBJECT_MATERIAL.tag material)) st') /\
    (~ material_defined st tag -> tag ∉ scene_material_tags ->
     FindMaterial tag material st' = Done (true, material) st').
Proof.
  rewrite run_DefineObjectMaterials. eexists. split; [reflexivity|].
  fold scene_materials. fields. split; [reflexivity|].
  rewrite !run_FindMaterial. fields.
  assert (Happ : forall l : list OBJECT_MATERIAL.t,
            match l ++ scene_materials with
            | [] => (false, material)
            | _ :: _ => (true, FindMaterial_from (l ++ scene_materials) tag material)
            end = (true, FindMaterial_from (l ++ scene_materials) tag material)).
  { intros l. now destruct l. }
  rewrite Happ. unfold material_defined. split; [|split].
  - intros Hdef. exists (FindMaterial_from (m_objectMaterials st) tag material).
    rewrite FindMaterial_from_app_l by exact Hdef. split; [|reflexivity].
    destruct (m_objectMaterials st); [now apply Exists_nil in Hdef | reflexivity].
  - intros Hno m Hm Ht. rewrite FindMaterial_from_app_r by exact Hno. subst tag.
    unfold scene_materials in Hm |- *.
    repeat (apply elem_of_cons in Hm as [-> | Hm]); try reflexivity.
    now apply elem_of_nil in Hm.
  - intros Hno Htag. rewrite FindMaterial_from_app_r by exact Hno.
    rewrite FindMaterial_from_no_match; [reflexivity|].
    unfold scene_material_tags in Htag. rewrite !not_elem_of_cons in Htag.
    destruct Htag as (H1 & H2 & H3 & H4 & H5 & H6 & H7 & _).
    unfold scene_materials. repeat constructor; cbn; congruence.
Qed.

(* ===================================================================== *)
(** ** The names of the driver *)
(* ===================================================================== *)

(** A call of [CreateGLTexture] that returned [true] took one name from
    the driver. *)
Lemma CreateGLTexture_true_driver (filename tag : string) (st st' : State) :
  CreateGLTexture filename tag st = Done true st' ->
  gl_names st' = gl_names st /\ gl_generated st' = S (gl_generated st).
Proof.
  intros H. pose proof (CreateGLTexture_registers _ _ _ _ H) as (Hk & _).
  destruct (loadable_cases st filename)
    as [(_ & image & Hfile & Hs) | (_ & [Hfile | (image & Hfile & Hs)])].
  - rewrite (run_CreateGLTexture_accepted _ _ _ _ Hfile Hs Hk) in H.
    injection H as <-. split; reflexivity.
  - rewrite (run_CreateGLTexture_missing _ _ _ Hfile) in H. discriminate H.
  - rewrite (run_CreateGLTexture_unsupported _ _ _ _ Hfile Hs) in H. discriminate H.
Qed.

(** The entries registered along a run of successful loads. *)
Lemma loaded_from_entries (st st' : State) (reqs : list (string * string)) :
  loaded_from st reqs st' ->
  textures_in_bounds st ->
  textures_in_bounds st' /\
  registered_textures st' = registered_textures st ++ imap (entry_of st) reqs.
Proof.
  induction 1 as [st | st st1 st2 filename tag rest Hrun _ IH]; intros Hb.
  - cbn. now rewrite app_nil_r.
  - destruct (CreateGLTexture_appends _ _ _ _ Hb Hrun) as (Hb1 & Hreg & _).
    destruct (CreateGLTexture_true_driver _ _ _ _ Hrun) as (Hnames & Hgen).
    destruct (IH Hb1) as (Hb2 & Hreg2). split; [exact Hb2|].
    rewrite Hreg2, Hreg, <- app_assoc. f_equal. cbn [imap app]. f_equal.
    + unfold entry_of, next_name. cbn [snd]. now rewrite Nat.add_0_r.
    + apply imap_ext. intros i r _. unfold entry_of, compose.
      rewrite Hnames, Hgen. do 3 f_equal. lia.
Qed.

(** Starting from an empty registry, after any run of calls of
    [CreateGLTexture] that all returned [true], with pairwise distinct
    tags, the [i]-th entry holds the [i]-th name that the driver handed out
    during the run and the tag of the [i]-th call, and [FindTextureID] of
    that tag returns this name converted to [int]. *)
Theorem FindTextureID_follows_driver_order (st st' : State)
    (reqs : list (string * string)) :
  m_loadedTextures st = 0 ->
  loaded_from st reqs st' ->
  NoDup reqs.*2 ->
  forall (i : nat) (filename tag : string),
    reqs !! i = Some (filename, tag) ->
    m_textureIDs st' !! i
    = Some (TEXTURE_INFO.mk (to_GLuint (gl_names st (gl_generated st + i)%nat)) tag) /\
    FindTextureID tag st'
    = Done (GLuint_to_int (to_GLuint (gl_names st (gl_generated st + i)%nat))) st'.
Proof.
  intros H0 Hload Hnd i filename tag Hi.
  assert (Hb : textures_in_bounds st) by (unfold textures_in_bounds; lia).
  destruct (loaded_from_entries _ _ _ Hload Hb) as (Hb' & Hreg).
  assert (Hnil : registered_textures st = []).
  { unfold registered_textures. rewrite H0. apply take_0. }
  rewrite Hnil, app_nil_l in Hreg.
  assert (He : registered_textures st' !! i = Some (entry_of st i (filename, tag))).
  { rewrite Hreg, list_lookup_imap, Hi. reflexivity. }
  split.
  { unfold registered_textures in He. apply lookup_take_Some in He as [He _]. exact He. }
  rewrite run_FindTextureID by exact Hb'.
  assert (Hfind : list_find (has_tag tag) (registered_textures st')
                  = Some (i, entry_of st i (filename, tag))).
  { apply list_find_Some. split; [exact He|]. split; [reflexivity|].
    intros j y Hy Hj Hyt. unfold has_tag in Hyt.
    rewrite Hreg, list_lookup_imap in Hy.
    destruct (reqs !! j) as [[f' t']|] eqn:Hj'; [|discriminate Hy].
    injection Hy as <-. cbn in Hyt. subst t'.
    assert (Hji : j = i); [|lia].
    apply (NoDup_lookup reqs.*2 j i tag Hnd); rewrite list_lookup_fmap.
    - now rewrite Hj'.
    - now rewrite Hi. }
  now rewrite Hfind.
Qed.

(* ===================================================================== *)
(** ** The meshes drawn *)
(* ===================================================================== *)

Lemma draws_bind {A B : Type} (l1 l2 : list Call) (c : M A) (f : A -> M B) :
  draws l1 c -> (forall a, draws l2 (f a)) -> draws (l1 ++ l2) (c ≫= f).
Proof.
  intros Hc Hf st b st' Hrun. apply bind_inv in Hrun as (a & st1 & H1 & H2).
  destruct (Hc _ _ _ H1) as (evs1 & C1 & L1).
  destruct (Hf a _ _ _ H2) as (evs2 & C2 & L2).
  exists (evs1 ++ evs2). split; [rewrite C2, C1; now rewrite app_assoc|].
  now rewrite List.filter_app, L1, L2.
Qed.

Lemma draws_ret {A : Type} (a : A) : draws [] (mret a).
Proof. intros st a' st' [= _ <-]. exists []. now rewrite app_nil_r. Qed.

Lemma draws_get {A : Type} (proj : State -> A) : draws [] (get proj).
Proof. intros st a' st' [= _ <-]. exists []. now rewrite app_nil_r. Qed.

Lemma draws_emit (c : Call) : is_draw c = true -> draws [c] (emit c).
Proof.
  intros Hc st a st' [= _ <-]. exists [c]. split; [reflexivity|].
  cbn [List.filter]. now rewrite Hc.
Qed.

Lemma draws_shader_set (name : string) (v : UniformValue) : draws [] (shader_set name v).
Proof.
  intros st a st' H. apply shader_set_inv in H as (sm & _ & ->).
  exists [SetUniform name v]. split; reflexivity.
Qed.

Lemma draws_FindTextureSlot (tag : string) : draws [] (FindTextureSlot tag).
Proof.
  intros st r st' H. unfold FindTextureSlot in H. rewrite run_bind in H. cbn [get] in H.
  apply FindTextureSlot_from_inv in H as ->. exists []. now rewrite app_nil_r.
Qed.

Lemma draws_SetTransformations {libm : Libm} (scaleXYZ positionXYZ : glm.vec3)
    (x y z : F32.float) :
  draws [] (SetTransformations scaleXYZ x y z positionXYZ).
Proof.
  unfold SetTransformations. apply (draws_bind [] []); [apply draws_get|].
  intros [sm|]; [apply draws_shader_set | apply draws_ret].
Qed.

Lemma draws_SetShaderColor (r g b a : F32.float) : draws [] (SetShaderColor r g b a).
Proof.
  unfold SetShaderColor. apply (draws_bind [] []); [apply draws_get|].
  intros [sm|]; [|apply draws_ret].
  apply (draws_bind [] []); [apply draws_shader_set | intros _; apply draws_shader_set].
Qed.

Lemma draws_SetShaderTexture (tag : string) : draws [] (SetShaderTexture tag).
Proof.
  unfold SetShaderTexture. apply (draws_bind [] []); [apply draws_get|].
  intros [sm|]; [|apply draws_ret].
  apply (draws_bind [] []); [apply draws_shader_set | intros _].
  apply (draws_bind [] []); [apply draws_FindTextureSlot | intros slot].
  apply draws_shader_set.
Qed.

Lemma draws_SetShaderMaterial (material : OBJECT_MATERIAL.t) (tag : string) :
  draws [] (SetShaderMaterial material tag).
Proof.
  unfold SetShaderMaterial. apply (draws_bind [] []); [apply draws_get|].
  intros ms. destruct (0 <? length ms)%nat; [|apply draws_ret].
  apply (draws_bind [] []).
  { unfold FindMaterial. apply (draws_bind [] []); [apply draws_get|].
    intros ms'. destruct (length ms' =? 0)%nat; apply draws_ret. }
  intros [[|] found]; cbn [fst snd]; [|apply draws_ret].
  apply (draws_bind [] []); [apply draws_shader_set | intros _].
  apply (draws_bind [] []); [apply draws_shader_set | intros _].
  apply draws_shader_set.
Qed.

Ltac draws_step :=
  first [ apply draws_emit; reflexivity
        | apply draws_SetTransformations
        | apply draws_SetShaderTexture
        | apply draws_SetShaderColor
        | apply draws_SetShaderMaterial ].

(** The meshes that [RenderScene] draws do not depend on the state: there
    is one list of 38 draw calls such that every run of [RenderScene] that
    returns, with or without shader, textures or materials, makes exactly
    these draw calls, in this order. *)
Theorem RenderScene_draws_every_mesh {libm : Libm} :
  exists scene_draws : list Call,
    length scene_draws = 38%nat /\
    forall (material : nat -> OBJECT_MATERIAL.t) (st st' : State),
      RenderScene material st = Done tt st' ->
      exists evs : list Call,
        calls st' = calls st ++ evs /\
        List.filter is_draw evs = scene_draws.
Proof.
  eexists. split; cycle 1.
  - intros material st st' Hrun.
    enough (Hd : draws ?[l] (RenderScene material)) by exact (Hd st tt st' Hrun).
    clear Hrun. unfold RenderScene. cbv zeta.
    repeat (eapply draws_bind; [draws_step | intros _]). draws_step.
  - reflexivity.
Qed.

(* ===================================================================== *)
(** ** The theorems at concrete scenes *)
(* ===================================================================== *)

Lemma load_all_loaded (reqs : list (string * string)) (st st' : State) :
  load_all reqs st = Done true st' -> loaded_from st reqs st'.
Proof.
  revert st. induction reqs as [|[filename tag] rest IH]; intros st; cbn [load_all].
  - intros [= <-]. constructor.
  - rewrite run_bind. destruct (CreateGLTexture filename tag st) as [[|] st1|e] eqn:E;
      try discriminate.
    intros H. econstructor; [exact E | now apply IH].
Qed.

Example RenderScene_draws :
  length (List.filter is_draw
            (calls (state_after (@RenderScene series_libm (fun _ => zero_material))
                      (set_calls [] prepared_scene))))
  = 38%nat.
Proof. vm_compute. reflexivity. Qed.

Example prepared_scene_slots :
  FindTextureSlot "counter" prepared_scene = Done 6 prepared_scene /\
  FindTextureSlot "plastic" prepared_scene = Done 10 prepared_scene /\
  FindTextureSlot "wood" prepared_scene = Done (-1) prepared_scene /\
  FindTextureID "counter" prepared_scene = Done 7 prepared_scene.
Proof. repeat split; vm_compute; reflexivity. Qed.

Example float_literals :
  flt 0.1 = S754_finite false 13421773 (-27) /\
  flt (-10.0) = F32.opp (flt 10.0) /\
  dbl 0.3 = flt 0.3 /\
  int_to_float 1 = F32.one /\
  flt 1.0 = F32.one /\
  flt 00.0 = F32.zero.
Proof. repeat split; vm_compute; reflexivity. Qed.

(** C1 at a concrete input: a torus rim of the scene, on the example scene. *)
Lemma C1_witness :
  m_pShaderManager example_scene = Some empty_shader /\
  exists st' model,
    @SetTransformations series_libm (glm.Vec3 (flt 2.5) (flt 2.6) (flt 2.0))
      (flt 90.0) (flt 0.0) (flt 0.0) (glm.Vec3 (flt 6.0) (flt 7.0) (flt (-4.0)))
      example_scene = Done tt st' /\
    uniform "model" st' = Some (UMat4 model) /\
    calls st' = [SetUniform "model" (UMat4 model)].
Proof.
  split; [reflexivity|].
  destruct (@C1_SetTransformations_writes_model_matrix series_libm
              (glm.Vec3 (flt 2.5) (flt 2.6) (flt 2.0))
              (glm.Vec3 (flt 6.0) (flt 7.0) (flt (-4.0)))
              (flt 90.0) (flt 0.0) (flt 0.0) example_scene empty_shader eq_refl)
    as (st' & Hrun & _ & Hu & Hc).
  exists st'. eexists. split; [exact Hrun|]. split; [exact Hu | exact Hc].
Defined.

(** C3 at a concrete input: the example scene, prepared and rendered twice with different contents of the uninitialised local. *)
Lemma C3_witness :
  textures_in_bounds example_scene /\
  PrepareScene example_scene = Done tt prepared_scene /\
  exists (evs : list Call) (st2 st3 : State),
    @RenderScene series_libm (fun _ => zero_material) prepared_scene = Done tt st2 /\
    @RenderScene series_libm (fun _ => cementMaterial) st2 = Done tt st3 /\
    calls st2 = calls prepared_scene ++ evs /\
    calls st3 = calls st2 ++ evs.
Proof.
  assert (Hb : textures_in_bounds example_scene)
    by (unfold textures_in_bounds; cbn; lia).
  assert (Hp : PrepareScene example_scene = Done tt prepared_scene)
    by (vm_compute; reflexivity).
  split; [exact Hb|]. split; [exact Hp|].
  destruct (@C3_RenderScene_twice_same_calls series_libm example_scene prepared_scene
              (fun _ => zero_material) (fun _ => cementMaterial) Hb Hp)
    as (evs & st2 & st3 & H1 & H2 & C1 & C2 & _).
  exists evs, st2, st3. split; [exact H1|]. split; [exact H2|].
  split; [exact C1 | exact C2].
Defined.

(** C4 at a concrete input: two textures loaded into the example scene. *)
Lemma C4_witness :
  m_loadedTextures example_scene = 0 /\
  loaded_from example_scene two_requests two_textures_scene /\
  NoDup two_requests.*2 /\
  m_loadedTextures two_textures_scene = 2 /\
  FindTextureSlot "potBody" two_textures_scene = Done 0 two_textures_scene /\
  FindTextureSlot "metal" two_textures_scene = Done 1 two_textures_scene.
Proof.
  assert (H0 : m_loadedTextures example_scene = 0) by reflexivity.
  assert (Hl : loaded_from example_scene two_requests two_textures_scene)
    by (apply load_all_loaded; vm_compute; reflexivity).
  assert (Hn : NoDup two_requests.*2)
    by (apply (bool_decide_unpack (NoDup two_requests.*2)); vm_compute; exact I).
  split; [exact H0|]. split; [exact Hl|]. split; [exact Hn|].
  destruct (C4_slots_follow_registration_order example_scene two_textures_scene
              two_requests H0 Hl Hn) as (Hcount & _ & Hslot).
  split; [exact Hcount|]. split.
  - exact (proj1 (Hslot 0%nat "textures/cement.jpg" "potBody" eq_refl)).
  - exact (proj1 (Hslot 1%nat "textures/metal.jpg" "metal" eq_refl)).
Defined.

(** C5 at a concrete input: a two-channel image. *)
Lemma C5_witness :
  (files example_scene !! "textures/grey_alpha.png" = None \/
   exists image, files example_scene !! "textures/grey_alpha.png" = Some image /\
                 img_channels image <> 3 /\ img_channels image <> 4) /\
  exists st',
    CreateGLTexture "textures/grey_alpha.png" "grey" example_scene = Done false st' /\
    m_textureIDs st' = m_textureIDs example_scene /\
    m_loadedTextures st' = 0.
Proof.
  assert (H : files example_scene !! "textures/grey_alpha.png" = None \/
              exists image, files example_scene !! "textures/grey_alpha.png" = Some image /\
                            img_channels image <> 3 /\ img_channels image <> 4).
  { right. exists grey_alpha_image. split; [vm_compute; reflexivity|].
    split; cbn; lia. }
  split; [exact H|].
  destruct (C5_CreateGLTexture_failure_keeps_registry "textures/grey_alpha.png" "grey"
              example_scene H) as (st' & Hrun & Hids & Hn & _).
  exists st'. split; [exact Hrun|]. split; [exact Hids | exact Hn].
Defined.

(** C6 at a concrete input: a seventeenth texture for the full example scene. *)
Lemma C6_witness :
  files full_scene !! "textures/metal.jpg" = Some rgb_image /\
  (img_channels rgb_image = 3 \/ img_channels rgb_image = 4) /\
  m_loadedTextures full_scene = Z.of_nat (length (m_textureIDs full_scene)) /\
  m_loadedTextures full_scene = 16 /\
  CreateGLTexture "textures/metal.jpg" "seventeenth" full_scene = Undefined OutOfBounds.
Proof.
  assert (Hf : files full_scene !! "textures/metal.jpg" = Some rgb_image)
    by (vm_compute; reflexivity).
  assert (Hc : img_channels rgb_image = 3 \/ img_channels rgb_image = 4)
    by (left; reflexivity).
  assert (Hn : m_loadedTextures full_scene = Z.of_nat (length (m_textureIDs full_scene)))
    by (vm_compute; reflexivity).
  split; [exact Hf|]. split; [exact Hc|]. split; [exact Hn|].
  split; [vm_compute; reflexivity|].
  exact (C6_full_registry_is_overrun "textures/metal.jpg" "seventeenth" full_scene
           rgb_image Hf Hc Hn).
Defined.

(** C7 at a concrete input: one texture selection and one colour selection. *)
Lemma C7_witness :
  m_pShaderManager two_textures_scene = Some empty_shader /\
  textures_in_bounds two_textures_scene /\
  (exists st1,
     SetShaderTexture "metal" two_textures_scene = Done tt st1 /\
     uniform g_UseTextureName st1 = Some (UInt 1)) /\
  (exists st2,
     SetShaderColor (int_to_float 1) (int_to_float 1) (int_to_float 1) (dbl 0.3)
       two_textures_scene = Done tt st2 /\
     uniform g_UseTextureName st2 = Some (UInt 0)).
Proof.
  assert (Hs : m_pShaderManager two_textures_scene = Some empty_shader)
    by (vm_compute; reflexivity).
  assert (Hb : textures_in_bounds two_textures_scene)
    by (unfold textures_in_bounds; vm_compute; split; discriminate).
  split; [exact Hs|]. split; [exact Hb|].
  destruct (C7_use_texture_flag_follows_last_selection two_textures_scene empty_shader
              "metal" (int_to_float 1) (int_to_float 1) (int_to_float 1) (dbl 0.3) Hs Hb)
    as [(st1 & sm1 & H1 & F1 & _) (st2 & sm2 & H2 & F2 & _)].
  split; [exists st1 | exists st2]; split; assumption.
Defined.

(** C8 at a concrete input: the translation (6.5, 2.0, -4.1). *)
Lemma C8_witness :
  F32.is_finite (flt 6.5) = true /\
  F32.is_finite (flt 2.0) = true /\
  F32.is_finite (flt (-4.1)) = true /\
  m_pShaderManager example_scene = Some empty_shader /\
  exists st',
    @SetTransformations series_libm (glm.Vec3 F32.one F32.one F32.one)
      F32.zero F32.zero F32.zero (glm.Vec3 (flt 6.5) (flt 2.0) (flt (-4.1)))
      example_scene = Done tt st' /\
    uniform "model" st'
    = Some (UMat4 (translation_matrix (flt 6.5) (flt 2.0) (flt (-4.1)))).
Proof.
  assert (Hx : F32.is_finite (flt 6.5) = true) by (vm_compute; reflexivity).
  assert (Hy : F32.is_finite (flt 2.0) = true) by (vm_compute; reflexivity).
  assert (Hz : F32.is_finite (flt (-4.1)) = true) by (vm_compute; reflexivity).
  repeat (split; [assumption || reflexivity|]).
  destruct (@C8_neutral_transformation_is_translation series_libm
              (flt 6.5) (flt 2.0) (flt (-4.1)) example_scene empty_shader
              Hx Hy Hz eq_refl) as (st' & Hrun & Hu & _ & Ht).
  exists st'. split; [exact Hrun|]. rewrite Hu, Ht. vm_compute. reflexivity.
Defined.

(** C9, counterexample.  [FindTextureID] can return [-1] for a registered
    tag: when the driver names a texture 4294967295, the texture is
    registered and its tag is found, yet the name converted to [int] is
    the sentinel [-1]. *)
Lemma C9_FindTextureID_sentinel_counterexample :
  CreateGLTexture "textures/metal.jpg" "metal"
    (new_scene (Some empty_shader) scene_disk last_name_driver)
  = Done true last_name_scene /\
  registered_textures last_name_scene = [TEXTURE_INFO.mk 4294967295 "metal"] /\
  registered last_name_scene "metal" /\
  FindTextureID "metal" last_name_scene = Done (-1) last_name_scene /\
  ~ (forall id, FindTextureID "metal" last_name_scene = Done id last_name_scene ->
                (id = -1 <-> ~ registered last_name_scene "metal")).
Proof.
  assert (Hreg : registered_textures last_name_scene
                 = [TEXTURE_INFO.mk 4294967295 "metal"]) by (vm_compute; reflexivity).
  assert (Hr : registered last_name_scene "metal").
  { exists (TEXTURE_INFO.mk 4294967295 "metal"). rewrite Hreg.
    split; [apply list_elem_of_here | reflexivity]. }
  assert (Hf : FindTextureID "metal" last_name_scene = Done (-1) last_name_scene)
    by (vm_compute; reflexivity).
  split; [vm_compute; reflexivity|]. split; [exact Hreg|]. split; [exact Hr|].
  split; [exact Hf|].
  intros H. apply (proj1 (H (-1) Hf) eq_refl). exact Hr.
Qed.

(** C9 at a concrete input: a registered and an unknown tag. *)
Lemma C9_witness :
  textures_in_bounds two_textures_scene /\
  names_are_GLuint two_textures_scene /\
  FindTextureSlot "metal" two_textures_scene = Done 1 two_textures_scene /\
  FindTextureID "metal" two_textures_scene = Done 2 two_textures_scene /\
  FindTextureSlot "wood" two_textures_scene = Done (-1) two_textures_scene /\
  FindTextureID "wood" two_textures_scene = Done (-1) two_textures_scene.
Proof.
  assert (Hb : textures_in_bounds two_textures_scene)
    by (unfold textures_in_bounds; vm_compute; split; discriminate).
  assert (Hn : names_are_GLuint two_textures_scene).
  { unfold names_are_GLuint. apply Forall_forall. intros e He.
    vm_compute in He. repeat (apply elem_of_cons in He as [-> | He]);
      [vm_compute; split; [discriminate | reflexivity] ..|].
    now apply elem_of_nil in He. }
  split; [exact Hb|]. split; [exact Hn|].
  destruct (C9_texture_lookups_first_match "metal" two_textures_scene Hb Hn)
    as (slot & id & Hslot & Hid & _).
  destruct (C9_texture_lookups_first_match "wood" two_textures_scene Hb Hn)
    as (slot' & id' & Hslot' & Hid' & _).
  assert (E1 : FindTextureSlot "metal" two_textures_scene = Done 1 two_textures_scene)
    by (vm_compute; reflexivity).
  assert (E2 : FindTextureID "metal" two_textures_scene = Done 2 two_textures_scene)
    by (vm_compute; reflexivity).
  assert (E3 : FindTextureSlot "wood" two_textures_scene = Done (-1) two_textures_scene)
    by (vm_compute; reflexivity).
  assert (E4 : FindTextureID "wood" two_textures_scene = Done (-1) two_textures_scene)
    by (vm_compute; reflexivity).
  rewrite E1 in Hslot. rewrite E2 in Hid. rewrite E3 in Hslot'. rewrite E4 in Hid'.
  repeat split; congruence.
Defined.

(** C10 at a concrete input: the tag wood, which no material of the scene has. *)
Lemma C10_witness :
  m_objectMaterials materials_scene <> [] /\
  Forall (fun m => OBJECT_MATERIAL.tag m <> "wood"%string)
    (m_objectMaterials materials_scene) /\
  m_pShaderManager materials_scene = Some empty_shader /\
  FindMaterial "wood" glassMaterial materials_scene
  = Done (true, glassMaterial) materials_scene /\
  exists st',
    SetShaderMaterial glassMaterial "wood" materials_scene = Done tt st' /\
    uniform "material.shininess" st' = Some (UFloat (dbl 95.0)).
Proof.
  assert (Hne : m_objectMaterials materials_scene <> []) by discriminate.
  assert (Hno : Forall (fun m => OBJECT_MATERIAL.tag m <> "wood"%string)
                  (m_objectMaterials materials_scene))
    by (repeat constructor; discriminate).
  assert (Hs : m_pShaderManager materials_scene = Some empty_shader) by reflexivity.
  split; [exact Hne|]. split; [exact Hno|]. split; [exact Hs|].
  destruct (C10_unknown_tag_forwards_caller_material "wood" glassMaterial
              materials_scene empty_shader Hne Hno Hs)
    as (Hfind & st' & Hrun & _ & _ & _ & Hshine).
  split; [exact Hfind|]. exists st'. split; [exact Hrun | exact Hshine].
Defined.

(** The guarded setters on a scene without shader manager. *)
Lemma guarded_setters_witness :
  m_pShaderManager (new_scene None scene_disk counting_driver) = None /\
  @SetTransformations series_libm (glm.Vec3 F32.one F32.one F32.one) F32.zero F32.zero
    F32.zero (glm.Vec3 F32.zero F32.zero F32.zero)
    (new_scene None scene_disk counting_driver)
  = Done tt (new_scene None scene_disk counting_driver).
Proof.
  split; [reflexivity|].
  exact (proj1 (@guarded_setters_without_shader series_libm
                  (new_scene None scene_disk counting_driver)
                  (glm.Vec3 F32.one F32.one F32.one) (glm.Vec3 F32.zero F32.zero F32.zero)
                  F32.zero F32.zero F32.zero F32.zero F32.zero F32.zero F32.zero
                  F32.zero F32.zero "box" eq_refl)).
Defined.

(** The unguarded methods on a scene with materials and no shader
    manager. *)
Lemma unguarded_methods_witness :
  m_pShaderManager (set_pShaderManager None materials_scene) = None /\
  m_objectMaterials (set_pShaderManager None materials_scene) <> [] /\
  SetShaderMaterial zero_material "glass" (set_pShaderManager None materials_scene)
  = Undefined NullPointer.
Proof.
  assert (Hne : m_objectMaterials (set_pShaderManager None materials_scene) <> [])
    by discriminate.
  split; [reflexivity|]. split; [exact Hne|].
  exact (proj1 (unguarded_methods_without_shader
                  (set_pShaderManager None materials_scene) zero_material "glass"
                  eq_refl Hne)).
Defined.

(** A texture that was never loaded, selected in the scene with two
    textures. *)
Lemma unknown_texture_witness :
  m_pShaderManager two_textures_scene = Some empty_shader /\
  textures_in_bounds two_textures_scene /\
  ~ registered two_textures_scene "wood" /\
  exists st',
    SetShaderTexture "wood" two_textures_scene = Done tt st' /\
    uniform g_TextureValueName st' = Some (USampler2D (-1)).
Proof.
  assert (Hs : m_pShaderManager two_textures_scene = Some empty_shader)
    by (vm_compute; reflexivity).
  assert (Hb : textures_in_bounds two_textures_scene)
    by (unfold textures_in_bounds; vm_compute; split; discriminate).
  assert (Hno : ~ registered two_textures_scene "wood").
  { intros (e & He & Ht). vm_compute in He.
    repeat (apply elem_of_cons in He as [-> | He]); try discriminate Ht.
    now apply elem_of_nil in He. }
  split; [exact Hs|]. split; [exact Hb|]. split; [exact Hno|].
  destruct (unknown_texture_sets_sampler_to_sentinel two_textures_scene empty_shader
              "wood" Hs Hb Hno) as (st' & Hrun & Hu & _).
  exists st'. split; [exact Hrun | exact Hu].
Defined.

(** Two materials tagged glass: the first one is found. *)
Lemma FindMaterial_first_wins_witness :
  m_objectMaterials glass_twice_scene
  = [cementMaterial] ++ glassMaterial :: [second_glass] /\
  Forall (fun m' => OBJECT_MATERIAL.tag m' <> "glass"%string) [cementMaterial] /\
  OBJECT_MATERIAL.tag glassMaterial = "glass"%string /\
  exists found,
    FindMaterial "glass" zero_material glass_twice_scene
    = Done (true, found) glass_twice_scene /\
    OBJECT_MATERIAL.shininess found = dbl 95.0.
Proof.
  assert (Hb : Forall (fun m' => OBJECT_MATERIAL.tag m' <> "glass"%string)
                 [cementMaterial]) by (repeat constructor; discriminate).
  split; [reflexivity|]. split; [exact Hb|]. split; [reflexivity|].
  eexists. split.
  - exact (FindMaterial_first_wins glass_twice_scene "glass" zero_material
             glassMaterial [cementMaterial] [second_glass] eq_refl Hb eq_refl).
  - reflexivity.
Defined.

Lemma two_textures_in_bounds : textures_in_bounds two_textures_scene.
Proof. unfold textures_in_bounds. vm_compute. split; discriminate. Qed.

Lemma prepared_in_bounds : textures_in_bounds prepared_scene.
Proof. unfold textures_in_bounds. vm_compute. split; discriminate. Qed.

Lemma example_names_are_GLuint : names_are_GLuint example_scene.
Proof.
  unfold names_are_GLuint. apply Forall_replicate. unfold GLuint_modulus. cbn. lia.
Qed.

(** The texture units of the scene with two textures. *)
Lemma BindGLTextures_witness :
  m_loadedTextures two_textures_scene <= Z.of_nat (length (m_textureIDs two_textures_scene)) /\
  exists evs,
    BindGLTextures two_textures_scene
    = Done tt (set_calls (calls two_textures_scene ++ evs) two_textures_scene) /\
    length evs = 4%nat /\
    evs !! (2 * 1)%nat = Some (glActiveTexture 1) /\
    evs !! (2 * 1 + 1)%nat = Some (glBindTexture GL_TEXTURE_2D 2).
Proof.
  assert (Hb : m_loadedTextures two_textures_scene
               <= Z.of_nat (length (m_textureIDs two_textures_scene)))
    by (vm_compute; discriminate).
  assert (He : registered_textures two_textures_scene !! 1%nat
               = Some (TEXTURE_INFO.mk 2 "metal")) by (vm_compute; reflexivity).
  split; [exact Hb|].
  destruct (BindGLTextures_binds_slot_by_slot two_textures_scene Hb)
    as (evs & Hrun & Hlen & _ & Hat).
  exists evs. split; [exact Hrun|]. split; [exact Hlen|].
  exact (Hat 1%nat _ He).
Defined.

(** The two textures of the scene after [DestroyGLTextures]. *)
Lemma DestroyGLTextures_renames_witness :
  m_loadedTextures two_textures_scene <= Z.of_nat (length (m_textureIDs two_textures_scene)) /\
  exists st',
    DestroyGLTextures two_textures_scene = Done tt st' /\
    m_loadedTextures st' = 2 /\
    m_textureIDs st' !! 1%nat = Some (TEXTURE_INFO.mk 4 "metal") /\
    gl_generated st' = 4%nat.
Proof.
  assert (Hb : m_loadedTextures two_textures_scene
               <= Z.of_nat (length (m_textureIDs two_textures_scene)))
    by (vm_compute; discriminate).
  assert (He : registered_textures two_textures_scene !! 1%nat
               = Some (TEXTURE_INFO.mk 2 "metal")) by (vm_compute; reflexivity).
  split; [exact Hb|].
  destruct (DestroyGLTextures_renames_in_place two_textures_scene Hb)
    as (st' & Hrun & Hn & _ & Hid & _ & Hg & _).
  exists st'. split; [exact Hrun|]. split; [exact Hn|].
  split; [exact (Hid 1%nat _ He) | exact Hg].
Defined.

(** The full scene after [DestroyGLTextures]: the slot of t3 is still 3,
    and there is still no room for a seventeenth texture. *)
Lemma DestroyGLTextures_frees_no_slot_witness :
  textures_in_bounds full_scene /\
  exists st',
    DestroyGLTextures full_scene = Done tt st' /\
    m_loadedTextures st' = 16 /\
    FindTextureSlot "t3" st' = Done 3 st' /\
    CreateGLTexture "textures/metal.jpg" "seventeenth" st' = Undefined OutOfBounds.
Proof.
  assert (Hb : textures_in_bounds full_scene)
    by (unfold textures_in_bounds; vm_compute; split; discriminate).
  assert (H3 : FindTextureSlot "t3" full_scene = Done 3 full_scene)
    by (vm_compute; reflexivity).
  assert (H16 : m_loadedTextures full_scene = 16) by (vm_compute; reflexivity).
  split; [exact Hb|].
  destruct (DestroyGLTextures_frees_no_slot full_scene "t3" Hb)
    as (st' & slot & Hrun & Hn & Hbefore & Hafter & Hfull).
  assert (Hslot : slot = 3) by congruence.
  exists st'. split; [exact Hrun|]. split; [congruence|].
  split; [congruence|].
  apply (Hfull "textures/metal.jpg"%string "seventeenth"%string rgb_image);
    vm_compute; reflexivity.
Defined.

(** A texture that loads and the state it leaves. *)
Lemma CreateGLTexture_succeeds_witness :
  0 <= m_loadedTextures example_scene < Z.of_nat (length (m_textureIDs example_scene)) /\
  exists st',
    CreateGLTexture "textures/metal.jpg" "metal" example_scene = Done true st' /\
    m_loadedTextures st' = 1 /\
    gl_generated st' = 1%nat.
Proof.
  assert (Hn : 0 <= m_loadedTextures example_scene
               < Z.of_nat (length (m_textureIDs example_scene))) by (cbn; lia).
  split; [exact Hn|].
  destruct (CreateGLTexture_succeeds_iff_supported "textures/metal.jpg" "metal"
              example_scene Hn) as (b & st' & Hrun & Hb & _ & Hcount & _ & Hg & _).
  assert (Htrue : b = true) by (rewrite Hb; vm_compute; reflexivity).
  subst b. exists st'. split; [exact Hrun|]. split; [exact Hcount | exact Hg].
Defined.

(** A two-channel image: the image is not released and the texture name
    1 stays allocated. *)
Lemma CreateGLTexture_failure_witness :
  loadable example_scene "textures/grey_alpha.png" = false /\
  exists st' evs,
    CreateGLTexture "textures/grey_alpha.png" "grey" example_scene = Done false st' /\
    calls st' = calls example_scene ++ evs /\
    (stbi_image_free ∉ evs) /\
    glGenTextures 1 ∈ evs /\
    gl_generated st' = 1%nat.
Proof.
  assert (Hl : loadable example_scene "textures/grey_alpha.png" = false)
    by (vm_compute; reflexivity).
  split; [exact Hl|].
  destruct (CreateGLTexture_failure_releases_nothing "textures/grey_alpha.png" "grey"
              example_scene Hl) as (st' & evs & Hrun & Hc & Hfree & Hpath).
  assert (Hfile : files example_scene !! "textures/grey_alpha.png"%string
                  = Some grey_alpha_image) by (vm_compute; reflexivity).
  rewrite Hfile in Hpath. destruct Hpath as (_ & Hg & Hgen & _).
  exists st', evs. split; [exact Hrun|]. split; [exact Hc|]. split; [exact Hfree|].
  split; [exact Hgen | exact Hg].
Defined.

(** A second texture under the tag metal: the lookups still find the
    first. *)
Lemma CreateGLTexture_keeps_lookups_witness :
  textures_in_bounds two_textures_scene /\
  CreateGLTexture "textures/dirt.jpg" "metal" two_textures_scene
  = Done true metal_again_scene /\
  registered two_textures_scene "metal" /\
  m_loadedTextures metal_again_scene = 3 /\
  FindTextureSlot "metal" metal_again_scene = Done 1 metal_again_scene /\
  FindTextureID "metal" metal_again_scene = Done 2 metal_again_scene.
Proof.
  assert (Hrun : CreateGLTexture "textures/dirt.jpg" "metal" two_textures_scene
                 = Done true metal_again_scene) by (vm_compute; reflexivity).
  assert (Hreg : registered two_textures_scene "metal").
  { exists (TEXTURE_INFO.mk 2 "metal"). split; [|reflexivity].
    apply (list_elem_of_lookup_2 _ 1%nat). vm_compute. reflexivity. }
  split; [exact two_textures_in_bounds|]. split; [exact Hrun|]. split; [exact Hreg|].
  split; [vm_compute; reflexivity|].
  destruct (CreateGLTexture_keeps_earlier_lookups _ _ _ _ two_textures_in_bounds Hrun)
    as (Hold & _ & _).
  destruct (Hold "metal"%string Hreg) as (slot & id & Hs & Hs' & Hi & Hi' & _).
  assert (H1 : FindTextureSlot "metal" two_textures_scene = Done 1 two_textures_scene)
    by (vm_compute; reflexivity).
  assert (H2 : FindTextureID "metal" two_textures_scene = Done 2 two_textures_scene)
    by (vm_compute; reflexivity).
  assert (Hslot : slot = 1) by congruence.
  assert (Hid : id = 2) by congruence.
  split; congruence.
Defined.

(** The texture tagged metal: sampler 1, bound on unit 1. *)
Lemma SetShaderTexture_unit_witness :
  m_pShaderManager two_textures_scene = Some empty_shader /\
  textures_in_bounds two_textures_scene /\
  registered two_textures_scene "metal" /\
  exists (i : nat) (e : TEXTURE_INFO.t) (st1 st2 : State) (evs : list Call),
    SetShaderTexture "metal" two_textures_scene = Done tt st1 /\
    uniform g_TextureValueName st1 = Some (USampler2D (Z.of_nat i)) /\
    BindGLTextures two_textures_scene = Done tt st2 /\
    calls st2 = calls two_textures_scene ++ evs /\
    evs !! (2 * i)%nat = Some (glActiveTexture (Z.of_nat i)) /\
    evs !! (2 * i + 1)%nat = Some (glBindTexture GL_TEXTURE_2D (TEXTURE_INFO.ID e)) /\
    TEXTURE_INFO.tag e = "metal"%string.
Proof.
  assert (Hs : m_pShaderManager two_textures_scene = Some empty_shader)
    by (vm_compute; reflexivity).
  assert (Hreg : registered two_textures_scene "metal").
  { exists (TEXTURE_INFO.mk 2 "metal"). split; [|reflexivity].
    apply (list_elem_of_lookup_2 _ 1%nat). vm_compute. reflexivity. }
  split; [exact Hs|]. split; [exact two_textures_in_bounds|]. split; [exact Hreg|].
  destruct (SetShaderTexture_selects_bound_unit two_textures_scene empty_shader "metal"
              Hs two_textures_in_bounds Hreg)
    as (i & e & st1 & st2 & evs & _ & Ht & _ & Hrun & Hu & Hbind & Hc & H0 & H1).
  exists i, e, st1, st2, evs. repeat split; assumption.
Defined.

(** Two materials tagged glass: the values of the first reach the shader. *)
Lemma SetShaderMaterial_first_match_witness :
  m_pShaderManager glass_twice_scene = Some empty_shader /\
  m_objectMaterials glass_twice_scene = [cementMaterial] ++ glassMaterial :: [second_glass] /\
  Forall (fun m' => OBJECT_MATERIAL.tag m' <> "glass"%string) [cementMaterial] /\
  OBJECT_MATERIAL.tag glassMaterial = "glass"%string /\
  exists st',
    SetShaderMaterial zero_material "glass" glass_twice_scene = Done tt st' /\
    uniform "material.shininess" st' = Some (UFloat (dbl 95.0)).
Proof.
  assert (Hb : Forall (fun m' => OBJECT_MATERIAL.tag m' <> "glass"%string)
                 [cementMaterial]) by (repeat constructor; discriminate).
  split; [reflexivity|]. split; [reflexivity|]. split; [exact Hb|]. split; [reflexivity|].
  destruct (SetShaderMaterial_writes_first_match glass_twice_scene empty_shader "glass"
              zero_material glassMaterial [cementMaterial] [second_glass]
              eq_refl eq_refl Hb eq_refl) as (st' & Hrun & _ & _ & _ & Hshine & _).
  exists st'. split; [exact Hrun | exact Hshine].
Defined.

(** The counter plane of the scene: scale (20, 1, 10) at the origin. *)
Lemma SetTransformations_without_rotation_witness :
  F32.is_finite (flt 20.0) = true /\ F32.is_finite (flt 1.0) = true /\
  F32.is_finite (flt 10.0) = true /\ F32.is_finite (flt 0.0) = true /\
  m_pShaderManager example_scene = Some empty_shader /\
  exists (st' : State) (model : glm.mat4),
    @SetTransformations series_libm (glm.Vec3 (flt 20.0) (flt 1.0) (flt 10.0))
      F32.zero F32.zero F32.zero (glm.Vec3 (flt 0.0) (flt 0.0) (flt 0.0)) example_scene
    = Done tt st' /\
    uniform g_ModelName st' = Some (UMat4 model) /\
    mat4_abs_zero model
    = scale_translation_matrix (flt 20.0) (flt 1.0) (flt 10.0) (flt 0.0) (flt 0.0) (flt 0.0).
Proof.
  assert (H20 : F32.is_finite (flt 20.0) = true) by (vm_compute; reflexivity).
  assert (H1 : F32.is_finite (flt 1.0) = true) by (vm_compute; reflexivity).
  assert (H10 : F32.is_finite (flt 10.0) = true) by (vm_compute; reflexivity).
  assert (H0 : F32.is_finite (flt 0.0) = true) by (vm_compute; reflexivity).
  repeat (split; [assumption || reflexivity|]).
  destruct (@SetTransformations_without_rotation series_libm
              (flt 20.0) (flt 1.0) (flt 10.0) (flt 0.0) (flt 0.0) (flt 0.0)
              example_scene empty_shader H20 H1 H10 H0 H0 H0 eq_refl)
    as (st' & model & Hrun & Hu & Hm).
  exists st', model. split; [exact Hrun|]. split; [exact Hu|].
  rewrite Hm. vm_compute. reflexivity.
Defined.

(** With the file of the dirt texture missing, ten textures are loaded
    and the later ones move down one slot. *)
Lemma LoadSceneTextures_skips_witness :
  textures_in_bounds dirtless_scene /\
  m_loadedTextures dirtless_scene
    + Z.of_nat (length (loadable_requests dirtless_scene scene_texture_requests))
    <= Z.of_nat (length (m_textureIDs dirtless_scene)) /\
  exists st',
    LoadSceneTextures dirtless_scene = Done tt st' /\
    m_loadedTextures st' = 10 /\
    TEXTURE_INFO.tag <$> registered_textures st'
    = ["box"; "potBody"; "potRim"; "potSphereBottom"; "backsplash"; "counter";
       "stem"; "leaf"; "metal"; "plastic"]%string.
Proof.
  assert (Hb : textures_in_bounds dirtless_scene)
    by (unfold textures_in_bounds; cbn; lia).
  assert (Hroom : m_loadedTextures dirtless_scene
                    + Z.of_nat (length (loadable_requests dirtless_scene
                                          scene_texture_requests))
                  <= Z.of_nat (length (m_textureIDs dirtless_scene)))
    by (vm_compute; discriminate).
  split; [exact Hb|]. split; [exact Hroom|].
  destruct (LoadSceneTextures_skips_failed_loads dirtless_scene Hb Hroom)
    as (st' & evs & Hrun & _ & Hn & Htags & _).
  exists st'. split; [exact Hrun|]. split.
  - rewrite Hn. vm_compute. reflexivity.
  - rewrite Htags. vm_compute. reflexivity.
Defined.

(** Preparing the prepared example scene again: 22 textures for 16
    entries. *)
Lemma LoadSceneTextures_overrun_witness :
  textures_in_bounds prepared_scene /\
  Z.of_nat (length (m_textureIDs prepared_scene))
    < m_loadedTextures prepared_scene
      + Z.of_nat (length (loadable_requests prepared_scene scene_texture_requests)) /\
  PrepareScene example_scene = Done tt prepared_scene /\
  PrepareScene prepared_scene = Undefined OutOfBounds.
Proof.
  assert (Hroom : Z.of_nat (length (m_textureIDs prepared_scene))
                  < m_loadedTextures prepared_scene
                    + Z.of_nat (length (loadable_requests prepared_scene
                                          scene_texture_requests)))
    by (vm_compute; reflexivity).
  split; [exact prepared_in_bounds|]. split; [exact Hroom|].
  split; [vm_compute; reflexivity|].
  exact (proj2 (LoadSceneTextures_overruns_without_room prepared_scene
                  prepared_in_bounds Hroom)).
Defined.

(** The example scene, prepared. *)
Lemma PrepareScene_registers_witness :
  m_pShaderManager example_scene = Some empty_shader /\
  textures_in_bounds example_scene /\
  m_loadedTextures example_scene
    + Z.of_nat (length (loadable_requests example_scene scene_texture_requests))
    <= Z.of_nat (length (m_textureIDs example_scene)) /\
  exists st',
    PrepareScene example_scene = Done tt st' /\
    m_loadedTextures st' = 11 /\
    length (m_objectMaterials st') = 7%nat /\
    uniform g_UseLightingName st' = Some (UBool true).
Proof.
  assert (Hb : textures_in_bounds example_scene)
    by (unfold textures_in_bounds; cbn; lia).
  assert (Hroom : m_loadedTextures example_scene
                    + Z.of_nat (length (loadable_requests example_scene
                                          scene_texture_requests))
                  <= Z.of_nat (length (m_textureIDs example_scene)))
    by (vm_compute; discriminate).
  split; [reflexivity|]. split; [exact Hb|]. split; [exact Hroom|].
  destruct (PrepareScene_registers_what_loads example_scene empty_shader eq_refl Hb Hroom)
    as (st' & Hrun & _ & Hn & _ & Hms & _ & Hlit & _).
  exists st'. split; [exact Hrun|]. split; [|split; [|exact Hlit]].
  - rewrite Hn. vm_compute. reflexivity.
  - rewrite Hms. reflexivity.
Defined.

(** The example scene constructed with a null shader manager. *)
Lemma PrepareScene_needs_a_shader_witness :
  m_pShaderManager unlit_scene = None /\
  textures_in_bounds unlit_scene /\
  PrepareScene unlit_scene = Undefined NullPointer.
Proof.
  assert (Hb : textures_in_bounds unlit_scene)
    by (unfold textures_in_bounds; cbn; lia).
  split; [reflexivity|]. split; [exact Hb|].
  apply (proj2 (PrepareScene_needs_a_shader unlit_scene eq_refl Hb)).
  vm_compute. discriminate.
Defined.

Lemma prepared_shader_attached : m_pShaderManager prepared_scene = Some prepared_shader.
Proof. vm_compute. reflexivity. Qed.

(** Rendering the prepared example scene leaves the lighting switched on
    and the UV scale alone. *)
Lemma RenderScene_uniforms_witness :
  m_pShaderManager prepared_scene = Some prepared_shader /\
  textures_in_bounds prepared_scene /\
  exists (evs : list Call) (st' : State),
    @RenderScene series_libm (fun _ => zero_material) prepared_scene = Done tt st' /\
    calls st' = calls prepared_scene ++ evs /\
    frame st' = frame prepared_scene /\
    uniform g_UseLightingName st' = Some (UBool true) /\
    uniform "UVscale" st' = None.
Proof.
  assert (Hother : forall name : string,
            name = g_UseLightingName \/ name = "UVscale"%string ->
            name ∉ render_uniform_names).
  { intros name Hname. unfold render_uniform_names. rewrite !not_elem_of_cons.
    destruct Hname as [-> | ->];
      (repeat split; [discriminate.. | apply not_elem_of_nil]). }
  assert (Hlit : uniform g_UseLightingName prepared_scene = Some (UBool true))
    by (vm_compute; reflexivity).
  assert (Huv : uniform "UVscale" prepared_scene = None) by (vm_compute; reflexivity).
  split; [exact prepared_shader_attached|]. split; [exact prepared_in_bounds|].
  destruct (@RenderScene_touches_only_its_uniforms series_libm prepared_scene
              prepared_shader (fun _ => zero_material) prepared_shader_attached
              prepared_in_bounds)
    as (evs & st' & Hrun & Hc & _ & _ & Hfr & _ & _ & _ & Hu).
  exists evs, st'. split; [exact Hrun|]. split; [exact Hc|]. split; [exact Hfr|].
  split.
  - rewrite (Hu g_UseLightingName (Hother _ (or_introl eq_refl))). exact Hlit.
  - rewrite (Hu "UVscale"%string (Hother _ (or_intror eq_refl))). exact Huv.
Defined.

Lemma prepared_textures_registered : Forall (registered prepared_scene) scene_texture_tags.
Proof.
  unfold scene_texture_tags, scene_texture_requests. cbn [fmap list_fmap snd].
  repeat apply Forall_cons_2; [..|apply Forall_nil_2];
    apply find_registered; eexists _, _; vm_compute; reflexivity.
Qed.

Lemma prepared_materials_defined : Forall (material_defined prepared_scene) scene_material_tags.
Proof.
  unfold scene_material_tags, material_defined.
  assert (Hms : m_objectMaterials prepared_scene = [] ++ scene_materials)
    by (vm_compute; reflexivity).
  rewrite Hms. apply scene_materials_defined.
Qed.

(** Rendering the prepared example scene: every sampler is one of the
    eleven slots. *)
Lemma RenderScene_samplers_witness :
  m_pShaderManager prepared_scene = Some prepared_shader /\
  textures_in_bounds prepared_scene /\
  Forall (registered prepared_scene) scene_texture_tags /\
  exists (evs : list Call) (st' : State),
    @RenderScene series_libm (fun _ => zero_material) prepared_scene = Done tt st' /\
    calls st' = calls prepared_scene ++ evs /\
    forall (name : string) (slot : Z),
      SetUniform name (USampler2D slot) ∈ evs -> 0 <= slot < 11.
Proof.
  split; [exact prepared_shader_attached|]. split; [exact prepared_in_bounds|].
  split; [exact prepared_textures_registered|].
  destruct (@RenderScene_selects_loaded_textures series_libm prepared_scene
              prepared_shader (fun _ => zero_material) prepared_shader_attached
              prepared_in_bounds prepared_textures_registered)
    as (evs & st' & Hrun & Hc & Hslots).
  exists evs, st'. split; [exact Hrun|]. split; [exact Hc|].
  intros name slot Hin. exact (proj1 (proj2 (Hslots name slot Hin))).
Defined.

(** Rendering the prepared example scene with cement in the uninitialised
    local: every shininess written is that of a defined material. *)
Lemma RenderScene_materials_witness :
  m_pShaderManager prepared_scene = Some prepared_shader /\
  textures_in_bounds prepared_scene /\
  Forall (material_defined prepared_scene) scene_material_tags /\
  exists (evs : list Call) (st' : State),
    @RenderScene series_libm (fun _ => zero_material) prepared_scene = Done tt st' /\
    calls st' = calls prepared_scene ++ evs /\
    forall (name : string) (x : F32.float),
      SetUniform name (UFloat x) ∈ evs ->
      exists m, m ∈ m_objectMaterials prepared_scene /\ x = OBJECT_MATERIAL.shininess m.
Proof.
  split; [exact prepared_shader_attached|]. split; [exact prepared_in_bounds|].
  split; [exact prepared_materials_defined|].
  destruct (@RenderScene_writes_defined_materials series_libm prepared_scene
              prepared_shader (fun _ => zero_material) prepared_shader_attached
              prepared_in_bounds prepared_materials_defined)
    as (evs & st' & Hrun & Hc & _ & Hshine).
  exists evs, st'. split; [exact Hrun|]. split; [exact Hc|].
  intros name x Hin. destruct (Hshine name x Hin) as (_ & m & Hm & _ & Hx).
  exists m. split; [exact Hm | exact Hx].
Defined.

(** The invariant on the example scene, through [PrepareScene]. *)
Lemma registry_invariant_witness :
  textures_in_bounds example_scene /\
  names_are_GLuint example_scene /\
  PrepareScene example_scene = Done tt prepared_scene /\
  textures_in_bounds prepared_scene /\
  names_are_GLuint prepared_scene.
Proof.
  assert (Hb : textures_in_bounds example_scene)
    by (unfold textures_in_bounds; cbn; lia).
  assert (Hp : PrepareScene example_scene = Done tt prepared_scene)
    by (vm_compute; reflexivity).
  split; [exact Hb|]. split; [exact example_names_are_GLuint|]. split; [exact Hp|].
  destruct (@registry_invariant_is_kept series_libm example_scene Hb
              example_names_are_GLuint) as (_ & _ & _ & Hprep & _).
  exact (Hprep prepared_scene Hp).
Defined.

(** The texture that the driver named 4294967295: [FindTextureID] gives
    [-1], which converts back to the name. *)
Lemma FindTextureID_converts_back_witness :
  textures_in_bounds last_name_scene /\
  names_are_GLuint last_name_scene /\
  registered last_name_scene "metal" /\
  FindTextureID "metal" last_name_scene = Done (-1) last_name_scene /\
  exists (e : TEXTURE_INFO.t),
    registered_textures last_name_scene !! 0%nat = Some e /\
    to_GLuint (-1) = TEXTURE_INFO.ID e.
Proof.
  assert (Hb : textures_in_bounds last_name_scene)
    by (unfold textures_in_bounds; vm_compute; split; discriminate).
  assert (Hn : names_are_GLuint last_name_scene).
  { unfold names_are_GLuint.
    assert (Hids : m_textureIDs last_name_scene
                   = TEXTURE_INFO.mk 4294967295 "metal"
                       :: replicate 15 (TEXTURE_INFO.mk 0 EmptyString))
      by (vm_compute; reflexivity).
    rewrite Hids. constructor; [unfold GLuint_modulus; cbn; lia|].
    apply Forall_replicate. unfold GLuint_modulus. cbn. lia. }
  assert (Hreg : registered last_name_scene "metal").
  { exists (TEXTURE_INFO.mk 4294967295 "metal"). split; [|reflexivity].
    apply (list_elem_of_lookup_2 _ 0%nat). vm_compute. reflexivity. }
  assert (Hid : FindTextureID "metal" last_name_scene = Done (-1) last_name_scene)
    by (vm_compute; reflexivity).
  split; [exact Hb|]. split; [exact Hn|]. split; [exact Hreg|]. split; [exact Hid|].
  destruct (FindTextureID_converts_back "metal" last_name_scene Hb Hn Hreg)
    as (i & e & id & Hslot & He & Hrun & _ & Hback).
  assert (H0 : FindTextureSlot "metal" last_name_scene = Done 0 last_name_scene)
    by (vm_compute; reflexivity).
  assert (Hi : Z.of_nat i = 0) by congruence.
  assert (i = 0%nat) by lia. subst i.
  assert (Hm : id = -1) by congruence. subst id.
  exists e. split; [exact He | exact Hback].
Defined.

(** The two textures of the example: the names 1 and 2 of the driver. *)
Lemma FindTextureID_driver_order_witness :
  m_loadedTextures example_scene = 0 /\
  loaded_from example_scene two_requests two_textures_scene /\
  NoDup two_requests.*2 /\
  m_textureIDs two_textures_scene !! 1%nat = Some (TEXTURE_INFO.mk 2 "metal") /\
  FindTextureID "metal" two_textures_scene = Done 2 two_textures_scene.
Proof.
  assert (H0 : m_loadedTextures example_scene = 0) by reflexivity.
  assert (Hl : loaded_from example_scene two_requests two_textures_scene)
    by (apply load_all_loaded; vm_compute; reflexivity).
  assert (Hn : NoDup two_requests.*2)
    by (apply (bool_decide_unpack (NoDup two_requests.*2)); vm_compute; exact I).
  split; [exact H0|]. split; [exact Hl|]. split; [exact Hn|].
  exact (FindTextureID_follows_driver_order example_scene two_textures_scene
           two_requests H0 Hl Hn 1%nat "textures/metal.jpg" "metal" eq_refl).
Defined.
